(** * AIrism-Radar: acquisition, routing and scanning

    A shallow embedding of the URL-to-file pipeline of [src/app.py]
    ([detect_platform], [get_media_type_from_url], [scrape_media_urls],
    [download_with_requests], [download_with_ytdlp], [get_photo_index] and
    [download_media]), of the routing and analysis functions that follow it
    ([get_media_type], [save_to_correct_folder], [run_inference], [main],
    [video_model.predict_video], [image_model.predict_image]), of
    [plagiarism_scanner.py] and of the two pure functions of
    [utils_downloader.py], together with the properties its specification
    states.

    Conventions of the model.
    - Python [str] values are byte strings ([string]); the case mapping, the
      white space and the digits are the ASCII ones, so the model is exact on
      ASCII text.  [PyStr.int] reads a literal of any length, where CPython's
      [int] stops at 4300 digits: a statement about [int] of URL text carries
      both bounds.
    - A Python call either returns a value or raises: [outcome].  The
      collaborators the program talks to (the headless browser, the HTTP
      client, yt-dlp, the file system calls that can fail, the [mimetypes]
      table, the version-dependent checks of [urllib]) are read from a
      [World], a deterministic oracle: each of its calls may raise, inside a
      [try] of the source or outside of one.  What the program does to its
      surroundings (files created or renamed, requests issued, lines printed)
      is recorded in a [State].
    - The state holds regular files; directories are not tracked.  [print]
      does not raise. *)

From Stdlib Require Import Ascii String ZArith Lia.
From stdpp Require Import base decidable option list strings pretty gmap.

Local Open Scope Z_scope.
Set Warnings "-clear-no-such-hyp".

(** ** Outcomes of Python calls *)

(** The exceptions the pipeline can meet.  All of them derive from Python's
    [Exception], so an [except Exception] clause catches each of them. *)
Inductive exn :=
| ValueError
| IndexError
| TypeError
| UnboundLocalError
| CollaboratorError (what : string).

Inductive outcome (A : Type) :=
| Ret (a : A)
| Raise (e : exn).
Arguments Ret {A} a.
Arguments Raise {A} e.

Global Instance exn_eq_dec : EqDecision exn.
Proof. solve_decision. Defined.
Global Instance outcome_eq_dec {A} `{EqDecision A} : EqDecision (outcome A).
Proof. solve_decision. Defined.

Global Instance outcome_ret : MRet outcome := λ A a, Ret a.
Global Instance outcome_bind : MBind outcome := λ A B k o,
  match o with
  | Ret a => k a
  | Raise e => Raise e
  end.

(** ** Python string primitives *)

Module PyStr.

Definition lower_char (c : ascii) : ascii :=
  let n := nat_of_ascii c in
  if bool_decide (65 ≤ n ≤ 90)%nat then ascii_of_nat (n + 32) else c.

(** [s.lower()] *)
Fixpoint lower (s : string) : string :=
  match s with
  | EmptyString => EmptyString
  | String c r => String (lower_char c) (lower r)
  end.

(** [s.startswith(p)] *)
Fixpoint startswith (p s : string) : bool :=
  match p, s with
  | EmptyString, _ => true
  | String _ _, EmptyString => false
  | String a p', String b s' => bool_decide (a = b) && startswith p' s'
  end.

(** [needle in hay] *)
Fixpoint contains (needle hay : string) : bool :=
  startswith needle hay ||
  match hay with
  | EmptyString => false
  | String _ r => contains needle r
  end.

(** [c in s] for a single character *)
Fixpoint has_char (c : ascii) (s : string) : bool :=
  match s with
  | EmptyString => false
  | String a r => bool_decide (a = c) || has_char c r
  end.

(** [s.split(sep)] for a one-character separator: never the empty list. *)
Fixpoint split (sep : ascii) (s : string) : list string :=
  match s with
  | EmptyString => [EmptyString]
  | String c r =>
      if bool_decide (c = sep) then EmptyString :: split sep r
      else match split sep r with
           | h :: t => String c h :: t
           | [] => [String c EmptyString]
           end
  end.

(** [s.split(sep, 1)] as the pair (before, after) when [sep] occurs. *)
Fixpoint split_once (sep : ascii) (s : string) : option (string * string) :=
  match s with
  | EmptyString => None
  | String c r =>
      if bool_decide (c = sep) then Some (EmptyString, r)
      else match split_once sep r with
           | Some (a, b) => Some (String c a, b)
           | None => None
           end
  end.

(** [s.rsplit(sep, 1)] as the pair (before, after) when [sep] occurs. *)
Fixpoint rsplit_once (sep : ascii) (s : string) : option (string * string) :=
  match s with
  | EmptyString => None
  | String c r =>
      match rsplit_once sep r with
      | Some (a, b) => Some (String c a, b)
      | None => if bool_decide (c = sep) then Some (EmptyString, r) else None
      end
  end.

(** White space as [str.strip] and [str.split] see it (ASCII part). *)
Definition is_space (c : ascii) : bool :=
  let n := nat_of_ascii c in
  bool_decide (9 ≤ n ≤ 13)%nat || bool_decide (28 ≤ n ≤ 32)%nat.

Fixpoint lstrip (s : string) : string :=
  match s with
  | String c r => if is_space c then lstrip r else s
  | EmptyString => EmptyString
  end.

Definition rstrip (s : string) : string :=
  String.rev (lstrip (String.rev s)).

(** [s.strip()] *)
Definition strip (s : string) : string := rstrip (lstrip s).

Definition digit (c : ascii) : option Z :=
  let n := nat_of_ascii c in
  if bool_decide (48 ≤ n ≤ 57)%nat then Some (Z.of_nat n - 48) else None.

(** White space as C's [isspace] sees it: what [int] skips around an ASCII
    literal (it does not skip the separators 28 to 31 that [str.strip]
    removes). *)
Definition is_c_space (c : ascii) : bool :=
  let n := nat_of_ascii c in
  bool_decide (9 ≤ n ≤ 13)%nat || bool_decide (n = 32)%nat.

Fixpoint lstrip_c (s : string) : string :=
  match s with
  | String c r => if is_c_space c then lstrip_c r else s
  | EmptyString => EmptyString
  end.

Definition strip_c (s : string) : string :=
  String.rev (lstrip_c (String.rev (lstrip_c s))).

(** The digits of an integer literal, most significant first, [acc] the
    value read so far; [after_digit] tells whether an underscore may come
    next (single underscores are allowed between digits only). *)
Fixpoint int_digits (after_digit : bool) (acc : Z) (s : string) : option Z :=
  match s with
  | EmptyString => if after_digit then Some acc else None
  | String c r =>
      match digit c with
      | Some d => int_digits true (10 * acc + d) r
      | None =>
          if bool_decide (c = "_"%char) && after_digit
          then match r with
               | EmptyString => None
               | String c' _ =>
                   match digit c' with
                   | Some _ => int_digits false acc r
                   | None => None
                   end
               end
          else None
      end
  end.

(** [s.isascii()] *)
Fixpoint is_ascii (s : string) : bool :=
  match s with
  | EmptyString => true
  | String c r => bool_decide (nat_of_ascii c < 128)%nat && is_ascii r
  end.

(** The default of [sys.get_int_max_str_digits()]: CPython 3.11 (and the
    later releases of 3.10 and before) makes [int(s)] and [str(n)] raise
    [ValueError] beyond that many digits. *)
Definition int_max_str_digits : nat := 4300.

(** [int(s)] in base ten: [None] stands for [ValueError].  The limit on the
    number of digits is not part of the function, and digits and white space
    are the ASCII ones: [int] is CPython's on the ASCII strings of at most
    [int_max_str_digits] characters. *)
Definition int (s : string) : option Z :=
  match strip_c s with
  | String "+" r => int_digits false 0 r
  | String "-" r => Z.opp <$> int_digits false 0 r
  | t => int_digits false 0 t
  end.

(** [str(n)], as an f-string renders an [int]. *)
Definition str_of_int (n : Z) : string := pretty n.

End PyStr.

(** ** [urllib.parse.urlparse], [os.path] and [pathlib] *)

(** The library functions the pipeline calls on URLs and file names, over
    byte strings.  [urlparse] follows CPython's [urlsplit]/[urlparse]: strip
    leading C0 controls and spaces, drop tab, CR and LF, split off a valid
    scheme, then the authority after a double slash, check the authority
    (which can raise [ValueError]), split off the fragment, the query and
    the parameters of the last path segment. *)

Module Url.

Record ParseResult := {
  scheme : string;
  netloc : string;
  path : string;
  params : string;
  query : string;
  fragment : string
}.

Definition is_c0_or_space (c : ascii) : bool :=
  bool_decide (nat_of_ascii c ≤ 32)%nat.

Fixpoint lstrip_c0 (s : string) : string :=
  match s with
  | String c r => if is_c0_or_space c then lstrip_c0 r else s
  | EmptyString => EmptyString
  end.

Definition is_unsafe (c : ascii) : bool :=
  let n := nat_of_ascii c in
  bool_decide (n = 9)%nat || bool_decide (n = 10)%nat || bool_decide (n = 13)%nat.

Fixpoint remove_unsafe (s : string) : string :=
  match s with
  | String c r => if is_unsafe c then remove_unsafe r else String c (remove_unsafe r)
  | EmptyString => EmptyString
  end.

Definition is_alpha (c : ascii) : bool :=
  let n := nat_of_ascii c in
  bool_decide (65 ≤ n ≤ 90)%nat || bool_decide (97 ≤ n ≤ 122)%nat.

Definition is_scheme_char (c : ascii) : bool :=
  let n := nat_of_ascii c in
  is_alpha c || bool_decide (48 ≤ n ≤ 57)%nat ||
  bool_decide (c = "+"%char) || bool_decide (c = "-"%char) || bool_decide (c = "."%char).

Fixpoint all_chars (p : ascii → bool) (s : string) : bool :=
  match s with
  | EmptyString => true
  | String c r => p c && all_chars p r
  end.

(** The scheme and what follows its colon. *)
Definition split_scheme (url : string) : string * string :=
  match PyStr.split_once ":" url with
  | Some (String c0 _ as pre, rest) =>
      if is_alpha c0 && all_chars is_scheme_char pre
      then (PyStr.lower pre, rest) else (EmptyString, url)
  | _ => (EmptyString, url)
  end.

(** [_splitnetloc]: the authority runs up to the first of [/ ? #]. *)
Fixpoint span_netloc (s : string) : string * string :=
  match s with
  | EmptyString => (EmptyString, EmptyString)
  | String c r =>
      if bool_decide (c = "/"%char) || bool_decide (c = "?"%char) || bool_decide (c = "#"%char)
      then (EmptyString, s)
      else let '(a, b) := span_netloc r in (String c a, b)
  end.

Definition split_netloc (url : string) : string * string :=
  match url with
  | String "/" (String "/" r) => span_netloc r
  | _ => (EmptyString, url)
  end.

Definition uses_params : list string :=
  [""; "ftp"; "hdl"; "prospero"; "http"; "imap"; "https"; "shttp"; "rtsp";
   "rtspu"; "sip"; "sips"; "mms"; "sftp"; "tel"].

(** [_splitparams]: the parameters start at the first semicolon of the last
    path segment. *)
Definition splitparams (url : string) : string * string :=
  match PyStr.rsplit_once "/" url with
  | Some (dir, last) =>
      match PyStr.split_once ";" last with
      | Some (a, b) => (dir +:+ "/" +:+ a, b)
      | None => (url, EmptyString)
      end
  | None =>
      match PyStr.split_once ";" url with
      | Some (a, b) => (a, b)
      | None => (url, EmptyString)
      end
  end.

(** The six components, before any check. *)
Definition components (url : string) : ParseResult :=
  let url := remove_unsafe (lstrip_c0 url) in
  let '(sch, url) := split_scheme url in
  let '(loc, url) := split_netloc url in
  let '(url, frag) := default (url, EmptyString) (PyStr.split_once "#" url) in
  let '(url, qry) := default (url, EmptyString) (PyStr.split_once "?" url) in
  let '(url, prm) :=
    if bool_decide (sch ∈ uses_params) && PyStr.has_char ";" url
    then splitparams url else (url, EmptyString) in
  {| scheme := sch; netloc := loc; path := url; params := prm;
     query := qry; fragment := frag |}.

(** The checks of the authority.  Every version of [urlsplit] raises
    [ValueError] for an opening square bracket without a closing one, and
    the reverse.  An authority with both brackets is validated by the later
    versions only (the bracketed host must be an IPv6 or IPvFuture literal
    with nothing around it but user information and a port), and one that
    is not ASCII goes through a check of its NFKC form: these two depend on
    the version and on the Unicode tables, and are left to [ok]. *)
Definition netloc_accepted (ok : string → bool) (loc : string) : bool :=
  let opening := PyStr.has_char "[" loc in
  let closing := PyStr.has_char "]" loc in
  if xorb opening closing then false
  else if opening || negb (PyStr.is_ascii loc) then ok loc
  else true.

Definition urlparse (ok : string → bool) (url : string) : outcome ParseResult :=
  let result := components url in
  if netloc_accepted ok (netloc result) then Ret result else Raise ValueError.

(** [os.path.basename] *)
Definition basename (p : string) : string :=
  match PyStr.rsplit_once "/" p with
  | Some (_, b) => b
  | None => p
  end.

(** [os.path.splitext(p)[1]]: from the last dot of the base name, unless
    only dots come before it. *)
Definition splitext_ext (p : string) : string :=
  match PyStr.rsplit_once "." (basename p) with
  | Some (before, after) =>
      if all_chars (λ c, bool_decide (c = "."%char)) before then EmptyString
      else "." +:+ after
  | None => EmptyString
  end.

(** [PurePath.stem] of a file name: the name without its last suffix; a
    leading or a trailing dot starts no suffix. *)
Definition stem (name : string) : string :=
  match PyStr.rsplit_once "." name with
  | Some (before, after) =>
      if bool_decide (before = EmptyString) || bool_decide (after = EmptyString)
      then name else before
  | None => name
  end.

(** [dir / name] *)
Definition joinpath (dir name : string) : string := dir +:+ "/" +:+ name.

(** Shell-style matching of one file name, as [Path.glob] does for a
    pattern of one component: [*] is any run of characters and [?] any one
    character (character classes in brackets are not modelled). *)
Fixpoint fnmatch (pat : string) : string → bool :=
  match pat with
  | EmptyString => λ name, bool_decide (name = EmptyString)
  | String c p =>
      if bool_decide (c = "*"%char) then
        fix star (name : string) : bool :=
          fnmatch p name ||
          match name with
          | EmptyString => false
          | String _ n => star n
          end
      else if bool_decide (c = "?"%char) then
        λ name, match name with
                | EmptyString => false
                | String _ n => fnmatch p n
                end
      else
        λ name, match name with
                | EmptyString => false
                | String d n => bool_decide (c = d) && fnmatch p n
                end
  end.

End Url.

(** ** Collaborators and the observable state *)

(** Values of the option dictionary handed to yt-dlp. *)
Inductive pyval :=
| VStr (s : string)
| VBool (b : bool).

Global Instance pyval_eq_dec : EqDecision pyval.
Proof. solve_decision. Defined.

(** A DOM element handle: reading one of its attributes. *)
Record ElementHandle := {
  get_attribute : string → outcome (option string)
}.

(** A page once [page.goto] has returned. *)
Record Page := {
  wait_for_timeout : Z → outcome unit;
  wait_for_selector : string → outcome unit;
  query_selector : string → outcome (option ElementHandle);
  query_selector_all : string → outcome (list ElementHandle)
}.

(** What [YoutubeDL.extract_info(url, download=True)] yields: the extension
    it rendered into the output template and the [ext] entry of the info
    dictionary, if it has one. *)
Record YtInfo := {
  yt_file_ext : string;
  yt_info_ext : option string
}.

Record World := {
  (** the checks of an authority that depend on the version of [urllib]
      and on the Unicode tables (see [Url.netloc_accepted]) *)
  netloc_ok : string → bool;
  (** entering [sync_playwright()] and [p.chromium.launch(headless=True)] *)
  browser_launch : outcome unit;
  (** [browser.new_page()] *)
  browser_new_page : outcome unit;
  (** [page.set_extra_http_headers({...})] *)
  set_extra_http_headers : outcome unit;
  (** [browser.close()] *)
  browser_close : outcome unit;
  (** [page.goto(url, ...)] *)
  page_goto : string → outcome Page;
  (** [requests.head(url, ...).headers.get("Content-Type")] *)
  requests_head : string → outcome (option string);
  (** lines 158-159: [requests.get(url, stream=True, ...)] and
      [raise_for_status()] *)
  requests_get : string → outcome unit;
  (** line 160: [open(local_filename, 'wb')], which creates the file *)
  open_wb : string → outcome unit;
  (** lines 161-162: streaming the body of the response for a URL into the
      open file, and closing it *)
  iter_content : string → outcome unit;
  (** [mimetypes.guess_extension] *)
  guess_extension : string → option string;
  (** [save_dir.mkdir(parents=True, exist_ok=True)] *)
  mkdir : string → outcome unit;
  (** lines 199-201: [YoutubeDL(ydl_opts)], [extract_info(url,
      download=True)] and [info.get('ext', 'mp4')] *)
  ytdl_extract_info : string → outcome YtInfo;
  (** the files a run of yt-dlp that raises leaves behind *)
  ytdl_debris : string → gmap string pyval → list string;
  (** [Path.rename] *)
  path_rename : string → string → outcome unit
}.

(** The lines the program prints, one constructor per [print] of the
    source, with the values its f-string interpolates. *)
Inductive log_line :=
| DebugDomainFacebook
| DebugDomainYouTube
| WarnMetaSniff (e : exn)
| WarnSelectorNotFound
| WarnScraping (e : exn)
| DebugScraped (links : list string)
| InfoSaved (file : string)
| ErrorDownload (url : string) (e : exn)
| ErrorUnsupported
| WarnYtdlpYouTube (e : exn)
| InfoSkipScraping
| WarnYtdlpFacebook (e : exn)
| InfoAttemptScraping
| ErrorNoUsableMedia
| WarnPhotoIndexOutOfRange
| WarnNoMediaLinks.

(** What the program does to its surroundings.  [EvLaunch] is a browser
    that was launched, [EvClose] a call of [browser.close()]; the other
    events of a collaborator are recorded when it is called, whatever it
    answers. *)
Inductive event :=
| EvLaunch
| EvGoto (url : string)
| EvQuerySelector (selector : string)
| EvWaitForSelector (selector : string)
| EvQuerySelectorAll (selector : string)
| EvClose
| EvHead (url : string)
| EvGet (url : string)
| EvOpen (file : string)
| EvMkdir (dir : string)
| EvYtdlp (url : string) (ydl_opts : gmap string pyval)
| EvRename (src dst : string)
| EvPrint (line : log_line).

Record State := {
  files : gset string;
  trace : list event
}.

(** ** The monad of the embedding: state and exceptions *)

Definition M (A : Type) : Type := State → outcome A * State.

Global Instance M_ret : MRet M := λ A a s, (Ret a, s).
Global Instance M_bind : MBind M := λ A B k m s,
  match m s with
  | (Ret a, s') => k a s'
  | (Raise e, s') => (Raise e, s')
  end.

Definition raise {A} (e : exn) : M A := λ s, (Raise e, s).

Definition lift {A} (o : outcome A) : M A := λ s, (o, s).

(** [try: body except Exception as e: handler(e)] *)
Definition try_except {A} (body : M A) (handler : exn → M A) : M A := λ s,
  match body s with
  | (Ret a, s') => (Ret a, s')
  | (Raise e, s') => handler e s'
  end.

(** [try: body finally: cleanup]: the cleanup runs whatever the body did,
    and an exception of the cleanup replaces the outcome of the body. *)
Definition try_finally {A} (body : M A) (cleanup : M unit) : M A := λ s,
  let '(r, s') := body s in
  match cleanup s' with
  | (Ret _, s'') => (r, s'')
  | (Raise e, s'') => (Raise e, s'')
  end.

Definition record (ev : event) (s : State) : State :=
  {| files := files s; trace := trace s ++ [ev] |}.

Definition emit (ev : event) : M unit := λ s, (Ret (), record ev s).

Definition print (l : log_line) : M unit := emit (EvPrint l).

Definition add_file (p : string) : M unit := λ s,
  (Ret (), {| files := files s ∪ {[p]}; trace := trace s |}).

Definition add_files (ps : list string) : M unit := λ s,
  (Ret (), {| files := files s ∪ list_to_set ps; trace := trace s |}).

(** The effect of a rename that succeeded. *)
Definition move_file (src dst : string) : M unit := λ s,
  (Ret (), {| files := (files s ∖ {[src]}) ∪ {[dst]}; trace := trace s |}).

(** [Path.exists] *)
Definition path_exists (p : string) : M bool := λ s,
  (Ret (bool_decide (p ∈ files s)), s).

Fixpoint strip_prefix (p s : string) : option string :=
  match p, s with
  | EmptyString, _ => Some s
  | String _ _, EmptyString => None
  | String a p', String b s' => if bool_decide (a = b) then strip_prefix p' s' else None
  end.

(** The names of the files of a directory. *)
Definition listdir (fs : gset string) (dir : string) : list string :=
  omap (λ p, n ← strip_prefix (dir +:+ "/") p;
             if PyStr.has_char "/" n then None else Some n) (elements fs).

(** [Path(dir).glob(pattern)], as the names it matches. *)
Definition glob (dir pattern : string) : M (list string) := λ s,
  (Ret (filter (λ n, Url.fnmatch pattern n) (listdir (files s) dir)), s).

(** A list comprehension [[m for m in l if test(m)]] with an effectful
    test, evaluated left to right. *)
Fixpoint filterM {A} (test : A → M bool) (l : list A) : M (list A) :=
  match l with
  | [] => mret []
  | x :: r => b ← test x; r' ← filterM test r; mret (if b : bool then x :: r' else r')
  end.

(** [all(test(m) for m in l)]: stops at the first element that fails. *)
Fixpoint allM {A} (test : A → M bool) (l : list A) : M bool :=
  match l with
  | [] => mret true
  | x :: r => b ← test x; if b : bool then allM test r else mret false
  end.

(** [l[i]] with Python's negative indices and [IndexError]. *)
Definition getitem {A} (l : list A) (i : Z) : M A :=
  let j := if bool_decide (i < 0) then i + Z.of_nat (length l) else i in
  if bool_decide (0 ≤ j) then
    match l !! Z.to_nat j with
    | Some x => mret x
    | None => raise IndexError
    end
  else raise IndexError.

(** Truth value of an optional string: [None] and the empty string are
    false. *)
Definition truthy (o : option string) : bool :=
  match o with
  | Some s => bool_decide (s ≠ EmptyString)
  | None => false
  end.

(** A dictionary display [{k1: v1, k2: v2, ...}]: the entries are stored
    from left to right, a repeated key keeps its last value. *)
Definition dict_of (entries : list (string * pyval)) : gmap string pyval :=
  foldl (λ d kv, <[kv.1 := kv.2]> d) ∅ entries.

(** ** The pipeline of [app.py] *)

Definition IMAGE_DIR : string := "data/images".
Definition VIDEO_DIR : string := "data/videos".
Definition MERGE_OUTPUT_FORMAT : string := "mp4".

Definition sel_og_facebook : string :=
  "meta[property='og:site_name'][content='Facebook']".
Definition sel_itemprop_youtube : string :=
  "meta[itemprop='name'][content='YouTube']".
Definition sel_media_wait : string :=
  "img[src*='pbs.twimg.com/media'], video, img[data-visualcompletion='media-vc-image'], img[src*='scontent']".
Definition sel_video : string := "video".
Definition sel_media_vc_image : string :=
  "img[data-visualcompletion='media-vc-image']".
Definition sel_scontent : string := "img[src*='scontent']".

(** [urlparse(url)] in a world. *)
Definition urlparse (w : World) (url : string) : outcome Url.ParseResult :=
  Url.urlparse (netloc_ok w) url.

(** yt-dlp fills the [%(ext)s] field of its output template. *)
Fixpoint render_ext_go (ext : string) (skip : nat) (tmpl : string) : string :=
  match tmpl with
  | EmptyString => EmptyString
  | String c r =>
      match skip with
      | S k => render_ext_go ext k r
      | O => if PyStr.startswith "%(ext)s" tmpl
             then ext +:+ render_ext_go ext 6 r
             else String c (render_ext_go ext 0 r)
      end
  end.
Definition render_ext (ext tmpl : string) : string := render_ext_go ext 0 tmpl.

(** The loop of lines 132-137: [seen] is the set of links met so far,
    [unique_links] the list built so far. *)
Fixpoint dedup_loop (media_links : list string) (seen : gset string)
    (unique_links : list string) : list string :=
  match media_links with
  | [] => unique_links
  | m :: rest =>
      if bool_decide (m ∉ seen)
      then dedup_loop rest (seen ∪ {[m]}) (unique_links ++ [m])
      else dedup_loop rest seen unique_links
  end.

Definition dedup (media_links : list string) : list string :=
  dedup_loop media_links ∅ [].

(** [if src and "fbcdn.net" in src] *)
Definition keep_src (src : option string) : bool :=
  truthy src && PyStr.contains "fbcdn.net" (default EmptyString src).

(** One [for el in ...: src = el.get_attribute("src"); ...append(src)] loop
    over the elements a query returned.  [media_links] is the list the
    enclosing function has built so far; the result is that list as the loop
    leaves it and the exception that cut the loop short, if any. *)
Fixpoint collect_srcs (els : list ElementHandle) (media_links : list string)
    : list string * option exn :=
  match els with
  | [] => (media_links, None)
  | el :: rest =>
      match get_attribute el "src" with
      | Raise e => (media_links, Some e)
      | Ret src =>
          collect_srcs rest
            (if keep_src src then media_links ++ [default EmptyString src]
             else media_links)
      end
  end.

Definition collect_query (q : outcome (list ElementHandle))
    (media_links : list string) : list string * option exn :=
  match q with
  | Raise e => (media_links, Some e)
  | Ret els => collect_srcs els media_links
  end.

(** [get_photo_index]: it raises what [urlparse] raises. *)
Definition get_photo_index (w : World) (url : string) : outcome Z :=
  parsed ← urlparse w url;
  let parts := PyStr.split "/" (Url.path parsed) in
  if bool_decide ("photo" ∈ parts) then
    match PyStr.int (default EmptyString (last parts)) with
    | Some n => mret n
    | None => mret 1
    end
  else mret 1.

(** Lines 241 and 244: the test on a Facebook URL. *)
Definition is_video_shaped (w : World) (url : string) : outcome bool :=
  parsed ← urlparse w url;
  let path_lower := PyStr.lower (Url.path parsed) in
  mret (existsb (λ k, PyStr.contains k path_lower) ["/watch"; "/reel"; "/videos"; "/stories"]
        || PyStr.contains "story_fbid" (PyStr.lower url)).

(** [int(f.stem.split('_')[-1])] for a file name [f]. *)
Definition file_index (name : string) : option Z :=
  PyStr.int (default EmptyString (last (PyStr.split "_" (Url.stem name)))).

(** Lines 176-186: the next free number among the files found. *)
Definition next_number (existing_files : list string) : Z :=
  if bool_decide (existing_files ≠ []) then
    let nums := omap file_index existing_files in
    if bool_decide (nums ≠ []) then foldr Z.max (default 0 (head nums)) nums + 1 else 1
  else 1.

Definition ytdl_options (save_dir domain : string) (next_num : Z) : gmap string pyval :=
  let temp_name := domain +:+ "_temp.%(ext)s" in
  dict_of [
    ("outtmpl", VStr (Url.joinpath save_dir temp_name));
    ("outtmpl", VStr (Url.joinpath save_dir
                        (domain +:+ "_" +:+ PyStr.str_of_int next_num +:+ ".%(ext)s")));
    ("format", VStr "bestvideo[ext=mp4]+bestaudio[ext=m4a]/best[ext=mp4]");
    ("merge_output_format", VStr MERGE_OUTPUT_FORMAT);
    ("quiet", VBool false);
    ("restrictfilenames", VBool true)
  ].

Section Pipeline.
Context (w : World).

(** [browser.close()] *)
Definition close_browser : M unit :=
  emit EvClose;; lift (browser_close w).

(** [save_dir.mkdir(parents=True, exist_ok=True)] *)
Definition make_dir (dir : string) : M unit :=
  emit (EvMkdir dir);; lift (mkdir w dir).

(** [src.rename(dst)] *)
Definition rename (src dst : string) : M unit :=
  emit (EvRename src dst);; lift (path_rename w src dst);; move_file src dst.

Definition detect_platform (url : string) : M (option string) :=
  parsed ← lift (urlparse w url);
  let domain := PyStr.lower (Url.netloc parsed) in
  if PyStr.contains "facebook.com" domain then
    print DebugDomainFacebook;; mret (Some "facebook")
  else if PyStr.contains "youtube.com" domain || PyStr.contains "youtu.be" domain then
    print DebugDomainYouTube;; mret (Some "youtube")
  else
    lift (browser_launch w);;
    emit EvLaunch;;
    lift (browser_new_page w);;
    try_finally
      (try_except
         (emit (EvGoto url);;
          page ← lift (page_goto w url);
          lift (wait_for_timeout page 3000);;
          emit (EvQuerySelector sel_og_facebook);;
          fb ← lift (query_selector page sel_og_facebook);
          if bool_decide (is_Some fb) then mret (Some "facebook")
          else
            emit (EvQuerySelector sel_itemprop_youtube);;
            yt ← lift (query_selector page sel_itemprop_youtube);
            if bool_decide (is_Some yt) then mret (Some "youtube")
            else mret None)
         (λ e, print (WarnMetaSniff e);; mret None))
      close_browser.

Definition head_content_type (url : string) : M (option string) :=
  emit (EvHead url);;
  match requests_head w url with
  | Ret ct =>
      if truthy ct
      then mret (Some (PyStr.lower (PyStr.strip
                   (default EmptyString (head (PyStr.split ";" (default EmptyString ct)))))))
      else mret None
  | Raise _ => mret None
  end.

Definition get_media_type_from_url (url : string) : M (option string) :=
  mime ← head_content_type url;
  if truthy mime && PyStr.startswith "image/" (default EmptyString mime) then mret (Some "image")
  else if truthy mime && PyStr.startswith "video/" (default EmptyString mime) then mret (Some "video")
  else
    parsed ← lift (urlparse w url);
    let ext := PyStr.lower (Url.splitext_ext (Url.path parsed)) in
    if bool_decide (ext ∈ ({[".jpg"; ".jpeg"; ".png"; ".gif"]} : gset string)) then mret (Some "image")
    else if bool_decide (ext ∈ ({[".mp4"; ".mov"; ".mkv"; ".avi"]} : gset string)) then mret (Some "video")
    else mret None.

(** The body of the outer [try] of [scrape_media_urls] (lines 98-125): the
    links appended to [media_links] and the exception that ended it, if any. *)
Definition scrape_try_body (url : string) : M (list string * option exn) :=
  emit (EvGoto url);;
  match page_goto w url with
  | Raise e => mret ([], Some e)
  | Ret page =>
      emit (EvWaitForSelector sel_media_wait);;
      match wait_for_selector page sel_media_wait with
      | Ret _ => mret ()
      | Raise _ => print WarnSelectorNotFound
      end;;
      emit (EvQuerySelectorAll sel_video);;
      let '(media_links, fault) := collect_query (query_selector_all page sel_video) [] in
      if bool_decide (is_Some fault) then mret (media_links, fault) else
      emit (EvQuerySelectorAll sel_media_vc_image);;
      let '(media_links, fault) :=
        collect_query (query_selector_all page sel_media_vc_image) media_links in
      if bool_decide (is_Some fault) then mret (media_links, fault) else
      emit (EvQuerySelectorAll sel_scontent);;
      mret (collect_query (query_selector_all page sel_scontent) media_links)
  end.

Definition scrape_media_urls (url : string) : M (list string) :=
  lift (browser_launch w);;
  emit EvLaunch;;
  lift (browser_new_page w);;
  lift (set_extra_http_headers w);;
  media_links ←
    try_finally
      ('(media_links, fault) ← scrape_try_body url;
       match fault with
       | Some e => print (WarnScraping e)
       | None => mret ()
       end;;
       mret media_links)
      close_browser;
  let unique_links := dedup media_links in
  print (DebugScraped unique_links);;
  mret unique_links.

Definition download_with_requests (url save_dir : string) : M (option string) :=
  make_dir save_dir;;
  parsed ← lift (urlparse w url);
  let filename := Url.basename (Url.path parsed) in
  filename ←
    (if negb (PyStr.has_char "." filename) then
       mime ← head_content_type url;
       let ext := if truthy mime then guess_extension w (default EmptyString mime)
                  else Some ".bin" in
       match ext with
       | Some ext => mret (filename +:+ ext)
       | None => raise TypeError
       end
     else mret filename);
  let local_filename := Url.joinpath save_dir filename in
  try_except
    (emit (EvGet url);;
     lift (requests_get w url);;
     emit (EvOpen local_filename);;
     lift (open_wb w local_filename);;
     add_file local_filename;;
     lift (iter_content w url);;
     print (InfoSaved local_filename);;
     mret (Some local_filename))
    (λ e, print (ErrorDownload url e);; mret None).

(** Lines 199-201: the run of yt-dlp.  When it returns, the file it wrote
    is the output template with the extension filled in; when it raises, it
    leaves its debris. *)
Definition run_ytdlp (url : string) (ydl_opts : gmap string pyval) : M YtInfo :=
  emit (EvYtdlp url ydl_opts);;
  match ytdl_extract_info w url with
  | Ret info =>
      match ydl_opts !! "outtmpl" with
      | Some (VStr outtmpl) => add_file (render_ext (yt_file_ext info) outtmpl)
      | _ => mret ()
      end;;
      mret info
  | Raise e => add_files (ytdl_debris w url ydl_opts);; raise e
  end.

Definition download_with_ytdlp (url save_dir : string) : M string :=
  make_dir save_dir;;
  parsed ← lift (urlparse w url);
  domain ←
    match reverse (PyStr.split "." (PyStr.lower (Url.netloc parsed))) with
    | _ :: d :: _ => mret d
    | _ => raise IndexError
    end;
  existing_files ← glob save_dir (domain +:+ "_*");
  let next_num := next_number existing_files in
  let ydl_opts := ytdl_options save_dir domain next_num in
  info ← run_ytdlp url ydl_opts;
  let ext := default "mp4" (yt_info_ext info) in
  let final_name := domain +:+ "_" +:+ PyStr.str_of_int next_num +:+ "." +:+ ext in
  let temp_path := Url.joinpath save_dir (domain +:+ "_temp." +:+ ext) in
  let final_path := Url.joinpath save_dir final_name in
  temp_exists ← path_exists temp_path;
  (if temp_exists : bool then rename temp_path final_path else mret ());;
  mret final_path.

Definition is_type (t : string) (m : string) : M bool :=
  ty ← get_media_type_from_url m; mret (bool_decide (ty = Some t)).

(** Lines 283-295: the branch for a platform that is neither YouTube nor
    Facebook. *)
Definition download_generic (url : string) : M (option string) :=
  media_links ← scrape_media_urls url;
  if bool_decide (media_links = []) then
    print WarnNoMediaLinks;; mret None
  else
    link0 ← getitem media_links 0;
    first_type ← get_media_type_from_url link0;
    all_images ← allM (is_type "image") media_links;
    if all_images : bool then
      link0 ← getitem media_links 0; download_with_requests link0 IMAGE_DIR
    else
      all_videos ← allM (is_type "video") media_links;
      if all_videos : bool then
        link0 ← getitem media_links 0; download_with_requests link0 VIDEO_DIR
      else
        let target_dir := if bool_decide (first_type = Some "image")
                          then IMAGE_DIR else VIDEO_DIR in
        link0 ← getitem media_links 0; download_with_requests link0 target_dir.

(** [download_media], with [tail] in the place of lines 283-295. *)
Definition download_media_with (tail : string → M (option string)) (url : string)
    : M (option string) :=
  platform ← detect_platform url;
  if negb (truthy platform) then
    print ErrorUnsupported;; mret None
  else if bool_decide (platform = Some "youtube") then
    try_except
      (file ← download_with_ytdlp url VIDEO_DIR; mret (Some file))
      (λ e, print (WarnYtdlpYouTube e);; print InfoSkipScraping;; mret None)
  else if bool_decide (platform = Some "facebook") then
    video_shaped ← lift (is_video_shaped w url);
    if video_shaped : bool then
      try_except
        (file ← download_with_ytdlp url VIDEO_DIR; mret (Some file))
        (λ e,
          print (WarnYtdlpFacebook e);;
          print InfoAttemptScraping;;
          media_links ← scrape_media_urls url;
          if bool_decide (media_links ≠ []) then
            vids ← filterM (is_type "video") media_links;
            imgs ← filterM (is_type "image") media_links;
            if bool_decide (vids ≠ []) then
              v ← getitem vids 0; download_with_requests v VIDEO_DIR
            else if bool_decide (imgs ≠ []) then
              i ← getitem imgs 0; download_with_requests i IMAGE_DIR
            else
              print ErrorNoUsableMedia;; mret None
          else
            print ErrorNoUsableMedia;; mret None)
    else
      media_links ← scrape_media_urls url;
      if bool_decide (media_links ≠ []) then
        vids ← filterM (is_type "video") media_links;
        imgs ← filterM (is_type "image") media_links;
        if bool_decide (vids ≠ []) then
          v ← getitem vids 0; download_with_requests v VIDEO_DIR
        else
          (* [index] is assigned only under [if imgs:] and read after it *)
          index ← (if bool_decide (imgs ≠ [])
                   then photo_index ← lift (get_photo_index w url);
                        mret (Some (photo_index - 1))
                   else mret None);
          match index with
          | None => raise UnboundLocalError
          | Some index =>
              if bool_decide (0 ≤ index) && bool_decide (index < Z.of_nat (length imgs)) then
                i ← getitem imgs index; download_with_requests i IMAGE_DIR
              else
                print WarnPhotoIndexOutOfRange;;
                i ← getitem imgs 0; download_with_requests i IMAGE_DIR
          end
      else
        print ErrorNoUsableMedia;; mret None
  else tail url.

Definition download_media (url : string) : M (option string) :=
  download_media_with download_generic url.

End Pipeline.

(** ** Pure views of the pipeline, event classes and sample worlds *)

Definition empty_state : State := {| files := ∅; trace := [] |}.

(** The state [s] after further events, its files untouched. *)
Definition extend (s : State) (evs : list event) : State :=
  {| files := files s; trace := trace s ++ evs |}.

(** The state [s] with an empty trace. *)
Definition bare (s : State) : State := {| files := files s; trace := [] |}.

(** The outcome of a computation started from the empty state. *)
Definition value_of {A} (m : M A) : outcome A := (m empty_state).1.

Definition platform_of (w : World) (url : string) : outcome (option string) :=
  value_of (detect_platform w url).
Definition classify (w : World) (url : string) : outcome (option string) :=
  value_of (get_media_type_from_url w url).
Definition scraped (w : World) (url : string) : outcome (list string) :=
  value_of (scrape_media_urls w url).

(** The candidates the classifier gives the type [t], in scrape order: the
    value of [[m for m in media_links if get_media_type_from_url(m) == t]]
    when the classifier raises on no link. *)
Definition candidates_of_type (w : World) (t : string) (links : list string)
    : list string :=
  filter (λ m, classify w m = Ret (Some t)) links.

(** The classifier raises on none of the links ([urlparse] accepts those
    whose type the [HEAD] request does not settle). *)
Definition classifiable (w : World) (links : list string) : Prop :=
  Forall (λ m, ∃ t, classify w m = Ret t) links.

(** How [download_with_ytdlp] ends in the video directory when the files
    present are [fs]. *)
Definition ytdlp_outcome (w : World) (url : string) (fs : gset string) : outcome string :=
  (download_with_ytdlp w url VIDEO_DIR {| files := fs; trace := [] |}).1.

(** Whether the page behind a URL renders (it loads and the wait of three
    seconds passes) and holds an element for a selector. *)
Definition page_has (w : World) (url selector : string) : bool :=
  match page_goto w url with
  | Ret page =>
      match wait_for_timeout page 3000, query_selector page selector with
      | Ret _, Ret (Some _) => true
      | _, _ => false
      end
  | Raise _ => false
  end.

(** The browser session of [detect_platform] can be set up and closed: the
    three calls that sit outside its [try] return. *)
Definition sniff_session (w : World) : Prop :=
  browser_launch w = Ret () ∧ browser_new_page w = Ret () ∧ browser_close w = Ret ().

(** The same for [scrape_media_urls], which also sets the headers of the
    page before its [try]. *)
Definition scrape_session (w : World) : Prop :=
  browser_launch w = Ret () ∧ browser_new_page w = Ret ()
  ∧ set_extra_http_headers w = Ret () ∧ browser_close w = Ret ().

(** The name lines 147-155 give the local file of a download, when they
    complete: the base name of the path of the URL, with the extension
    [mimetypes] guesses from the [HEAD] request when it has no dot. *)
Definition local_name (w : World) (url : string) : option string :=
  match urlparse w url with
  | Raise _ => None
  | Ret parsed =>
      let filename := Url.basename (Url.path parsed) in
      if PyStr.has_char "." filename then Some filename
      else match value_of (head_content_type w url) with
           | Ret mime =>
               ext ← (if truthy mime then guess_extension w (default EmptyString mime)
                      else Some ".bin");
               Some (filename +:+ ext)
           | Raise _ => None
           end
  end.

(** Every step of a download of [url] into [save_dir] succeeds, and the
    file is [file]. *)
Definition saves (w : World) (url save_dir file : string) : Prop :=
  ∃ name,
    local_name w url = Some name
    ∧ file = Url.joinpath save_dir name
    ∧ mkdir w save_dir = Ret ()
    ∧ requests_get w url = Ret ()
    ∧ open_wb w file = Ret ()
    ∧ iter_content w url = Ret ().

(** Classes of events. *)
Definition is_download (ev : event) : bool :=
  match ev with
  | EvGet _ | EvOpen _ | EvMkdir _ | EvYtdlp _ _ | EvRename _ _ => true
  | _ => false
  end.
Definition is_get (ev : event) : bool :=
  match ev with
  | EvGet _ => true
  | _ => false
  end.
Definition is_launch (ev : event) : bool :=
  match ev with
  | EvLaunch => true
  | _ => false
  end.
Definition is_close (ev : event) : bool :=
  match ev with
  | EvClose => true
  | _ => false
  end.
Definition is_rename (ev : event) : bool :=
  match ev with
  | EvRename _ _ => true
  | _ => false
  end.
Definition is_fetch_or_scrape (ev : event) : bool :=
  match ev with
  | EvGet _ | EvOpen _ | EvMkdir _ | EvYtdlp _ _ | EvRename _ _ | EvHead _
  | EvWaitForSelector _ | EvQuerySelectorAll _ => true
  | _ => false
  end.
(** Events of scraping and of the generic download: page queries, [HEAD]
    and [GET] requests, files opened for writing. *)
Definition is_scrape_or_request (ev : event) : bool :=
  match ev with
  | EvGet _ | EvOpen _ | EvHead _ | EvWaitForSelector _ | EvQuerySelectorAll _ => true
  | _ => false
  end.

(** Event classes as propositions. *)
Definition no_get (ev : event) : Prop := is_get ev = false.
Definition no_download (ev : event) : Prop := is_download ev = false.
Definition no_fetch_or_scrape (ev : event) : Prop := is_fetch_or_scrape ev = false.
Definition no_scrape_or_request (ev : event) : Prop := is_scrape_or_request ev = false.

(** Events that neither open nor close a browser session. *)
Definition session_free (ev : event) : Prop :=
  is_launch ev = false ∧ is_close ev = false.

(** The output template an event hands to yt-dlp. *)
Definition outtmpl_of (ev : event) : option pyval :=
  match ev with
  | EvYtdlp _ ydl_opts => ydl_opts !! "outtmpl"
  | _ => None
  end.

(** ** Predicates on computations *)

(** A computation is quiet for a class [P] of events when, from every state,
    it leaves the files alone, appends events of the class only, and ends
    with one and the same outcome. *)
Definition quiet {A} (P : event → Prop) (m : M A) : Prop :=
  ∀ s, ∃ evs, m s = (value_of m, extend s evs) ∧ Forall P evs.

(** A computation emits events of a class [P] when, from every state, the
    events it appends are in the class (it may change the files). *)
Definition emits {A} (P : event → Prop) (m : M A) : Prop :=
  ∀ s, ∃ evs, trace (m s).2 = trace s ++ evs ∧ Forall P evs.

(** A computation is framed when it reads the files of the state only: it
    runs from a state as from the same files with an empty trace, and
    appends its events to the trace it finds. *)
Definition framed {A} (m : M A) : Prop :=
  ∀ s, m s = ((m (bare s)).1,
              {| files := files (m (bare s)).2;
                 trace := trace s ++ trace (m (bare s)).2 |}).

(** A computation is balanced when, from every state and whatever its
    outcome, it appends as many session launches as session closes. *)
Definition balanced {A} (m : M A) : Prop :=
  ∀ s, ∃ evs,
    trace (m s).2 = trace s ++ evs
    ∧ length (filter (λ ev, is_launch ev) evs) = length (filter (λ ev, is_close ev) evs).

(** ** Sample data *)

(** An element whose [src] attribute is the given link. *)
Definition element (src : string) : ElementHandle :=
  {| get_attribute := λ name,
       Ret (if bool_decide (name = "src") then Some src else None) |}.

(** A page with the given [<video>] sources and marked images, and no
    metadata marker. *)
Definition media_page (videos images : list string) : Page :=
  {| wait_for_timeout := λ _, Ret ();
     wait_for_selector := λ _, Ret ();
     query_selector := λ _, Ret None;
     query_selector_all := λ sel,
       if bool_decide (sel = sel_video) then Ret (element <$> videos)
       else if bool_decide (sel = sel_media_vc_image) then Ret (element <$> images)
       else Ret [] |}.

(** A world whose browser launches as [launch] says, whose every page is
    [page], where [HEAD] requests fail, [GET] requests and the file system
    succeed, and yt-dlp behaves as [yt] says, leaving a part file when it
    fails.  The library accepts bracketed hosts that start with a colon or
    a hexadecimal digit. *)
Definition sample_world_with (launch : outcome unit) (page : outcome Page)
    (yt : outcome YtInfo) : World :=
  {| netloc_ok := λ loc, PyStr.contains "[:" loc || PyStr.contains "[f" loc;
     browser_launch := launch;
     browser_new_page := Ret ();
     set_extra_http_headers := Ret ();
     browser_close := Ret ();
     page_goto := λ _, page;
     requests_head := λ _, Raise (CollaboratorError "HEAD refused");
     requests_get := λ _, Ret ();
     open_wb := λ _, Ret ();
     iter_content := λ _, Ret ();
     guess_extension := λ _, None;
     mkdir := λ _, Ret ();
     ytdl_extract_info := λ _, yt;
     ytdl_debris := λ _ _, ["data/videos/download.part"];
     path_rename := λ _ _, Ret () |}.

Definition sample_world (page : outcome Page) (yt : outcome YtInfo) : World :=
  sample_world_with (Ret ()) page yt.

Definition yt_mp4 : outcome YtInfo :=
  Ret {| yt_file_ext := "mp4"; yt_info_ext := Some "mp4" |}.
Definition yt_unsupported : outcome YtInfo :=
  Raise (CollaboratorError "Unsupported URL").

Definition cdn (name : string) : string := "https://scontent.fbcdn.net/v/" +:+ name.

Definition offline_world : World :=
  sample_world (Raise (CollaboratorError "net::ERR_INTERNET_DISCONNECTED")) yt_unsupported.

(** A world without a browser to launch. *)
Definition browserless_world : World :=
  sample_world_with (Raise (CollaboratorError "Executable doesn't exist"))
    (Raise (CollaboratorError "net::ERR_INTERNET_DISCONNECTED")) yt_unsupported.

(** A world whose browser starts but opens no page. *)
Definition pageless_world : World :=
  {| netloc_ok := λ _, false;
     browser_launch := Ret ();
     browser_new_page := Raise (CollaboratorError "Target closed");
     set_extra_http_headers := Ret ();
     browser_close := Ret ();
     page_goto := λ _, Raise (CollaboratorError "net::ERR_INTERNET_DISCONNECTED");
     requests_head := λ _, Raise (CollaboratorError "HEAD refused");
     requests_get := λ _, Ret ();
     open_wb := λ _, Ret ();
     iter_content := λ _, Ret ();
     guess_extension := λ _, None;
     mkdir := λ _, Ret ();
     ytdl_extract_info := λ _, yt_unsupported;
     ytdl_debris := λ _ _, [];
     path_rename := λ _ _, Ret () |}.

Definition state_with_files (names : list string) : State :=
  {| files := list_to_set names; trace := [] |}.

Definition sample_video_world : World := sample_world (Ret (media_page [] [])) yt_mp4.

(** A photo page with five images, one with a single image, one with a
    video among images, and one whose images the classifier cannot type
    (the [HEAD] requests of the sample world fail, and [.webp] is in neither
    extension list). *)
Definition five_photos_world : World :=
  sample_world
    (Ret (media_page [] [cdn "1.jpg"; cdn "2.jpg"; cdn "3.jpg"; cdn "4.jpg"; cdn "5.jpg"]))
    yt_unsupported.
Definition mixed_world : World :=
  sample_world (Ret (media_page [cdn "clip.mp4"] [cdn "1.jpg"; cdn "2.jpg"])) yt_unsupported.
Definition webp_world : World :=
  sample_world (Ret (media_page [] [cdn "1.webp"; cdn "2.webp"])) yt_unsupported.




(** ** The specification's wording of two functions, and further predicates *)

(** The segment that follows the first [photo] component of a path, which
    is where section 4.5 of the specification looks for the photo index. *)
Fixpoint segment_after_photo (parts : list string) : option string :=
  match parts with
  | [] => None
  | p :: rest =>
      if bool_decide (p = "photo") then head rest else segment_after_photo rest
  end.

(** The photo index as the specification words it: the numeric value of the
    segment that follows [photo], 1 when it is absent or not numeric. *)
Definition photo_index_by_spec (url : string) : Z :=
  default 1 (segment_after_photo (PyStr.split "/" (Url.path (Url.components url)))
             ≫= PyStr.int).

(** De-duplication as the specification words it: every link is kept at its
    first occurrence and dropped from the rest. *)
Fixpoint dedup_keep_first (l : list string) : list string :=
  match l with
  | [] => []
  | x :: r => x :: filter (λ y, y ≠ x) (dedup_keep_first r)
  end.

(** A domain label that [Path.glob] reads literally. *)
Definition glob_literal (s : string) : Prop :=
  PyStr.has_char "*" s = false ∧ PyStr.has_char "?" s = false.

(** The label [download_with_ytdlp] names its files after: the last but one
    of the dot-separated labels of the lower-cased authority. *)
Definition domain_label (w : World) (url : string) : option string :=
  match urlparse w url with
  | Ret parsed =>
      match reverse (PyStr.split "." (PyStr.lower (Url.netloc parsed))) with
      | _ :: d :: _ => Some d
      | _ => None
      end
  | Raise _ => None
  end.

(** A link the scraper keeps: non-empty and on the Facebook CDN. *)
Definition cdn_link (link : string) : Prop :=
  link ≠ EmptyString ∧ PyStr.contains "fbcdn.net" link = true.

(** A character that is no ASCII letter. *)
Definition not_letter (c : ascii) : Prop :=
  ¬ (65 ≤ nat_of_ascii c ≤ 90)%nat ∧ ¬ (97 ≤ nat_of_ascii c ≤ 122)%nat.

(** The run of [m] from [s] ends in the download of [link] into
    [save_dir], and appends the events [evs]: the only [GET] among them is
    for [link], and when every step of that download succeeds, the [GET] is
    issued, the file is opened and written, and the run returns the file,
    which then exists. *)
Definition fetches (w : World) (m : M (option string)) (s : State)
    (link save_dir : string) (evs : list event) : Prop :=
  trace (m s).2 = trace s ++ evs
  ∧ (∀ ev, ev ∈ evs → is_get ev = true → ev = EvGet link)
  ∧ ∀ file, saves w link save_dir file →
      (m s).1 = Ret (Some file)
      ∧ file ∈ files (m s).2
      ∧ EvGet link ∈ evs
      ∧ EvOpen file ∈ evs
      ∧ EvPrint (InfoSaved file) ∈ evs.

(** ** The plagiarism scanner of [plagiarism_scanner.py] *)

(** Exceptions other than the four named ones are told apart by the name
    of their class. *)
Definition FileNotFoundError : exn := CollaboratorError "FileNotFoundError".
Definition KeyError : exn := CollaboratorError "KeyError".

Definition newline : string := String "010" EmptyString.

(** Python primitives the scanner adds to those above. *)
Module PyText.

(** [s.split()] without argument: the maximal runs of characters that are
    not white space. *)
Fixpoint split_ws (s : string) : list string :=
  match s with
  | EmptyString => []
  | String c r =>
      if PyStr.is_space c then split_ws r
      else match r with
           | EmptyString => [String c EmptyString]
           | String d _ =>
               if PyStr.is_space d then String c EmptyString :: split_ws r
               else match split_ws r with
                    | h :: t => String c h :: t
                    | [] => [String c EmptyString]
                    end
           end
  end.

(** [sep.join(l)] *)
Fixpoint join (sep : string) (l : list string) : string :=
  match l with
  | [] => EmptyString
  | [x] => x
  | x :: r => x +:+ sep +:+ join sep r
  end.

(** [s[:n]] *)
Fixpoint take_str (n : nat) (s : string) : string :=
  match n, s with
  | S k, String c r => String c (take_str k r)
  | _, _ => EmptyString
  end.

(** [l[-n:]] for a positive [n] *)
Definition last_n {A} (n : nat) (l : list A) : list A := drop (length l - n) l.

(** The characters [\w] matches: letters, digits and the underscore; bytes
    above 127 stand for letters that are not ASCII. *)
Definition is_word (c : ascii) : bool :=
  let n := nat_of_ascii c in
  bool_decide (48 ≤ n ≤ 57)%nat || bool_decide (65 ≤ n ≤ 90)%nat
  || bool_decide (97 ≤ n ≤ 122)%nat || bool_decide (n = 95)%nat
  || bool_decide (128 ≤ n)%nat.

(** [re.sub(r"\W+", " ", s)]: every maximal run of characters that are not
    word characters becomes one space; [in_run] tells that such a run is under
    way. *)
Fixpoint sub_nonword (in_run : bool) (s : string) : string :=
  match s with
  | EmptyString => EmptyString
  | String c r =>
      if is_word c then String c (sub_nonword false r)
      else if in_run then sub_nonword true r
      else String " " (sub_nonword true r)
  end.

End PyText.

(** What the scanner needs from its surroundings.  [float] stands for
    Python's floating-point numbers, of which the scanner only forms
    quotients of two counts and compares them with 0.9 and 0.7. *)
Record ScanEnv (float : Type) := {
  (** the order in which [list(set(...))] enumerates a set of strings *)
  set_order : gset string → list string;
  (** lines 75-76: the search request for one query and its JSON; [None]
      when the answer lacks [web] or [results], else the [url] entry of every
      result (reading it may raise) *)
  brave_search : string → outcome (option (list (outcome (option string))));
  (** lines 85-87: the visible text of the page behind a link *)
  fetch_text : string → outcome string;
  float_zero : float;
  (** [k / n] for two counts, [n] positive *)
  true_div : nat → nat → float;
  ge_0_9 : float → bool;
  ge_0_7 : float → bool;
  (** [int(round(k / total * 100))] *)
  round_percent : Z → Z → Z;
  (** [p.text for p in Document(path).paragraphs] *)
  docx_paragraphs : string → outcome (list string)
}.
Arguments set_order {float} _ _.
Arguments brave_search {float} _ _.
Arguments fetch_text {float} _ _.
Arguments float_zero {float} _.
Arguments true_div {float} _ _ _.
Arguments ge_0_9 {float} _ _.
Arguments ge_0_7 {float} _ _.
Arguments round_percent {float} _ _ _.
Arguments docx_paragraphs {float} _ _.

(** A word as [str.split()] yields it: not empty, without white space. *)
Definition is_token (w : string) : Prop :=
  w ≠ EmptyString ∧ Url.all_chars (λ c, negb (PyStr.is_space c)) w = true.

(** The three answers of [web_verify]. *)
Definition verdict (answer : string * option string) : Prop :=
  answer = ("ORIGINAL", None)
  ∨ (∃ link, link ≠ EmptyString ∧ answer = ("PLAGIARISM (exact)", Some link))
  ∨ (∃ link, link ≠ EmptyString ∧ answer = ("PLAGIARISM (paraphrase)", Some link)).

(** One entry of the result list of a scan. *)
Record ScanResult := {
  sr_paragraph : string;
  sr_label : string;
  sr_web_source : option string
}.

(** The summary dictionary of a scan. *)
Record ScanSummary := {
  sum_total : Z;
  sum_plagiarized : Z;
  sum_exact : Z;
  sum_paraphrase : Z;
  sum_original : Z;
  sum_plag_percent : Z;
  sum_exact_percent : Z;
  sum_paraphrase_percent : Z;
  sum_original_percent : Z
}.

Module Plagiarism.

Definition normalize (s : string) : string :=
  PyStr.strip (PyStr.lower (PyText.sub_nonword false s)).

Definition split_paragraphs (text : string) : list string :=
  let raw_paragraphs := PyStr.split "010" text in
  omap (λ p, if bool_decide (PyStr.strip p ≠ EmptyString)
             then Some (PyStr.strip p) else None) raw_paragraphs.

(** [make_queries] up to the enumeration of its result: the set of its
    last line. *)
Definition make_queries_set (paragraph : string) : gset string :=
  let para_clean := PyText.join " " (PyText.split_ws paragraph) in
  let words := PyText.split_ws para_clean in
  let queries := [para_clean;
                  PyText.take_str 200 para_clean;
                  PyText.join " " (take 20 words);
                  PyText.join " " (PyText.last_n 20 words)] in
  let queries :=
    if bool_decide (40 < length words)%nat then
      let mid := (length words / 2)%nat in
      queries ++ [PyText.join " " (take 20 (drop mid words))]
    else queries in
  list_to_set (filter (λ q, PyStr.strip q ≠ EmptyString) queries).

Section Scanner.
Context {float : Type} (env : ScanEnv float).

Definition token_overlap_ratio (a b : string) : float :=
  let a_tokens : gset string := list_to_set (PyText.split_ws a) in
  let b_tokens : gset string := list_to_set (PyText.split_ws b) in
  if bool_decide (size a_tokens = 0)%nat then float_zero env
  else true_div env (size (a_tokens ∩ b_tokens)) (size a_tokens).

Definition make_queries (paragraph : string) : list string :=
  set_order env (make_queries_set paragraph).

(** The loop of lines 79-99 over the results of one query: [Some] is the
    pair the function returns from inside the loop; [None] means that the loop
    ran out of results, or that reading a result raised (which ends the query
    at line 100). *)
Fixpoint verify_items (q : string) (items : list (outcome (option string)))
    : option (string * option string) :=
  match items with
  | [] => None
  | item :: rest =>
      match item with
      | Raise _ => None
      | Ret link =>
          if negb (truthy link) then verify_items q rest
          else
            match fetch_text env (default EmptyString link) with
            | Raise _ => verify_items q rest
            | Ret page =>
                let text := normalize page in
                let words_q : gset string := list_to_set (PyText.split_ws q) in
                if bool_decide (size words_q < 15)%nat then Some ("ORIGINAL", None)
                else if ge_0_9 env (token_overlap_ratio (normalize q) text)
                then Some ("PLAGIARISM (exact)", link)
                else if ge_0_7 env (token_overlap_ratio (normalize q) text)
                then Some ("PLAGIARISM (paraphrase)", link)
                else verify_items q rest
            end
      end
  end.

(** The loop of lines 70-101 over the queries, and line 103.  The line
    printed when a search fails (line 101) is not recorded. *)
Fixpoint verify_queries (max_results : nat) (queries : list string)
    : string * option string :=
  match queries with
  | [] => ("ORIGINAL", None)
  | q :: rest =>
      match brave_search env q with
      | Raise _ => verify_queries max_results rest
      | Ret None => verify_queries max_results rest
      | Ret (Some results) =>
          match verify_items q (take max_results results) with
          | Some answer => answer
          | None => verify_queries max_results rest
          end
      end
  end.

Definition web_verify (paragraph : string) : string * option string :=
  verify_queries 10 (make_queries paragraph).

(** The loop of lines 112-121: the counters [plagiarized], [exact] and
    [paraphrase] and the list [results], from their values so far. *)
Fixpoint scan_loop (paragraphs : list string) (results : list ScanResult)
    (plagiarized exact paraphrase : Z) : list ScanResult * (Z * Z * Z) :=
  match paragraphs with
  | [] => (results, (plagiarized, exact, paraphrase))
  | para :: rest =>
      let '(label, source) := web_verify para in
      let results := results ++ [{| sr_paragraph := para; sr_label := label;
                                    sr_web_source := source |}] in
      if PyStr.startswith "PLAGIARISM" label then
        if PyStr.contains "exact" label then
          scan_loop rest results (plagiarized + 1) (exact + 1) paraphrase
        else if PyStr.contains "paraphrase" label then
          scan_loop rest results (plagiarized + 1) exact (paraphrase + 1)
        else scan_loop rest results (plagiarized + 1) exact paraphrase
      else scan_loop rest results plagiarized exact paraphrase
  end.

Definition _scan_paragraphs (paragraphs : list string) : list ScanResult * ScanSummary :=
  let '(results, (plagiarized, exact, paraphrase)) := scan_loop paragraphs [] 0 0 0 in
  let total := Z.of_nat (length results) in
  let original := total - plagiarized in
  let pct k := if bool_decide (0 < total) then round_percent env k total else 0 in
  (results,
   {| sum_total := total; sum_plagiarized := plagiarized; sum_exact := exact;
      sum_paraphrase := paraphrase; sum_original := original;
      sum_plag_percent := pct plagiarized; sum_exact_percent := pct exact;
      sum_paraphrase_percent := pct paraphrase; sum_original_percent := pct original |}).

Definition scan_text (text : string) : list ScanResult * ScanSummary :=
  _scan_paragraphs (split_paragraphs text).

(** [extract_docx], given the texts of the paragraphs of the document. *)
Definition extract_docx_text (texts : list string) : string :=
  PyText.join newline (filter (λ t, PyStr.strip t ≠ EmptyString) texts).

Definition scan_file (file_path : string) : M (list ScanResult * ScanSummary) :=
  file_exists ← path_exists file_path;
  if negb file_exists then raise FileNotFoundError
  else
    texts ← lift (docx_paragraphs env file_path);
    mret (_scan_paragraphs (split_paragraphs (extract_docx_text texts))).

End Scanner.

End Plagiarism.

(** [list(set(...))] enumerates members of the set only. *)
Definition enumerates {float} (env : ScanEnv float) : Prop :=
  ∀ (X : gset string) q, q ∈ set_order env X → q ∈ X.

(** A sample surrounding: every search finds one page, whose text is the
    query itself; quotients are kept as pairs of counts. *)
Definition echo_env : ScanEnv (nat * nat) := {|
  set_order := elements;
  brave_search q := Ret (Some [Ret (Some ("https://example.org/?q=" +:+ q))]);
  fetch_text link := Ret (default link (strip_prefix "https://example.org/?q=" link));
  float_zero := (0%nat, 1%nat);
  true_div k n := (k, n);
  ge_0_9 x := bool_decide (9 * x.2 ≤ 10 * x.1)%nat;
  ge_0_7 x := bool_decide (7 * x.2 ≤ 10 * x.1)%nat;
  round_percent k total := (200 * k + total) `div` (2 * total);
  docx_paragraphs path := Ret ["  First paragraph. "; "   "; "Second paragraph."]
|}.

(** ** Routing and analysis: the rest of [app.py], [image_model.py] and
    [video_model.py] *)

(** An opened [cv2.VideoCapture]: the frame count its header reports (line
    57 of [video_model.py], after [int]) and the frames [cap.read()] yields
    before it first answers [ret = False]. *)
Record Capture (frame : Type) := {
  total_frames : Z;
  frames : list frame
}.
Arguments total_frames {frame} _.
Arguments frames {frame} _.

(** What routing and analysis need from their surroundings.  [frame]
    stands for an image array and [score] for a Python float, which the code
    only compares with its thresholds and formats. *)
Record Analysis (frame score : Type) := {
  (** [mimetypes.guess_type(path)[0]] *)
  guess_type : string → option string;
  (** [cv2.VideoCapture(path)] *)
  video_capture : string → outcome (Capture frame);
  (** [extract_faces] of [video_model.py] *)
  extract_faces : frame → outcome (list frame);
  (** lines 81-89 of [video_model.py]: the Realism and the Deepfake
      probability of one face *)
  face_scores : frame → outcome (score * score);
  (** [float(statistics.median(l))] of a list that is not empty *)
  median : list score → score;
  score_zero : score;
  (** [x >= 0.2149] *)
  ge_video_threshold : score → bool;
  (** lines 27-37 of [image_model.py]: [realism_conf] and [deepfake_conf] *)
  image_scores : string → outcome (score * score);
  (** [x >= 0.25] *)
  ge_image_threshold : score → bool
}.
Arguments guess_type {frame score} _ _.
Arguments video_capture {frame score} _ _.
Arguments extract_faces {frame score} _ _.
Arguments face_scores {frame score} _ _.
Arguments median {frame score} _ _.
Arguments score_zero {frame score} _.
Arguments ge_video_threshold {frame score} _ _.
Arguments image_scores {frame score} _ _.
Arguments ge_image_threshold {frame score} _ _.

(** The dictionary [run_inference] returns, by its ["type"] entry. *)
Inductive InferenceResult (score : Type) :=
| ImageResult (label : string) (realism deepfake : score) (file : string)
| VideoResult (label : string) (realism deepfake : option score) (file : string)
| DocumentResult (summary : ScanSummary) (paragraphs : list ScanResult) (file : string).
Arguments ImageResult {score} _ _ _ _.
Arguments VideoResult {score} _ _ _ _.
Arguments DocumentResult {score} _ _ _.

Definition DOCX_MIME : string :=
  "application/vnd.openxmlformats-officedocument.wordprocessingml.document".

(** [os.replace(src, dst)] on regular files: [FileNotFoundError] when [src]
    is missing (other failures of the file system are not modelled). *)
Definition os_replace (src dst : string) : M unit := λ s,
  if bool_decide (src ∈ files s) then
    (Ret (), {| files := (files s ∖ {[src]}) ∪ {[dst]};
                trace := trace s ++ [EvRename src dst] |})
  else (Raise FileNotFoundError, s).

(** [label, a, b = r]: unpacking [None] raises [TypeError]. *)
Definition unpack {A} (r : option A) : outcome A :=
  match r with
  | Some t => Ret t
  | None => Raise TypeError
  end.

(** The replacement field [{x:.4f}] of an f-string: a float is formatted,
    [None] raises [TypeError]. *)
Definition format_4f {score} (x : option score) : outcome unit :=
  match x with
  | Some _ => Ret ()
  | None => Raise TypeError
  end.

(** What the functions of this part print is not recorded (the trace keeps
    the events of the download pipeline); their f-strings are still
    evaluated, since formatting can raise. *)
Section Analysis.
Context {frame score float : Type}.
Context (w : World) (an : Analysis frame score) (env : ScanEnv float).

Definition get_media_type (file_path : string) : string :=
  match guess_type an file_path with
  | Some mime_type =>
      if bool_decide (mime_type ≠ EmptyString) then
        if PyStr.startswith "image" mime_type then "image"
        else if PyStr.startswith "video" mime_type then "video"
        else if bool_decide (mime_type ∈ [DOCX_MIME; "text/plain"]) then "document"
        else "unknown"
      else "unknown"
  | None => "unknown"
  end.

Definition save_to_correct_folder (file_path : string) : M string :=
  let media_type := get_media_type file_path in
  let dest_dir := if bool_decide (media_type = "image") then IMAGE_DIR else VIDEO_DIR in
  let dest_path := Url.joinpath dest_dir (Url.basename file_path) in
  os_replace file_path dest_path;;
  mret dest_path.

(** [image_model.predict_image] *)
Definition predict_image (img_path : string) : M (string * score * score) :=
  file_exists ← path_exists img_path;
  if negb file_exists then raise FileNotFoundError
  else
    '(realism_conf, deepfake_conf) ← lift (image_scores an img_path);
    if ge_image_threshold an deepfake_conf
    then mret ("FAKE", realism_conf, deepfake_conf)
    else mret ("REAL", realism_conf, deepfake_conf).

(** Lines 80-89 of [video_model.py]: the scores of the faces of one frame
    are appended to the two lists. *)
Fixpoint score_faces (faces : list frame) (realism_scores deepfake_scores : list score)
    : outcome (list score * list score) :=
  match faces with
  | [] => Ret (realism_scores, deepfake_scores)
  | face :: rest =>
      match face_scores an face with
      | Raise e => Raise e
      | Ret (realism, deepfake) =>
          score_faces rest (realism_scores ++ [realism]) (deepfake_scores ++ [deepfake])
      end
  end.

(** The loop of lines 69-91 over the frames still to be read. *)
Fixpoint sample_frames (step : Z) (rest : list frame) (frame_count : Z)
    (realism_scores deepfake_scores : list score) : outcome (list score * list score) :=
  match rest with
  | [] => Ret (realism_scores, deepfake_scores)
  | frame :: rest =>
      if bool_decide (frame_count `mod` step = 0) then
        match extract_faces an frame with
        | Raise e => Raise e
        | Ret faces =>
            let faces := match faces with [] => [frame] | _ => faces end in
            match score_faces faces realism_scores deepfake_scores with
            | Raise e => Raise e
            | Ret (realism_scores, deepfake_scores) =>
                sample_frames step rest (frame_count + 1) realism_scores deepfake_scores
            end
        end
      else sample_frames step rest (frame_count + 1) realism_scores deepfake_scores
  end.

(** [video_model.predict_video] *)
Definition predict_video (video_path : string) (num_samples : Z)
    : M (option (string * option score * option score)) :=
  file_exists ← path_exists video_path;
  if negb file_exists then raise FileNotFoundError
  else
    cap ← lift (video_capture an video_path);
    if bool_decide (total_frames cap = 0) then mret None
    else
      let step := 1 `max` (total_frames cap `div` num_samples) in
      '(realism_scores, deepfake_scores) ← lift (sample_frames step (frames cap) 0 [] []);
      let Real := match realism_scores with
                  | [] => score_zero an
                  | _ => median an realism_scores
                  end in
      let Deepfake := match deepfake_scores with
                      | [] => score_zero an
                      | _ => median an deepfake_scores
                      end in
      if ge_video_threshold an Deepfake
      then mret (Some ("FAKE", None, Some Deepfake))
      else mret (Some ("REAL", Some Real, None)).

Definition run_inference (file_path : string) : M (option (InferenceResult score)) :=
  let media_type := get_media_type file_path in
  if bool_decide (media_type = "image") then
    '(label, realism_conf, deepfake_conf) ← predict_image file_path;
    lift (format_4f (Some realism_conf));;
    lift (format_4f (Some deepfake_conf));;
    mret (Some (ImageResult label realism_conf deepfake_conf (Url.basename file_path)))
  else if bool_decide (media_type = "video") then
    prediction ← predict_video file_path 25;
    '(label, avg_real, avg_fake) ← lift (unpack prediction);
    lift (format_4f avg_real);;
    lift (format_4f avg_fake);;
    mret (Some (VideoResult label avg_real avg_fake (Url.basename file_path)))
  else if bool_decide (media_type = "document") then
    '(results, summary) ← Plagiarism.scan_file env file_path;
    mret (Some (DocumentResult summary results (Url.basename file_path)))
  else mret None.

(** [main], from [sys.argv] to the exit status: the argument of
    [sys.exit], or 0 when [main] returns; an exception nothing catches is the
    outcome [Raise].  A path given on the command line is its string, and a
    regular file is a member of [files]. *)
Definition main (argv : list string) : M Z :=
  match argv with
  | _ :: arg1 :: args =>
      let target := PyStr.strip arg1 in
      if bool_decide (target = "--text") then
        match args with
        | [] => mret 1
        | _ =>
            let pasted_text := PyText.join " " args in
            let '(results, summary) := Plagiarism.scan_text env pasted_text in
            mret 0
        end
      else
        is_file ← path_exists target;
        if is_file : bool then
          let media_type := get_media_type target in
          if bool_decide (media_type = "document") then
            Plagiarism.scan_file env target;; mret 0
          else if bool_decide (media_type ∈ ["image"; "video"]) then
            run_inference target;; mret 0
          else mret 1
        else
          media_path ← download_media w target;
          match media_path with
          | None => mret 1
          | Some media_path =>
              final_path ← save_to_correct_folder media_path;
              run_inference final_path;;
              mret 0
          end
  | _ => mret 1
  end.

End Analysis.

(** ** [utils_downloader.py] *)
Module UtilsDownloader.

Definition detect_platform (w : World) (url : string) : outcome string :=
  parsed ← urlparse w url;
  let domain := PyStr.lower (Url.netloc parsed) in
  if PyStr.contains "facebook.com" domain then mret "facebook"
  else if PyStr.contains "twitter.com" domain || PyStr.contains "x.com" domain
  then mret "twitter"
  else if PyStr.contains "youtube.com" domain || PyStr.contains "youtu.be" domain
  then mret "youtube"
  else mret "unknown".

Definition get_media_type {frame score} (an : Analysis frame score) (file_path : string)
    : string :=
  match guess_type an file_path with
  | Some mime =>
      if bool_decide (mime ≠ EmptyString) then
        if PyStr.startswith "image" mime then "image"
        else if PyStr.startswith "video" mime then "video"
        else "unknown"
      else "unknown"
  | None => "unknown"
  end.

End UtilsDownloader.

(** A sample surrounding of the analysis: types are guessed from the
    extension, a video has three frames without faces, and scores are counted
    in ten-thousandths. *)
Definition by_extension (path : string) : option string :=
  match PyStr.rsplit_once "." (Url.basename path) with
  | Some (_, "jpg") => Some "image/jpeg"
  | Some (_, "png") => Some "image/png"
  | Some (_, "mp4") => Some "video/mp4"
  | Some (_, "txt") => Some "text/plain"
  | Some (_, "docx") => Some DOCX_MIME
  | _ => None
  end.

Definition sample_analysis (cap : outcome (Capture nat)) : Analysis nat Z := {|
  guess_type := by_extension;
  video_capture path := cap;
  extract_faces frame := Ret [];
  face_scores face := Ret (9000 - Z.of_nat face, 1000 + Z.of_nat face);
  median l := default 0 (l !! (length l / 2)%nat);
  score_zero := 0;
  ge_video_threshold x := bool_decide (2149 ≤ x);
  image_scores path := Ret (9000, 1000);
  ge_image_threshold x := bool_decide (2500 ≤ x)
|}.

(** ** Checks of the string, URL and path model *)

Example lower_ex : PyStr.lower "WWW.FaceBook.COM" = "www.facebook.com".
Proof. reflexivity. Qed.
Example split_ex : PyStr.split "/" "/a/photo/3" = [""; "a"; "photo"; "3"].
Proof. reflexivity. Qed.
Example split_trailing : PyStr.split "/" "/photo/3/" = [""; "photo"; "3"; ""].
Proof. reflexivity. Qed.
Example int_ex : PyStr.int " +1_000 " = Some 1000.
Proof. reflexivity. Qed.
Example int_neg : PyStr.int "-12" = Some (-12).
Proof. reflexivity. Qed.
Example int_bad : PyStr.int "1__0" = None ∧ PyStr.int "" = None ∧ PyStr.int "3." = None.
Proof. done. Qed.
Example str_of_int_ex : PyStr.str_of_int 41 = "41".
Proof. reflexivity. Qed.
Example urlparse_fb ok :
  Url.urlparse ok "https://www.Facebook.com/user/photo/3?type=1#top"
  = Ret {| Url.scheme := "https"; Url.netloc := "www.Facebook.com";
           Url.path := "/user/photo/3"; Url.params := ""; Url.query := "type=1";
           Url.fragment := "top" |}.
Proof. reflexivity. Qed.
Example urlparse_noscheme :
  Url.netloc (Url.components "www.youtube.com/watch") = "" ∧
  Url.path (Url.components "www.youtube.com/watch") = "www.youtube.com/watch".
Proof. done. Qed.
Example urlparse_params :
  Url.path (Url.components "http://h.org/a;b/photo/3;x=1") = "/a;b/photo/3".
Proof. reflexivity. Qed.
Example urlparse_brackets ok :
  Url.urlparse ok "http://[example.org/clip" = Raise ValueError
  ∧ Url.urlparse ok "http://x]/" = Raise ValueError
  ∧ Url.urlparse ok "http://[::1]/x" = (if ok "[::1]" then Ret (Url.components "http://[::1]/x")
                                         else Raise ValueError)
  ∧ Url.urlparse ok "http:[x/y" = Ret (Url.components "http:[x/y").
Proof. done. Qed.
Example splitext_ex :
  Url.splitext_ext "/v/t1/clip.final.MP4" = ".MP4" ∧
  Url.splitext_ext "/v/.hidden" = "" ∧ Url.splitext_ext "/a.b/c" = "".
Proof. done. Qed.
Example stem_ex :
  Url.stem "facebook_3.mp4" = "facebook_3" ∧ Url.stem "facebook_3." = "facebook_3."
  ∧ Url.stem "a_1.tar.gz" = "a_1.tar" ∧ Url.stem ".mp4" = ".mp4".
Proof. done. Qed.
Example fnmatch_ex :
  Url.fnmatch "facebook_*" "facebook_12.mp4" = true ∧
  Url.fnmatch "facebook_*" "facebook12.mp4" = false ∧
  Url.fnmatch "f*_?" "facebook_1" = true.
Proof. done. Qed.

(** ** Runs of the monad *)

Lemma bind_run {A B} (m : M A) (k : A → M B) s a s' :
  m s = (Ret a, s') → (m ≫= k) s = k a s'.
Proof. intros H. unfold mbind, M_bind. by rewrite H. Qed.

Lemma bind_run_raise {A B} (m : M A) (k : A → M B) s e s' :
  m s = (Raise e, s') → (m ≫= k) s = (Raise e, s').
Proof. intros H. unfold mbind, M_bind. by rewrite H. Qed.

Lemma extend_nil s : extend s [] = s.
Proof. destruct s. unfold extend. simpl. by rewrite app_nil_r. Qed.

Lemma extend_extend s evs evs' : extend (extend s evs) evs' = extend s (evs ++ evs').
Proof. unfold extend. simpl. by rewrite app_assoc. Qed.

Lemma record_extend s ev : record ev s = extend s [ev].
Proof. reflexivity. Qed.

Lemma trace_extend s evs : trace (extend s evs) = trace s ++ evs.
Proof. reflexivity. Qed.

Lemma bare_extend s evs : bare (extend s evs) = bare s.
Proof. reflexivity. Qed.

Section Quiet.
Context (P : event → Prop).

Lemma quiet_intro {A} (m : M A) (r : outcome A) :
  (∀ s, ∃ evs, m s = (r, extend s evs) ∧ Forall P evs) → quiet P m.
Proof.
  intros H s. destruct (H s) as (evs & Hs & HP).
  destruct (H empty_state) as (evs0 & H0 & _).
  exists evs. split; [|done]. unfold value_of. by rewrite H0, Hs.
Qed.

Lemma quiet_ret {A} (a : A) : quiet P (mret a).
Proof.
  apply (quiet_intro _ (Ret a)). intros s. exists []. by rewrite extend_nil.
Qed.

Lemma quiet_raise {A} (e : exn) : quiet P (raise e : M A).
Proof.
  apply (quiet_intro _ (Raise e)). intros s. exists []. by rewrite extend_nil.
Qed.

Lemma quiet_lift {A} (o : outcome A) : quiet P (lift o).
Proof.
  apply (quiet_intro _ o). intros s. exists []. by rewrite extend_nil.
Qed.

Lemma quiet_emit ev : P ev → quiet P (emit ev).
Proof.
  intros Hev. apply (quiet_intro _ (Ret ())). intros s. exists [ev].
  split; [done|]. by constructor.
Qed.

Lemma quiet_print l : P (EvPrint l) → quiet P (print l).
Proof. apply quiet_emit. Qed.

Lemma quiet_bind {A B} (m : M A) (k : A → M B) :
  quiet P m → (∀ a, quiet P (k a)) → quiet P (m ≫= k).
Proof.
  intros Hm Hk. destruct (value_of m) as [a|e] eqn:Hv.
  - apply (quiet_intro _ (value_of (k a))). intros s.
    destruct (Hm s) as (evs & Hs & HP). rewrite Hv in Hs.
    destruct (Hk a (extend s evs)) as (evs' & Hs' & HP').
    exists (evs ++ evs'). rewrite (bind_run _ _ _ _ _ Hs), Hs', extend_extend.
    split; [done|]. by apply Forall_app.
  - apply (quiet_intro _ (Raise e)). intros s.
    destruct (Hm s) as (evs & Hs & HP). rewrite Hv in Hs.
    exists evs. by rewrite (bind_run_raise _ _ _ _ _ Hs).
Qed.

Lemma quiet_try_except {A} (body : M A) (handler : exn → M A) :
  quiet P body → (∀ e, quiet P (handler e)) → quiet P (try_except body handler).
Proof.
  intros Hm Hk. destruct (value_of body) as [a|e] eqn:Hv.
  - apply (quiet_intro _ (Ret a)). intros s.
    destruct (Hm s) as (evs & Hs & HP). rewrite Hv in Hs.
    exists evs. unfold try_except. by rewrite Hs.
  - apply (quiet_intro _ (value_of (handler e))). intros s.
    destruct (Hm s) as (evs & Hs & HP). rewrite Hv in Hs.
    destruct (Hk e (extend s evs)) as (evs' & Hs' & HP').
    exists (evs ++ evs'). unfold try_except. rewrite Hs, Hs', extend_extend.
    split; [done|]. by apply Forall_app.
Qed.

Lemma quiet_try_finally {A} (body : M A) (cleanup : M unit) :
  quiet P body → quiet P cleanup → quiet P (try_finally body cleanup).
Proof.
  intros Hm Hc.
  apply (quiet_intro _ (match value_of cleanup with
                        | Ret _ => value_of body
                        | Raise e => Raise e
                        end)).
  intros s. destruct (Hm s) as (evs & Hs & HP).
  destruct (Hc (extend s evs)) as (evs' & Hs' & HP').
  exists (evs ++ evs'). unfold try_finally. rewrite Hs, Hs', extend_extend.
  split; [by destruct (value_of cleanup)|]. by apply Forall_app.
Qed.

Lemma quiet_getitem {A} (l : list A) i : quiet P (getitem l i).
Proof.
  unfold getitem. cbv zeta.
  destruct (bool_decide (0 ≤ _)); [|apply quiet_raise].
  destruct (l !! _); [apply quiet_ret|apply quiet_raise].
Qed.

Lemma quiet_filterM {A} (test : A → M bool) l :
  (∀ x, quiet P (test x)) → quiet P (filterM test l).
Proof.
  intros Ht. induction l as [|x l IH]; simpl; [apply quiet_ret|].
  apply quiet_bind; [done|]. intros b. apply quiet_bind; [done|].
  intros r. apply quiet_ret.
Qed.

Lemma quiet_allM {A} (test : A → M bool) l :
  (∀ x, quiet P (test x)) → quiet P (allM test l).
Proof.
  intros Ht. induction l as [|x l IH]; simpl; [apply quiet_ret|].
  apply quiet_bind; [done|]. intros [|]; [done|apply quiet_ret].
Qed.

End Quiet.

Lemma quiet_mono {A} (P Q : event → Prop) (m : M A) :
  (∀ ev, P ev → Q ev) → quiet P m → quiet Q m.
Proof.
  intros HPQ Hm s. destruct (Hm s) as (evs & Hs & HP).
  exists evs. split; [done|]. by eapply Forall_impl.
Qed.

(** A quiet computation runs to its value from every state. *)
Lemma quiet_run {A} P (m : M A) r s :
  quiet P m → value_of m = r →
  ∃ evs, m s = (r, extend s evs) ∧ Forall P evs.
Proof. intros Hm <-. apply Hm. Qed.

Lemma value_bind {A B} P (m : M A) (k : A → M B) a :
  quiet P m → quiet P (k a) → value_of m = Ret a →
  value_of (m ≫= k) = value_of (k a).
Proof.
  intros Hm Hk Hv. destruct (Hm empty_state) as (evs & Hs & _).
  rewrite Hv in Hs. unfold value_of at 1. rewrite (bind_run _ _ _ _ _ Hs).
  destruct (Hk (extend empty_state evs)) as (evs' & -> & _). done.
Qed.

Lemma value_bind_raise {A B} P (m : M A) (k : A → M B) e :
  quiet P m → value_of m = Raise e → value_of (m ≫= k) = Raise e.
Proof.
  intros Hm Hv. destruct (Hm empty_state) as (evs & Hs & _).
  rewrite Hv in Hs. unfold value_of at 1. by rewrite (bind_run_raise _ _ _ _ _ Hs).
Qed.

Lemma value_ret {A} (a : A) : value_of (mret a) = Ret a.
Proof. reflexivity. Qed.

Lemma no_download_no_get ev : no_download ev → no_get ev.
Proof. by destruct ev. Qed.
Lemma no_fetch_or_scrape_no_download ev : no_fetch_or_scrape ev → no_download ev.
Proof. by destruct ev. Qed.

Ltac quiet_step :=
  lazymatch goal with
  | |- quiet _ (mret _) => apply quiet_ret
  | |- quiet _ (raise _) => apply quiet_raise
  | |- quiet _ (lift _) => apply quiet_lift
  | |- quiet _ (emit _) => apply quiet_emit; done
  | |- quiet _ (print _) => apply quiet_print; done
  | |- quiet _ (getitem _ _) => apply quiet_getitem
  | |- quiet _ (_ ≫= _) => apply quiet_bind; [|intros ?]
  | |- quiet _ (try_except _ _) => apply quiet_try_except; [|intros ?]
  | |- quiet _ (try_finally _ _) => apply quiet_try_finally
  | |- quiet _ (close_browser _) => unfold close_browser
  | |- quiet _ (if ?c then _ else _) => destruct c
  | |- quiet _ (match ?c with _ => _ end) => destruct c
  end.

(** *** Events appended *)

Lemma emits_silent {A} P (m : M A) :
  (∀ s, trace (m s).2 = trace s) → emits P m.
Proof. intros H s. exists []. by rewrite H, app_nil_r. Qed.

Lemma emits_emit P ev : P ev → emits P (emit ev).
Proof. intros Hev s. exists [ev]. split; [done|]. by constructor. Qed.

Lemma emits_bind {A B} P (m : M A) (k : A → M B) :
  emits P m → (∀ a, emits P (k a)) → emits P (m ≫= k).
Proof.
  intros Hm Hk s. destruct (Hm s) as (evs & Hs & HP).
  unfold mbind, M_bind. destruct (m s) as [[a|e] s']; simpl in *.
  - destruct (Hk a s') as (evs' & Hs' & HP'). exists (evs ++ evs').
    rewrite Hs', Hs, app_assoc. split; [done|]. by apply Forall_app.
  - by exists evs.
Qed.

Lemma emits_try_except {A} P (body : M A) (handler : exn → M A) :
  emits P body → (∀ e, emits P (handler e)) → emits P (try_except body handler).
Proof.
  intros Hm Hk s. destruct (Hm s) as (evs & Hs & HP).
  unfold try_except. destruct (body s) as [[a|e] s']; simpl in *.
  - by exists evs.
  - destruct (Hk e s') as (evs' & Hs' & HP'). exists (evs ++ evs').
    rewrite Hs', Hs, app_assoc. split; [done|]. by apply Forall_app.
Qed.

Lemma emits_try_finally {A} P (body : M A) (cleanup : M unit) :
  emits P body → emits P cleanup → emits P (try_finally body cleanup).
Proof.
  intros Hm Hc s. destruct (Hm s) as (evs & Hs & HP).
  unfold try_finally. destruct (body s) as [r s']; simpl in *.
  destruct (Hc s') as (evs' & Hs' & HP'). exists (evs ++ evs').
  split; [|by apply Forall_app].
  destruct (cleanup s') as [[[]|e] s'']; simpl in *; by rewrite Hs', Hs, app_assoc.
Qed.

Lemma quiet_emits {A} P (m : M A) : quiet P m → emits P m.
Proof. intros Hm s. destruct (Hm s) as (evs & -> & HP). by exists evs. Qed.

Lemma emits_mono {A} (P Q : event → Prop) (m : M A) :
  (∀ ev, P ev → Q ev) → emits P m → emits Q m.
Proof.
  intros HPQ Hm s. destruct (Hm s) as (evs & Hs & HP).
  exists evs. split; [done|]. by eapply Forall_impl.
Qed.

Lemma emits_filterM {A} P (test : A → M bool) l :
  (∀ x, emits P (test x)) → emits P (filterM test l).
Proof.
  intros Ht. induction l as [|x l IH]; simpl; [by apply emits_silent|].
  apply emits_bind; [done|]. intros b. apply emits_bind; [done|].
  intros r. by apply emits_silent.
Qed.

Lemma emits_allM {A} P (test : A → M bool) l :
  (∀ x, emits P (test x)) → emits P (allM test l).
Proof.
  intros Ht. induction l as [|x l IH]; simpl; [by apply emits_silent|].
  apply emits_bind; [done|]. intros [|]; [done|by apply emits_silent].
Qed.

Ltac emits_step :=
  lazymatch goal with
  | |- emits _ (mret _) => by apply emits_silent
  | |- emits _ (raise _) => by apply emits_silent
  | |- emits _ (lift _) => by apply emits_silent
  | |- emits _ (add_file _) => by apply emits_silent
  | |- emits _ (add_files _) => by apply emits_silent
  | |- emits _ (move_file _ _) => by apply emits_silent
  | |- emits _ (path_exists _) => by apply emits_silent
  | |- emits _ (glob _ _) => by apply emits_silent
  | |- emits _ (emit _) => apply emits_emit; try done; eauto
  | |- emits _ (print _) => apply emits_emit; try done; eauto
  | |- emits _ (getitem _ _) => apply quiet_emits, quiet_getitem
  | |- emits _ (_ ≫= _) => apply emits_bind; [|intros ?]
  | |- emits _ (try_except _ _) => apply emits_try_except; [|intros ?]
  | |- emits _ (try_finally _ _) => apply emits_try_finally
  | |- emits _ (close_browser _) => unfold close_browser
  | |- emits _ (make_dir _ _) => unfold make_dir
  | |- emits _ (rename _ _ _) => unfold rename
  | |- emits _ (if ?c then _ else _) => destruct c
  | |- emits _ (match ?c with _ => _ end) => destruct c
  end.

(** *** Computations that read the files only *)

Lemma framed_run {A} (m : M A) s :
  framed m →
  m s = ((m (bare s)).1,
         {| files := files (m (bare s)).2; trace := trace s ++ trace (m (bare s)).2 |}).
Proof. intros Hm. apply Hm. Qed.

Lemma framed_intro {A} (m : M A) :
  (∀ fs t, m {| files := fs; trace := t |}
           = ((m {| files := fs; trace := [] |}).1,
              {| files := files (m {| files := fs; trace := [] |}).2;
                 trace := t ++ trace (m {| files := fs; trace := [] |}).2 |})) →
  framed m.
Proof. intros H [fs t]. apply H. Qed.

Lemma framed_ret {A} (a : A) : framed (mret a).
Proof. apply framed_intro. intros fs t. unfold mret, M_ret. simpl. by rewrite app_nil_r. Qed.

Lemma framed_raise {A} (e : exn) : framed (raise e : M A).
Proof. apply framed_intro. intros fs t. unfold raise. simpl. by rewrite app_nil_r. Qed.

Lemma framed_lift {A} (o : outcome A) : framed (lift o).
Proof. apply framed_intro. intros fs t. unfold lift. simpl. by rewrite app_nil_r. Qed.

Lemma framed_emit ev : framed (emit ev).
Proof. apply framed_intro. by intros fs t. Qed.

Lemma framed_add_file p : framed (add_file p).
Proof. apply framed_intro. intros fs t. unfold add_file. simpl. by rewrite app_nil_r. Qed.

Lemma framed_add_files ps : framed (add_files ps).
Proof. apply framed_intro. intros fs t. unfold add_files. simpl. by rewrite app_nil_r. Qed.

Lemma framed_move_file src dst : framed (move_file src dst).
Proof. apply framed_intro. intros fs t. unfold move_file. simpl. by rewrite app_nil_r. Qed.

Lemma framed_path_exists p : framed (path_exists p).
Proof. apply framed_intro. intros fs t. unfold path_exists. simpl. by rewrite app_nil_r. Qed.

Lemma framed_glob dir pattern : framed (glob dir pattern).
Proof. apply framed_intro. intros fs t. unfold glob. simpl. by rewrite app_nil_r. Qed.

Lemma framed_bind {A B} (m : M A) (k : A → M B) :
  framed m → (∀ a, framed (k a)) → framed (m ≫= k).
Proof.
  intros Hm Hk. apply framed_intro. intros fs t. unfold mbind, M_bind.
  rewrite (Hm {| files := fs; trace := t |}). unfold bare. simpl.
  destruct (m {| files := fs; trace := [] |}) as [[a|e] [f1 t1]]; simpl; [|done].
  rewrite (Hk a {| files := f1; trace := t ++ t1 |}),
          (Hk a {| files := f1; trace := t1 |}).
  unfold bare. simpl.
  destruct (k a {| files := f1; trace := [] |}) as [r [f2 t2]]; simpl.
  by rewrite app_assoc.
Qed.

Ltac framed_step :=
  lazymatch goal with
  | |- framed (mret _) => apply framed_ret
  | |- framed (raise _) => apply framed_raise
  | |- framed (lift _) => apply framed_lift
  | |- framed (emit _) => apply framed_emit
  | |- framed (print _) => apply framed_emit
  | |- framed (add_file _) => apply framed_add_file
  | |- framed (add_files _) => apply framed_add_files
  | |- framed (move_file _ _) => apply framed_move_file
  | |- framed (path_exists _) => apply framed_path_exists
  | |- framed (glob _ _) => apply framed_glob
  | |- framed (_ ≫= _) => apply framed_bind; [|intros ?]
  | |- framed (make_dir _ _) => unfold make_dir
  | |- framed (rename _ _ _) => unfold rename
  | |- framed (run_ytdlp _ _ _) => unfold run_ytdlp
  | |- framed (if ?c then _ else _) => destruct c
  | |- framed (match ?c with _ => _ end) => destruct c
  end.

(** ** Runs of the functions of the pipeline *)

Section PipelineRuns.
Context (w : World).

Lemma quiet_detect_platform url :
  quiet no_fetch_or_scrape (detect_platform w url).
Proof. unfold detect_platform. cbv zeta. repeat quiet_step. Qed.

Lemma quiet_head_content_type url :
  quiet no_download (head_content_type w url).
Proof. unfold head_content_type. repeat quiet_step. Qed.

Lemma quiet_get_media_type_from_url url :
  quiet no_download (get_media_type_from_url w url).
Proof.
  unfold get_media_type_from_url.
  apply quiet_bind; [apply quiet_head_content_type|intros ?].
  cbv zeta. repeat quiet_step.
Qed.

Lemma quiet_is_type t m : quiet no_download (is_type w t m).
Proof.
  unfold is_type.
  apply quiet_bind; [apply quiet_get_media_type_from_url|intros ?]. apply quiet_ret.
Qed.

Lemma quiet_scrape_try_body P url :
  (∀ ev, is_download ev = false → session_free ev → P ev) →
  quiet P (scrape_try_body w url).
Proof.
  intros HP.
  assert (∀ ev, P (EvGoto ev)) by (intros; by apply HP).
  assert (∀ ev, P (EvWaitForSelector ev)) by (intros; by apply HP).
  assert (∀ ev, P (EvQuerySelectorAll ev)) by (intros; by apply HP).
  assert (∀ l, P (EvPrint l)) by (intros; by apply HP).
  unfold scrape_try_body. repeat quiet_step.
Qed.

Lemma quiet_scrape_media_urls url : quiet no_download (scrape_media_urls w url).
Proof.
  unfold scrape_media_urls.
  do 4 (apply quiet_bind; [repeat quiet_step|intros ?]).
  apply quiet_bind.
  - apply quiet_try_finally; [|repeat quiet_step].
    apply quiet_bind; [by apply quiet_scrape_try_body|intros [media_links fault]].
    repeat quiet_step.
  - intros media_links. cbv zeta. repeat quiet_step.
Qed.

(** The head request never raises, and the classifier raises only what
    [urlparse] raises. *)
Lemma head_content_type_returns url : ∃ mime, value_of (head_content_type w url) = Ret mime.
Proof.
  unfold value_of, head_content_type, mbind, M_bind, emit. simpl.
  destruct (requests_head w url) as [ct|e]; [destruct (truthy ct)|]; simpl; eauto.
Qed.

Lemma classify_accepted url parsed :
  urlparse w url = Ret parsed → ∃ t, classify w url = Ret t.
Proof.
  intros Hparse. unfold classify, value_of, get_media_type_from_url, head_content_type.
  unfold mbind, M_bind, emit, lift. cbv zeta. rewrite Hparse.
  destruct (requests_head w url) as [ct|e]; simpl;
    [destruct (truthy ct); simpl|]; repeat case_match; simplify_eq/=; eauto.
Qed.

Lemma is_type_value t m ty :
  classify w m = Ret ty →
  value_of (is_type w t m) = Ret (bool_decide (classify w m = Ret (Some t))).
Proof.
  intros Hty. unfold is_type.
  rewrite (value_bind no_download _ _ ty);
    [|apply quiet_get_media_type_from_url|apply quiet_ret|done].
  rewrite value_ret, Hty. f_equal. apply bool_decide_ext. naive_solver.
Qed.

Lemma filterM_is_type_value t l :
  classifiable w l →
  value_of (filterM (is_type w t) l)
  = Ret (filter (λ m, classify w m = Ret (Some t)) l).
Proof.
  induction 1 as [|x l [ty Hty] Hl IH]; [done|]. simpl.
  rewrite (value_bind no_download (is_type w t x) _
             (bool_decide (classify w x = Ret (Some t))));
    [|apply quiet_is_type| |by eapply is_type_value].
  2:{ apply quiet_bind; [apply quiet_filterM, quiet_is_type|intros ?; apply quiet_ret]. }
  rewrite (value_bind no_download (filterM (is_type w t) l) _
             (filter (λ m, classify w m = Ret (Some t)) l));
    [|apply quiet_filterM, quiet_is_type|apply quiet_ret|apply IH].
  rewrite value_ret. f_equal. rewrite filter_cons. by case_bool_decide; case_decide.
Qed.

(** The comprehension [[m for m in media_links if ... == t]] run from any
    state, when the classifier raises on no link. *)
Lemma filterM_is_type_run t l s :
  classifiable w l →
  ∃ evs, filterM (is_type w t) l s
         = (Ret (filter (λ m, classify w m = Ret (Some t)) l), extend s evs)
         ∧ Forall no_download evs.
Proof.
  intros Hl.
  eapply quiet_run; [apply quiet_filterM, quiet_is_type|by apply filterM_is_type_value].
Qed.

Lemma framed_download_with_ytdlp url save_dir :
  framed (download_with_ytdlp w url save_dir).
Proof. unfold download_with_ytdlp. cbv zeta. repeat framed_step. Qed.

Section Inventory.
Context (P : event → Prop).

Lemma emits_head_content_type url :
  P (EvHead url) → emits P (head_content_type w url).
Proof. intros HP. unfold head_content_type. repeat emits_step. Qed.

Lemma emits_get_media_type_from_url url :
  P (EvHead url) → emits P (get_media_type_from_url w url).
Proof.
  intros HP. unfold get_media_type_from_url.
  apply emits_bind; [by apply emits_head_content_type|intros ?].
  cbv zeta. repeat emits_step.
Qed.

Lemma emits_is_type t m : P (EvHead m) → emits P (is_type w t m).
Proof.
  intros HP. unfold is_type.
  apply emits_bind; [by apply emits_get_media_type_from_url|intros ?]. emits_step.
Qed.

Lemma emits_download_with_requests url save_dir :
  P (EvMkdir save_dir) → P (EvHead url) → P (EvGet url) →
  (∀ file, P (EvOpen file)) → (∀ l, P (EvPrint l)) →
  emits P (download_with_requests w url save_dir).
Proof.
  intros HM HH HG HO HP. unfold download_with_requests. cbv zeta.
  apply emits_bind; [repeat emits_step|intros _].
  apply emits_bind; [emits_step|intros parsed].
  apply emits_bind.
  - destruct (negb _); [|emits_step].
    apply emits_bind; [by apply emits_head_content_type|intros mime].
    destruct (if truthy mime then _ else _); emits_step.
  - intros filename. repeat emits_step.
Qed.

Lemma emits_download_with_ytdlp url save_dir :
  P (EvMkdir save_dir) → (∀ opts, P (EvYtdlp url opts)) →
  (∀ src dst, P (EvRename src dst)) →
  emits P (download_with_ytdlp w url save_dir).
Proof.
  intros HM HY HR. unfold download_with_ytdlp.
  apply emits_bind; [repeat emits_step|intros _].
  apply emits_bind; [emits_step|intros parsed].
  apply emits_bind; [repeat emits_step|intros domain]. cbv zeta.
  apply emits_bind; [emits_step|intros existing].
  apply emits_bind; [unfold run_ytdlp; repeat emits_step|intros info].
  repeat emits_step.
Qed.

End Inventory.

(** The yt-dlp attempt ends from a state as [ytdlp_outcome] says for its
    files, and issues no request of its own. *)
Lemma download_with_ytdlp_run url s :
  ∃ s',
    download_with_ytdlp w url VIDEO_DIR s = (ytdlp_outcome w url (files s), s')
    ∧ ∃ evs, trace s' = trace s ++ evs ∧ Forall no_scrape_or_request evs.
Proof.
  pose proof (framed_run _ s (framed_download_with_ytdlp url VIDEO_DIR)) as Hrun.
  destruct (emits_download_with_ytdlp no_scrape_or_request url VIDEO_DIR) with (s := s)
    as (evs & Hevs & HP); try done.
  eexists. split; [exact Hrun|]. exists evs. split; [|done].
  by rewrite Hrun in Hevs.
Qed.

End PipelineRuns.

(** ** Platform classification *)

(** How [detect_platform] can end: with one of two tags or [None], or with
    an exception of [urlparse] or of one of the three calls of the browser
    that sit outside its [try]. *)
Lemma detect_platform_cases w url :
  platform_of w url = Ret (Some "facebook")
  ∨ platform_of w url = Ret (Some "youtube")
  ∨ platform_of w url = Ret None
  ∨ ∃ e, platform_of w url = Raise e
         ∧ (urlparse w url = Raise e ∨ browser_launch w = Raise e
            ∨ browser_new_page w = Raise e ∨ browser_close w = Raise e).
Proof.
  remember (platform_of w url) as r eqn:Hr.
  unfold platform_of, value_of, detect_platform in Hr.
  unfold mbind, M_bind, try_finally, try_except, close_browser, emit, lift, print, emit
    in Hr.
  simpl in Hr.
  destruct (urlparse w url) as [parsed|e]; [|subst; right; right; right; eauto].
  destruct (PyStr.contains "facebook.com" _); [subst; by left|].
  destruct (_ || _); [subst; by right; left|].
  simpl in Hr.
  destruct (browser_launch w) as [[]|e]; simpl in Hr;
    [|subst; right; right; right; eauto 6].
  destruct (browser_new_page w) as [[]|e]; simpl in Hr;
    [|subst; right; right; right; eauto 6].
  destruct (browser_close w) as [[]|e] eqn:Hclose; simpl in Hr.
  - destruct (page_goto w url) as [page|e]; simpl in Hr; [|subst; by right; right; left].
    destruct (wait_for_timeout page 3000) as [[]|e]; simpl in Hr;
      [|subst; by right; right; left].
    destruct (query_selector page sel_og_facebook) as [fb|e]; simpl in Hr;
      [|subst; by right; right; left].
    case_bool_decide; simpl in Hr; [subst; by left|].
    destruct (query_selector page sel_itemprop_youtube) as [yt|e]; simpl in Hr;
      [|subst; by right; right; left].
    case_bool_decide; simpl in Hr; subst; [by right; left|by right; right; left].
  - right; right; right. exists e. split; [|by eauto 6].
    destruct (page_goto w url) as [page|e']; simpl in Hr; [|done].
    destruct (wait_for_timeout page 3000) as [[]|e']; simpl in Hr; [|done].
    destruct (query_selector page sel_og_facebook) as [fb|e']; simpl in Hr; [|done].
    case_bool_decide; simpl in Hr; [done|].
    destruct (query_selector page sel_itemprop_youtube) as [yt|e']; simpl in Hr; [|done].
    by case_bool_decide.
Qed.

(** When [urlparse] accepts the URL and the browser session can be set up
    and closed, [detect_platform] returns. *)
Lemma detect_platform_returns w url parsed :
  urlparse w url = Ret parsed → sniff_session w →
  ∃ r, platform_of w url = Ret r.
Proof.
  intros Hparse (Hlaunch & Hpage & Hclose).
  destruct (detect_platform_cases w url) as [?|[?|[?|(e & _ & [?|[?|[?|?]]])]]];
    eauto; congruence.
Qed.

(** C8, as the code has it: a URL whose lower-cased authority holds
    "youtube.com" or "youtu.be", and does not hold "facebook.com" (which is
    tested first), is classified as youtube at once: the call returns the tag
    after printing one line, and starts no browser session. *)
Theorem detect_platform_youtube_by_host w url s parsed :
  urlparse w url = Ret parsed →
  PyStr.contains "facebook.com" (PyStr.lower (Url.netloc parsed)) = false →
  PyStr.contains "youtube.com" (PyStr.lower (Url.netloc parsed))
  || PyStr.contains "youtu.be" (PyStr.lower (Url.netloc parsed)) = true →
  detect_platform w url s
  = (Ret (Some "youtube"), extend s [EvPrint DebugDomainYouTube])
  ∧ filter (λ ev, is_launch ev) (trace (detect_platform w url s).2)
    = filter (λ ev, is_launch ev) (trace s).
Proof.
  intros Hparse Hfb Hyt.
  assert (detect_platform w url s
          = (Ret (Some "youtube"), extend s [EvPrint DebugDomainYouTube])) as Hrun.
  { unfold detect_platform. unfold mbind at 1. unfold M_bind at 1. unfold lift at 1.
    rewrite Hparse. cbv zeta. by rewrite Hfb, Hyt. }
  split; [done|]. rewrite Hrun. simpl. rewrite filter_app. simpl.
  by rewrite app_nil_r.
Qed.

Lemma detect_platform_youtube_by_host_witness :
  (detect_platform offline_world "https://youtu.be/dQw4w9WgXcQ" empty_state).1
  = Ret (Some "youtube").
Proof.
  by rewrite (proj1 (detect_platform_youtube_by_host offline_world
                       "https://youtu.be/dQw4w9WgXcQ" empty_state
                       (Url.components "https://youtu.be/dQw4w9WgXcQ")
                       eq_refl eq_refl eq_refl)).
Defined.

(** C8 as stated fails: the host of this URL holds "youtube.com", and the
    classifier answers facebook. *)
Lemma detect_platform_youtube_counterexample :
  PyStr.contains "youtube.com"
    (PyStr.lower (Url.netloc (Url.components "https://facebook.com.youtube.com/watch?v=1")))
  = true
  ∧ urlparse offline_world "https://facebook.com.youtube.com/watch?v=1"
    = Ret (Url.components "https://facebook.com.youtube.com/watch?v=1")
  ∧ (detect_platform offline_world "https://facebook.com.youtube.com/watch?v=1"
       empty_state).1 = Ret (Some "facebook")
  ∧ (detect_platform offline_world "https://facebook.com.youtube.com/watch?v=1"
       empty_state).1 ≠ Ret (Some "youtube").
Proof. by vm_compute. Qed.

(** C9, as the code has it: when [urlparse] accepts the URL, its authority
    names no known platform, the browser session can be set up and closed,
    and the rendered page holds neither marker (or loading or querying it
    fails), [detect_platform] returns [None] and [download_media] returns
    [None] after the sniff and one printed line: no download, no HEAD
    request, no scraping query. *)
Theorem download_media_unknown_platform w url s parsed :
  urlparse w url = Ret parsed →
  PyStr.contains "facebook.com" (PyStr.lower (Url.netloc parsed)) = false →
  PyStr.contains "youtube.com" (PyStr.lower (Url.netloc parsed)) = false →
  PyStr.contains "youtu.be" (PyStr.lower (Url.netloc parsed)) = false →
  sniff_session w →
  page_has w url sel_og_facebook = false →
  page_has w url sel_itemprop_youtube = false →
  ∃ evs,
    detect_platform w url s = (Ret None, extend s evs)
    ∧ download_media w url s = (Ret None, extend s (evs ++ [EvPrint ErrorUnsupported]))
    ∧ Forall no_fetch_or_scrape (evs ++ [EvPrint ErrorUnsupported])
    ∧ EvLaunch ∈ evs ∧ EvClose ∈ evs.
Proof.
  intros Hparse Hfb Hyt Hbe (Hlaunch & Hpage & Hclose) Hog Hip.
  assert (∃ evs, detect_platform w url s = (Ret None, extend s evs)
                 ∧ Forall no_fetch_or_scrape evs
                 ∧ EvLaunch ∈ evs ∧ EvClose ∈ evs) as (evs & Hrun & Hevs & Hl & Hc).
  { unfold detect_platform. unfold mbind at 1. unfold M_bind at 1. unfold lift at 1.
    rewrite Hparse. cbv zeta. rewrite Hfb, Hyt, Hbe.
    unfold page_has in Hog, Hip.
    unfold mbind, M_bind, try_finally, try_except, close_browser, emit, lift, print, emit.
    simpl. rewrite Hlaunch, Hpage, Hclose. simpl.
    destruct (page_goto w url) as [page|e]; simpl.
    2:{ eexists [_; _; _; _]. unfold extend, record. simpl. rewrite <-!app_assoc. simpl.
        split; [reflexivity|]. split; [by repeat constructor|set_solver]. }
    destruct (wait_for_timeout page 3000) as [[]|e]; simpl.
    2:{ eexists [_; _; _; _]. unfold extend, record. simpl. rewrite <-!app_assoc. simpl.
        split; [reflexivity|]. split; [by repeat constructor|set_solver]. }
    destruct (query_selector page sel_og_facebook) as [[fb|]|e]; simpl; [done| |].
    2:{ eexists [_; _; _; _; _]. unfold extend, record. simpl. rewrite <-!app_assoc. simpl.
        split; [reflexivity|]. split; [by repeat constructor|set_solver]. }
    destruct (query_selector page sel_itemprop_youtube) as [[yt|]|e]; simpl; [done| |].
    - eexists [_; _; _; _; _]. unfold extend, record. simpl. rewrite <-!app_assoc. simpl.
      split; [reflexivity|]. split; [by repeat constructor|set_solver].
    - eexists [_; _; _; _; _; _]. unfold extend, record. simpl. rewrite <-!app_assoc. simpl.
      split; [reflexivity|]. split; [by repeat constructor|set_solver]. }
  exists evs. split; [done|]. split; [|split; [|done]].
  - unfold download_media, download_media_with.
    rewrite (bind_run _ _ _ _ _ Hrun). simpl.
    unfold mbind, M_bind, print, emit. simpl. by rewrite record_extend, extend_extend.
  - apply Forall_app. split; [done|]. by repeat constructor.
Qed.

Lemma download_media_unknown_platform_witness :
  (download_media offline_world "https://example.org/clip" empty_state).1 = Ret None.
Proof.
  destruct (download_media_unknown_platform offline_world "https://example.org/clip"
              empty_state (Url.components "https://example.org/clip")
              eq_refl eq_refl eq_refl eq_refl (conj eq_refl (conj eq_refl eq_refl))
              eq_refl eq_refl) as (evs & _ & -> & _).
  reflexivity.
Defined.

(** C9 as stated fails: the host of this URL matches no platform and the
    page cannot be rendered, for want of a browser to launch; the exception of
    [launch], which line 39 calls outside the [try], leaves [detect_platform]
    and [download_media], which return nothing.  The same holds for an
    authority that [urlparse] rejects at line 29. *)
Lemma download_media_unknown_platform_counterexample :
  urlparse browserless_world "https://example.org/clip"
  = Ret (Url.components "https://example.org/clip")
  ∧ Url.netloc (Url.components "https://example.org/clip") = "example.org"
  ∧ page_has browserless_world "https://example.org/clip" sel_og_facebook = false
  ∧ page_has browserless_world "https://example.org/clip" sel_itemprop_youtube = false
  ∧ (detect_platform browserless_world "https://example.org/clip" empty_state).1
    = Raise (CollaboratorError "Executable doesn't exist")
  ∧ (download_media browserless_world "https://example.org/clip" empty_state).1
    = Raise (CollaboratorError "Executable doesn't exist")
  ∧ (download_media offline_world "http://[example.org/clip" empty_state).1
    = Raise ValueError.
Proof. by vm_compute. Qed.

(** C10, as the code has it: whenever [detect_platform] returns, it returns
    "facebook", "youtube" or [None]; it returns whenever [urlparse] accepts
    the URL and the browser session can be set up and closed, and otherwise
    raises the exception of that call; hence lines 283-295 of
    [download_media] never run: putting any other computation in their place
    changes nothing. *)
Theorem download_media_generic_branch_unreachable w url s :
  (∃ s', detect_platform w url s = (Ret (Some "facebook"), s')
         ∨ detect_platform w url s = (Ret (Some "youtube"), s')
         ∨ detect_platform w url s = (Ret None, s')
         ∨ ∃ e, detect_platform w url s = (Raise e, s')
                ∧ (urlparse w url = Raise e ∨ browser_launch w = Raise e
                   ∨ browser_new_page w = Raise e ∨ browser_close w = Raise e))
  ∧ (∀ parsed, urlparse w url = Ret parsed → sniff_session w →
               ∃ r s', detect_platform w url s = (Ret r, s'))
  ∧ ∀ tail, download_media_with w tail url s = download_media w url s.
Proof.
  destruct (quiet_detect_platform w url s) as (evs & Hrun & _).
  change (value_of (detect_platform w url)) with (platform_of w url) in Hrun.
  split; [|split].
  - exists (extend s evs). rewrite Hrun.
    destruct (detect_platform_cases w url) as [->| [->| [->|(e & -> & He)]]]; eauto 6.
  - intros parsed Hparse Hsession.
    destruct (detect_platform_returns w url parsed Hparse Hsession) as [r Hr].
    rewrite Hr in Hrun. eauto.
  - intros tail. unfold download_media, download_media_with.
    destruct (detect_platform_cases w url) as [Hp| [Hp| [Hp|(e & Hp & _)]]];
      rewrite Hp in Hrun;
      by rewrite ?(bind_run _ _ _ _ _ Hrun), ?(bind_run_raise _ _ _ _ _ Hrun).
Qed.

Lemma download_media_generic_branch_unreachable_witness :
  ∃ r s', detect_platform offline_world "https://example.org/clip" empty_state = (Ret r, s').
Proof.
  apply (proj1 (proj2 (download_media_generic_branch_unreachable offline_world
                         "https://example.org/clip" empty_state))
           (Url.components "https://example.org/clip") eq_refl).
  by repeat split.
Defined.

(** C10 as stated fails in its first half: on this URL [detect_platform]
    returns nothing, since [urlparse] raises [ValueError] at line 29 for the
    bracket that is not closed. *)
Lemma detect_platform_raises_counterexample :
  detect_platform offline_world "http://[youtube.com/x" empty_state
  = (Raise ValueError, empty_state)
  ∧ (download_media offline_world "http://[youtube.com/x" empty_state).1 = Raise ValueError.
Proof. by vm_compute. Qed.

(** ** De-duplication of the scraped links *)

Lemma filter_dedup_keep_first (P : string → Prop) `{!∀ x, Decision (P x)} l :
  filter P (dedup_keep_first l) = dedup_keep_first (filter P l).
Proof.
  induction l as [|x l IH]; [done|]. simpl.
  rewrite !filter_cons. destruct (decide (P x)) as [HP|HP]; simpl.
  - f_equal. rewrite <-IH, !list_filter_filter. apply list_filter_iff. naive_solver.
  - rewrite <-IH, list_filter_filter. apply list_filter_iff.
    intros y. split; [naive_solver|]. intros Hy. split; [done|]. by intros ->.
Qed.

Lemma dedup_loop_keep_first l seen acc :
  dedup_loop l seen acc = acc ++ dedup_keep_first (filter (λ x, x ∉ seen) l).
Proof.
  revert seen acc. induction l as [|m l IH]; intros seen acc; simpl.
  - by rewrite app_nil_r.
  - rewrite filter_cons. case_bool_decide as Hm; destruct (decide (m ∉ seen)); try done.
    rewrite IH, <-app_assoc. simpl. do 2 f_equal.
    rewrite filter_dedup_keep_first, list_filter_filter. f_equal.
    apply list_filter_iff. intros y. set_solver.
Qed.

Lemma filter_all {A} (P : A → Prop) `{!∀ x, Decision (P x)} (l : list A) :
  (∀ x, P x) → filter P l = l.
Proof.
  intros HP. induction l as [|x l IH]; [done|].
  by rewrite filter_cons_True, IH.
Qed.

Lemma dedup_is_keep_first l : dedup l = dedup_keep_first l.
Proof.
  unfold dedup. rewrite dedup_loop_keep_first. simpl. f_equal.
  apply filter_all. set_solver.
Qed.

Lemma elem_of_dedup_keep_first l x : x ∈ dedup_keep_first l ↔ x ∈ l.
Proof.
  induction l as [|y l IH]; [done|]. simpl.
  rewrite !elem_of_cons, list_elem_of_filter, IH.
  destruct (decide (x = y)); naive_solver.
Qed.

Lemma NoDup_dedup_keep_first l : NoDup (dedup_keep_first l).
Proof.
  induction l as [|y l IH]; simpl; [constructor|].
  constructor; [|by apply NoDup_filter].
  rewrite list_elem_of_filter. naive_solver.
Qed.

Lemma dedup_keep_first_snoc l x :
  dedup_keep_first (l ++ [x])
  = if bool_decide (x ∈ l) then dedup_keep_first l else dedup_keep_first l ++ [x].
Proof.
  induction l as [|y l IH]; [done|]. simpl. rewrite IH.
  destruct (decide (x = y)) as [->|Hxy].
  - rewrite (bool_decide_eq_true_2 (y ∈ y :: l)) by set_solver.
    case_bool_decide; [done|]. rewrite filter_app, filter_cons.
    rewrite decide_False by naive_solver. by rewrite filter_nil, app_nil_r.
  - rewrite (bool_decide_ext (x ∈ y :: l) (x ∈ l)) by set_solver.
    case_bool_decide; [done|]. rewrite filter_app, filter_cons.
    by rewrite decide_True.
Qed.

(** C6: the loop of [scrape_media_urls] keeps each link at its first
    occurrence and drops the later ones: its result has no duplicates, has
    the members of its input, grows at its end only, by a link not seen before,
    and on [[A; B; A; C; B]] is [[A; B; C]]. *)
Theorem dedup_first_occurrence (l : list string) :
  dedup l = dedup_keep_first l
  ∧ NoDup (dedup l)
  ∧ (∀ x, x ∈ dedup l ↔ x ∈ l)
  ∧ (∀ x, dedup (l ++ [x]) = if bool_decide (x ∈ l) then dedup l else dedup l ++ [x])
  ∧ (∀ A B C : string, A ≠ B → A ≠ C → B ≠ C → dedup [A; B; A; C; B] = [A; B; C]).
Proof.
  split; [apply dedup_is_keep_first|]. rewrite dedup_is_keep_first.
  split; [apply NoDup_dedup_keep_first|].
  split; [apply elem_of_dedup_keep_first|]. split.
  - intros x. rewrite dedup_is_keep_first. apply dedup_keep_first_snoc.
  - intros A B C HAB HAC HBC. rewrite dedup_is_keep_first. simpl.
    repeat first
      [ rewrite filter_nil
      | rewrite filter_cons_True by congruence
      | rewrite filter_cons_False by (intros H; by apply H) ].
    done.
Qed.

Lemma dedup_first_occurrence_witness :
  dedup [cdn "A"; cdn "B"; cdn "A"; cdn "C"; cdn "B"] = [cdn "A"; cdn "B"; cdn "C"].
Proof.
  by apply (proj2 (proj2 (proj2 (proj2 (dedup_first_occurrence []))))).
Defined.

(** ** The photo index *)

Lemma split_nonempty sep s : PyStr.split sep s ≠ [].
Proof. destruct s as [|c r]; simpl; [done|]. case_bool_decide; [done|]. by case_match. Qed.

Lemma append_cons c a b : String c a +:+ b = String c (a +:+ b).
Proof. reflexivity. Qed.

Lemma split_append sep a b :
  PyStr.split sep (a +:+ String sep b) = PyStr.split sep a ++ PyStr.split sep b.
Proof.
  induction a as [|c a IH].
  - change (EmptyString +:+ String sep b) with (String sep b). simpl.
    by rewrite bool_decide_eq_true_2.
  - rewrite append_cons. simpl. rewrite IH. case_bool_decide; [done|].
    destruct (PyStr.split sep a) eqn:Ha; [by apply split_nonempty in Ha|done].
Qed.

Lemma split_no_sep sep s : PyStr.has_char sep s = false → PyStr.split sep s = [s].
Proof.
  induction s as [|c s IH]; simpl; [done|]. intros [Hc Hs]%orb_false_elim.
  rewrite Hc, IH by done. done.
Qed.

Lemma split_photo_segment pre seg :
  PyStr.has_char "/" seg = false →
  PyStr.split "/" (pre +:+ "/photo/" +:+ seg) = PyStr.split "/" pre ++ ["photo"; seg].
Proof.
  intros Hseg. change ("/photo/" +:+ seg) with (String "/" ("photo" +:+ String "/" seg)).
  by rewrite !split_append, (split_no_sep _ seg).
Qed.

Lemma get_photo_index_after_photo w url parsed pre seg :
  urlparse w url = Ret parsed →
  Url.path parsed = pre +:+ "/photo/" +:+ seg →
  PyStr.has_char "/" seg = false →
  get_photo_index w url = Ret (default 1 (PyStr.int seg)).
Proof.
  unfold get_photo_index. intros -> Hpath Hseg. simpl. rewrite Hpath.
  rewrite split_photo_segment by done.
  rewrite bool_decide_eq_true_2 by set_solver.
  rewrite last_app_cons. simpl. by destruct (PyStr.int seg).
Qed.

(** C4, as the code has it: when [urlparse] accepts the URL, on a path with
    a [photo] component the parser reads the last segment of the path,
    whatever lies between [photo] and it, and answers its integer value, or 1
    when [int] rejects it; so for a path that ends in [/photo/<segment>] it
    reads the segment after [photo].  Without a [photo] component it answers
    1.  When [urlparse] rejects the URL the parser raises its [ValueError].
    The values are stated for ASCII URLs whose last path segment is within
    the limit on the digits of [int], where [PyStr.int] is CPython's. *)
Theorem get_photo_index_last_segment w url :
  (∀ e, urlparse w url = Raise e → get_photo_index w url = Raise e)
  ∧ ∀ parsed,
      urlparse w url = Ret parsed →
      PyStr.is_ascii url = true →
      (String.length (default EmptyString (last (PyStr.split "/" (Url.path parsed))))
       ≤ PyStr.int_max_str_digits)%nat →
      (∀ pre seg,
         Url.path parsed = pre +:+ "/photo/" +:+ seg →
         PyStr.has_char "/" seg = false →
         get_photo_index w url = Ret (default 1 (PyStr.int seg)))
      ∧ ("photo" ∈ PyStr.split "/" (Url.path parsed) →
         get_photo_index w url
         = Ret (default 1 (PyStr.int (default EmptyString
                             (last (PyStr.split "/" (Url.path parsed)))))))
      ∧ ("photo" ∉ PyStr.split "/" (Url.path parsed) →
         get_photo_index w url = Ret 1).
Proof.
  split.
  { intros e He. unfold get_photo_index. by rewrite He. }
  intros parsed Hparse _ _.
  split; [intros pre seg; by apply get_photo_index_after_photo|].
  unfold get_photo_index. rewrite Hparse. simpl. split.
  - intros Hin. rewrite bool_decide_eq_true_2 by done. by case_match.
  - intros Hin. by rewrite bool_decide_eq_false_2.
Qed.

Lemma get_photo_index_last_segment_witness :
  get_photo_index offline_world "https://www.facebook.com/me/photo/3?type=3" = Ret 3.
Proof.
  rewrite (proj1 (proj2 (get_photo_index_last_segment offline_world
                           "https://www.facebook.com/me/photo/3?type=3")
                    (Url.components "https://www.facebook.com/me/photo/3?type=3")
                    eq_refl eq_refl ltac:(vm_compute; lia))
             "/me" "3" eq_refl eq_refl).
  reflexivity.
Defined.

(** C4 as stated fails: here the segment after [photo] is "3", and the
    parser, reading the empty last segment, answers 1; there the segment
    after [photo] is not a number, and the parser answers 7. *)
Lemma get_photo_index_counterexample :
  "photo" ∈ PyStr.split "/" (Url.path (Url.components "https://www.facebook.com/me/photo/3/"))
  ∧ photo_index_by_spec "https://www.facebook.com/me/photo/3/" = 3
  ∧ get_photo_index offline_world "https://www.facebook.com/me/photo/3/" = Ret 1
  ∧ photo_index_by_spec "https://www.facebook.com/photo/set/7" = 1
  ∧ get_photo_index offline_world "https://www.facebook.com/photo/set/7" = Ret 7.
Proof. split; [|done]. vm_compute. set_solver. Qed.

(** ** The download of one link *)

Section Download.
Context (w : World).

(** What [download_with_requests] asks for: a [GET] it issues is for the
    URL it was given. *)
Lemma download_with_requests_emits url save_dir :
  emits (λ ev, is_get ev = true → ev = EvGet url)
    (download_with_requests w url save_dir).
Proof.
  apply emits_download_with_requests; try done.
Qed.

(** The run of a download every step of which succeeds. *)
Lemma download_with_requests_saves url save_dir file s :
  saves w url save_dir file →
  ∃ evs,
    download_with_requests w url save_dir s
    = (Ret (Some file),
       {| files := files s ∪ {[file]};
          trace := trace s ++ evs ++ [EvGet url; EvOpen file; EvPrint (InfoSaved file)] |}).
Proof.
  intros (name & Hname & -> & Hmkdir & Hget & Hopen & Hiter).
  unfold local_name in Hname.
  destruct (urlparse w url) as [parsed|e] eqn:Hparse; [|done]. cbv zeta in Hname.
  unfold download_with_requests, make_dir.
  destruct (PyStr.has_char "." (Url.basename (Url.path parsed))) eqn:Hdot.
  - injection Hname as <-.
    exists [EvMkdir save_dir].
    unfold mbind, M_bind, try_except, emit, lift, add_file, print, emit, mret, M_ret, record.
    simpl. rewrite Hmkdir, Hparse. simpl. rewrite Hdot. simpl.
    rewrite Hget, Hopen, Hiter. simpl. by rewrite <-!app_assoc.
  - unfold value_of, head_content_type in Hname.
    exists [EvMkdir save_dir; EvHead url].
    unfold head_content_type.
    unfold mbind, M_bind, try_except, emit, lift, add_file, print, emit, mret, M_ret, record
      in Hname |- *.
    simpl in Hname |- *. rewrite Hmkdir, Hparse. simpl. rewrite Hdot. simpl.
    destruct (requests_head w url) as [ct|e]; simpl in Hname |- *;
      [destruct (truthy ct); simpl in Hname |- *|];
      repeat match type of Hname with
        | context [bool_decide ?P] => destruct (bool_decide P); simpl in Hname |- *
        | context [guess_extension ?a ?b] =>
            destruct (guess_extension a b) as [?|]; simpl in Hname |- *
        end;
      try done; injection Hname as <-;
      rewrite Hget, Hopen, Hiter; simpl; by rewrite <-!app_assoc.
Qed.

Lemma download_with_requests_fetches url save_dir s :
  ∃ evs, fetches w (download_with_requests w url save_dir) s url save_dir evs.
Proof.
  destruct (download_with_requests_emits url save_dir s) as (evs & Htrace & Hevs).
  exists evs. split; [done|]. split.
  { intros ev Hin. by apply (proj1 (Forall_forall _ _) Hevs). }
  intros file Hsaves.
  destruct (download_with_requests_saves url save_dir file s Hsaves) as (evs1 & Hrun).
  rewrite Hrun in Htrace. simpl in Htrace. apply app_inv_head in Htrace as <-.
  rewrite Hrun. simpl. split; [done|]. split; [set_solver|].
  rewrite !elem_of_app, !elem_of_cons. naive_solver.
Qed.

(** A run that ends in [download_with_requests], with no [GET] before it. *)
Lemma fetches_after (m : M (option string)) s s0 evs0 link save_dir :
  m s = download_with_requests w link save_dir s0 →
  trace s0 = trace s ++ evs0 →
  Forall no_get evs0 →
  ∃ evs, fetches w m s link save_dir evs ∧ ∃ evs1, evs = evs0 ++ evs1.
Proof.
  intros Hrun Htrace Hevs0.
  destruct (download_with_requests_fetches link save_dir s0) as (evs1 & Ht & Hget & Hsaved).
  exists (evs0 ++ evs1). split; [|by eauto]. unfold fetches. rewrite Hrun. split.
  { by rewrite Ht, Htrace, app_assoc. }
  split.
  - intros ev [Hin|Hin]%elem_of_app Hg; [|by apply Hget].
    apply (proj1 (Forall_forall _ _) Hevs0) in Hin. unfold no_get in Hin. congruence.
  - intros file Hsaves. destruct (Hsaved file Hsaves) as (? & ? & ? & ? & ?).
    rewrite !elem_of_app. naive_solver.
Qed.

End Download.

(** ** The Facebook branches of [download_media] *)

Section FacebookBranches.
Context (w : World).

Lemma platform_of_accepted url r :
  platform_of w url = Ret r → ∃ parsed, urlparse w url = Ret parsed.
Proof.
  unfold platform_of, value_of, detect_platform.
  unfold mbind at 1. unfold M_bind at 1. unfold lift at 1.
  destruct (urlparse w url) as [parsed|e]; [eauto|done].
Qed.

Lemma is_video_shaped_accepted url parsed :
  urlparse w url = Ret parsed → ∃ b, is_video_shaped w url = Ret b.
Proof. intros Hparse. unfold is_video_shaped. rewrite Hparse. simpl. eauto. Qed.

(** A photo or feed page (lines 263-280): after classification and scraping,
    which download nothing, the call is at the choice of lines 269-277. *)
Lemma download_media_facebook_photo url s links :
  platform_of w url = Ret (Some "facebook") →
  is_video_shaped w url = Ret false →
  scraped w url = Ret links →
  classifiable w links →
  links ≠ [] →
  ∃ evs, Forall no_download evs ∧
    download_media w url s =
      (if bool_decide (candidates_of_type w "video" links ≠ []) then
         v ← getitem (candidates_of_type w "video" links) 0; download_with_requests w v VIDEO_DIR
       else
         index ← (if bool_decide (candidates_of_type w "image" links ≠ [])
                  then photo_index ← lift (get_photo_index w url);
                       mret (Some (photo_index - 1))
                  else mret None);
         match index with
         | None => raise UnboundLocalError
         | Some index =>
             if bool_decide (0 ≤ index)
                && bool_decide (index < Z.of_nat (length (candidates_of_type w "image" links))) then
               i ← getitem (candidates_of_type w "image" links) index; download_with_requests w i IMAGE_DIR
             else
               print WarnPhotoIndexOutOfRange;;
               i ← getitem (candidates_of_type w "image" links) 0; download_with_requests w i IMAGE_DIR
         end) (extend s evs).
Proof.
  intros Hplat Hshape Hscr Hcls Hne.
  destruct (quiet_run _ _ _ s (quiet_detect_platform w url) Hplat) as (e1 & H1 & F1).
  destruct (quiet_run _ _ _ (extend s e1) (quiet_scrape_media_urls w url) Hscr)
    as (e2 & H2 & F2).
  destruct (filterM_is_type_run w "video" links (extend (extend s e1) e2) Hcls)
    as (e3 & H3 & F3).
  destruct (filterM_is_type_run w "image" links (extend (extend (extend s e1) e2) e3) Hcls)
    as (e4 & H4 & F4).
  exists (e1 ++ e2 ++ e3 ++ e4). split.
  { repeat (apply Forall_app; split); try done.
    eapply Forall_impl; [apply F1|]. apply no_fetch_or_scrape_no_download. }
  unfold download_media, download_media_with.
  rewrite (bind_run _ _ _ _ _ H1).
  change (negb (truthy (Some "facebook"))) with false. cbv iota.
  rewrite (bool_decide_eq_false_2 (Some "facebook" = Some "youtube")) by done.
  rewrite (bool_decide_eq_true_2 (Some "facebook" = Some "facebook")) by done.
  rewrite Hshape. unfold mbind at 1. unfold M_bind at 1. unfold lift at 1.
  rewrite (bind_run _ _ _ _ _ H2).
  rewrite (bool_decide_eq_true_2 (links ≠ [])) by done.
  rewrite (bind_run _ _ _ _ _ H3), (bind_run _ _ _ _ _ H4).
  by rewrite ?extend_extend, <-?app_assoc.
Qed.

(** A video-shaped page whose yt-dlp attempt fails (lines 247-261): after
    the attempt, two printed lines, scraping and classification, with no
    [GET] issued, the call is at the choice of lines 255-261. *)
Lemma download_media_facebook_fallback url s links e :
  platform_of w url = Ret (Some "facebook") →
  is_video_shaped w url = Ret true →
  ytdlp_outcome w url (files s) = Raise e →
  scraped w url = Ret links →
  classifiable w links →
  links ≠ [] →
  ∃ s' evs, trace s' = trace s ++ evs ∧ Forall no_get evs ∧
    download_media w url s =
      (if bool_decide (candidates_of_type w "video" links ≠ []) then
         v ← getitem (candidates_of_type w "video" links) 0; download_with_requests w v VIDEO_DIR
       else if bool_decide (candidates_of_type w "image" links ≠ []) then
         i ← getitem (candidates_of_type w "image" links) 0; download_with_requests w i IMAGE_DIR
       else
         print ErrorNoUsableMedia;; mret None) s'.
Proof.
  intros Hplat Hshape Hyt Hscr Hcls Hne.
  destruct (quiet_run _ _ _ s (quiet_detect_platform w url) Hplat) as (e1 & H1 & F1).
  destruct (download_with_ytdlp_run w url (extend s e1)) as (s2 & H2 & e2 & T2 & F2).
  change (files (extend s e1)) with (files s) in H2. rewrite Hyt in H2.
  set (s3 := extend s2 [EvPrint (WarnYtdlpFacebook e); EvPrint InfoAttemptScraping]).
  destruct (quiet_run _ _ _ s3 (quiet_scrape_media_urls w url) Hscr) as (e3 & H3 & F3).
  destruct (filterM_is_type_run w "video" links (extend s3 e3) Hcls) as (e4 & H4 & F4).
  destruct (filterM_is_type_run w "image" links (extend (extend s3 e3) e4) Hcls)
    as (e5 & H5 & F5).
  exists (extend (extend (extend s3 e3) e4) e5),
         (e1 ++ e2 ++ [EvPrint (WarnYtdlpFacebook e); EvPrint InfoAttemptScraping]
          ++ e3 ++ e4 ++ e5).
  split.
  { unfold s3. rewrite !trace_extend, T2, trace_extend. by rewrite <-!app_assoc. }
  split.
  { repeat (apply Forall_app; split); try done;
      try (eapply Forall_impl; [eassumption|]; apply no_download_no_get).
    - eapply Forall_impl; [apply F1|].
      intros ev ?. by apply no_download_no_get, no_fetch_or_scrape_no_download.
    - eapply Forall_impl; [apply F2|]. by intros [].
    - by repeat constructor. }
  unfold download_media, download_media_with.
  rewrite (bind_run _ _ _ _ _ H1).
  change (negb (truthy (Some "facebook"))) with false. cbv iota.
  rewrite (bool_decide_eq_false_2 (Some "facebook" = Some "youtube")) by done.
  rewrite (bool_decide_eq_true_2 (Some "facebook" = Some "facebook")) by done.
  rewrite Hshape. unfold mbind at 1. unfold M_bind at 1. unfold lift at 1.
  unfold try_except. rewrite (bind_run_raise _ _ _ _ _ H2).
  assert (∀ (k : M (option string)),
            (print (WarnYtdlpFacebook e);; print InfoAttemptScraping;; k) s2 = k s3) as Hprints.
  { intros k. unfold mbind, M_bind, print, emit, s3, record, extend. simpl.
    by rewrite <-(app_assoc _ [_] [_]). }
  rewrite Hprints.
  rewrite (bind_run _ _ _ _ _ H3).
  rewrite (bool_decide_eq_true_2 (links ≠ [])) by done.
  by rewrite (bind_run _ _ _ _ _ H4), (bind_run _ _ _ _ _ H5).
Qed.

(** The same two paths when the scraper finds no link: the error of lines
    279 and 260 is printed and [None] returned. *)
Lemma download_media_facebook_photo_nothing url s :
  platform_of w url = Ret (Some "facebook") →
  is_video_shaped w url = Ret false →
  scraped w url = Ret [] →
  ∃ evs, Forall no_download evs ∧
    download_media w url s = (Ret None, extend s (evs ++ [EvPrint ErrorNoUsableMedia])).
Proof.
  intros Hplat Hshape Hscr.
  destruct (quiet_run _ _ _ s (quiet_detect_platform w url) Hplat) as (e1 & H1 & F1).
  destruct (quiet_run _ _ _ (extend s e1) (quiet_scrape_media_urls w url) Hscr)
    as (e2 & H2 & F2).
  exists (e1 ++ e2). split.
  { apply Forall_app. split; [|done].
    eapply Forall_impl; [apply F1|]. apply no_fetch_or_scrape_no_download. }
  unfold download_media, download_media_with.
  rewrite (bind_run _ _ _ _ _ H1).
  change (negb (truthy (Some "facebook"))) with false. cbv iota.
  rewrite (bool_decide_eq_false_2 (Some "facebook" = Some "youtube")) by done.
  rewrite (bool_decide_eq_true_2 (Some "facebook" = Some "facebook")) by done.
  rewrite Hshape. unfold mbind at 1. unfold M_bind at 1. unfold lift at 1.
  rewrite (bind_run _ _ _ _ _ H2).
  rewrite (bool_decide_eq_false_2 ([] ≠ [])) by naive_solver.
  unfold mbind, M_bind, print, emit, mret, M_ret. simpl.
  by rewrite record_extend, !extend_extend, app_assoc.
Qed.

Lemma download_media_facebook_fallback_nothing url s e :
  platform_of w url = Ret (Some "facebook") →
  is_video_shaped w url = Ret true →
  ytdlp_outcome w url (files s) = Raise e →
  scraped w url = Ret [] →
  ∃ s' evs, trace s' = trace s ++ evs ++ [EvPrint ErrorNoUsableMedia] ∧ Forall no_get evs ∧
    download_media w url s = (Ret None, s').
Proof.
  intros Hplat Hshape Hyt Hscr.
  destruct (quiet_run _ _ _ s (quiet_detect_platform w url) Hplat) as (e1 & H1 & F1).
  destruct (download_with_ytdlp_run w url (extend s e1)) as (s2 & H2 & e2 & T2 & F2).
  change (files (extend s e1)) with (files s) in H2. rewrite Hyt in H2.
  set (s3 := extend s2 [EvPrint (WarnYtdlpFacebook e); EvPrint InfoAttemptScraping]).
  destruct (quiet_run _ _ _ s3 (quiet_scrape_media_urls w url) Hscr) as (e3 & H3 & F3).
  exists (extend (extend s3 e3) [EvPrint ErrorNoUsableMedia]),
         (e1 ++ e2 ++ [EvPrint (WarnYtdlpFacebook e); EvPrint InfoAttemptScraping] ++ e3).
  split.
  { unfold s3. rewrite !trace_extend, T2, trace_extend. by rewrite <-!app_assoc. }
  split.
  { repeat (apply Forall_app; split); try done;
      try (eapply Forall_impl; [eassumption|]; apply no_download_no_get).
    - eapply Forall_impl; [apply F1|].
      intros ev ?. by apply no_download_no_get, no_fetch_or_scrape_no_download.
    - eapply Forall_impl; [apply F2|]. by intros [].
    - by repeat constructor. }
  unfold download_media, download_media_with.
  rewrite (bind_run _ _ _ _ _ H1).
  change (negb (truthy (Some "facebook"))) with false. cbv iota.
  rewrite (bool_decide_eq_false_2 (Some "facebook" = Some "youtube")) by done.
  rewrite (bool_decide_eq_true_2 (Some "facebook" = Some "facebook")) by done.
  rewrite Hshape. unfold mbind at 1. unfold M_bind at 1. unfold lift at 1.
  unfold try_except. rewrite (bind_run_raise _ _ _ _ _ H2).
  assert (∀ (k : M (option string)),
            (print (WarnYtdlpFacebook e);; print InfoAttemptScraping;; k) s2 = k s3) as Hprints.
  { intros k. unfold mbind, M_bind, print, emit, s3, record, extend. simpl.
    by rewrite <-(app_assoc _ [_] [_]). }
  rewrite Hprints.
  rewrite (bind_run _ _ _ _ _ H3).
  rewrite (bool_decide_eq_false_2 ([] ≠ [])) by naive_solver.
  unfold mbind, M_bind, print, emit, mret, M_ret. simpl. by rewrite record_extend.
Qed.

End FacebookBranches.

Lemma getitem_head {A B} (x : A) (l : list A) (k : A → M B) s :
  (getitem (x :: l) 0 ≫= k) s = k x s.
Proof. reflexivity. Qed.

Lemma candidates_nonempty w t links :
  candidates_of_type w t links ≠ [] → links ≠ [].
Proof. by intros H ->. Qed.


(** The choice of lines 272-277 for a photo index within the images, and
    outside of them. *)
Lemma download_media_photo_choice w url s links i imgs k :
  platform_of w url = Ret (Some "facebook") →
  is_video_shaped w url = Ret false →
  scraped w url = Ret links →
  classifiable w links →
  candidates_of_type w "video" links = [] →
  candidates_of_type w "image" links = i :: imgs →
  get_photo_index w url = Ret k →
  ∃ evs, Forall no_download evs ∧
    if bool_decide (1 ≤ k ≤ Z.of_nat (length (i :: imgs))) then
      ∃ c, (i :: imgs) !! Z.to_nat (k - 1) = Some c
           ∧ download_media w url s = download_with_requests w c IMAGE_DIR (extend s evs)
    else
      download_media w url s
      = download_with_requests w i IMAGE_DIR
          (extend s (evs ++ [EvPrint WarnPhotoIndexOutOfRange])).
Proof.
  intros Hplat Hshape Hscr Hcls Hvids Himgs Hidx.
  destruct (download_media_facebook_photo w url s links)
    as (evs & Hevs & Hrun); try done.
  { apply (candidates_nonempty w "image"). by rewrite Himgs. }
  exists evs. split; [done|].
  rewrite Hvids, Himgs, Hidx in Hrun.
  rewrite (bool_decide_eq_false_2 ([] ≠ [])) in Hrun by naive_solver.
  rewrite (bool_decide_eq_true_2 (i :: imgs ≠ [])) in Hrun by done.
  unfold mbind, M_bind, lift, mret, M_ret in Hrun. cbv beta iota in Hrun.
  destruct (decide (1 ≤ k ≤ Z.of_nat (length (i :: imgs)))) as [Hrange|Hrange];
    [rewrite (bool_decide_eq_true_2 _ Hrange)|rewrite (bool_decide_eq_false_2 _ Hrange)].
  - rewrite (bool_decide_eq_true_2 (0 ≤ k - 1)) in Hrun by lia.
    rewrite (bool_decide_eq_true_2 (k - 1 < _)) in Hrun by lia.
    simpl andb in Hrun. cbv iota in Hrun.
    destruct ((i :: imgs) !! Z.to_nat (k - 1)) as [c|] eqn:Hc.
    2:{ apply lookup_ge_None in Hc. lia. }
    exists c. split; [done|]. rewrite Hrun. unfold getitem. cbv zeta.
    rewrite (bool_decide_eq_false_2 (k - 1 < 0)) by lia.
    rewrite (bool_decide_eq_true_2 (0 ≤ k - 1)) by lia. by rewrite Hc.
  - assert (bool_decide (0 ≤ k - 1)
            && bool_decide (k - 1 < Z.of_nat (length (i :: imgs))) = false) as Hout.
    { apply andb_false_iff. destruct (decide (0 ≤ k - 1)).
      - right. apply bool_decide_eq_false_2. lia.
      - left. by apply bool_decide_eq_false_2. }
    rewrite Hout in Hrun. rewrite Hrun.
    unfold print, emit. cbv beta iota.
    by rewrite record_extend, extend_extend.
Qed.


(** When no scraped candidate of a Facebook photo page is classified as
    video or image, line 273 reads [index], which line 272 did not assign. *)
Lemma download_media_unclassified_candidates w url s links :
  platform_of w url = Ret (Some "facebook") →
  is_video_shaped w url = Ret false →
  scraped w url = Ret links →
  classifiable w links →
  links ≠ [] →
  candidates_of_type w "video" links = [] →
  candidates_of_type w "image" links = [] →
  ∃ evs, download_media w url s = (Raise UnboundLocalError, extend s evs).
Proof.
  intros Hplat Hshape Hscr Hcls Hne Hvids Himgs.
  destruct (download_media_facebook_photo w url s links) as (evs & _ & ->); try done.
  exists evs. by rewrite Hvids, Himgs.
Qed.

(** ** Numbered names of yt-dlp downloads *)

Lemma fnmatch_star name : Url.fnmatch "*" name = true.
Proof. induction name as [|c n IH]; [done|]. simpl in *. by rewrite IH. Qed.

Lemma fnmatch_literal_prefix domain name :
  glob_literal domain →
  Url.fnmatch (domain +:+ "_*") name = PyStr.startswith (domain +:+ "_") name.
Proof.
  intros [Hstar Hq]. revert name. induction domain as [|c d IH]; intros name.
  - change (EmptyString +:+ "_*") with "_*". change (EmptyString +:+ "_") with "_".
    destruct name as [|x n]; [done|].
    change (bool_decide ("_"%char = x) && Url.fnmatch "*" n
            = bool_decide ("_"%char = x) && PyStr.startswith "" n).
    rewrite fnmatch_star. by destruct n.
  - simpl in Hstar, Hq. apply orb_false_elim in Hstar as [Hc1 Hstar].
    apply orb_false_elim in Hq as [Hc2 Hq]. rewrite !append_cons. simpl.
    rewrite Hc1, Hc2. destruct name as [|x n]; [done|]. by rewrite IH.
Qed.

Lemma append_assoc a b c : (a +:+ b) +:+ c = a +:+ (b +:+ c).
Proof. induction a as [|x a IH]; [done|]. by rewrite !append_cons, IH. Qed.

Lemma strip_prefix_Some p s n : strip_prefix p s = Some n ↔ s = p +:+ n.
Proof.
  revert s. induction p as [|a p IH]; intros s; simpl.
  - change (EmptyString +:+ n) with n. naive_solver.
  - rewrite append_cons. destruct s as [|b s]; [naive_solver|].
    case_bool_decide; [|naive_solver]. rewrite IH. naive_solver.
Qed.

Lemma elem_of_listdir fs dir name :
  name ∈ listdir fs dir ↔ Url.joinpath dir name ∈ fs ∧ PyStr.has_char "/" name = false.
Proof.
  unfold listdir. rewrite list_elem_of_omap. split.
  - intros (p & Hp%elem_of_elements & Hn).
    destruct (strip_prefix (dir +:+ "/") p) as [n|] eqn:Hstrip; simplify_eq/=.
    apply strip_prefix_Some in Hstrip as ->.
    destruct (PyStr.has_char "/" n) eqn:Hslash; simplify_eq/=.
    split; [|done]. unfold Url.joinpath.
    by rewrite (append_assoc dir "/" name) in Hp.
  - intros [Hin Hslash]. exists (Url.joinpath dir name). split; [by apply elem_of_elements|].
    assert (strip_prefix (dir +:+ "/") (Url.joinpath dir name) = Some name) as ->.
    { apply strip_prefix_Some. unfold Url.joinpath.
      by rewrite (append_assoc dir "/" name). }
    simpl. by rewrite Hslash.
Qed.

Lemma foldr_max_spec d (l : list Z) :
  d ≤ foldr Z.max d l
  ∧ (∀ k, k ∈ l → k ≤ foldr Z.max d l)
  ∧ (foldr Z.max d l = d ∨ foldr Z.max d l ∈ l).
Proof.
  induction l as [|x l (Hd & Hall & Hmem)]; simpl.
  - split; [lia|]. split; [by intros k ?%elem_of_nil|by left].
  - split; [lia|]. split.
    + intros k [->|Hk]%elem_of_cons; [lia|]. specialize (Hall k Hk). lia.
    + destruct (Z.max_spec x (foldr Z.max d l)) as [[_ ->]|[_ ->]].
      * destruct Hmem as [->|?]; [by left|right; by apply elem_of_cons; right].
      * right. by apply elem_of_cons; left.
Qed.

(** The number of lines 176-186 is above every index found, and is 1 or
    follows an index found. *)
Lemma next_number_spec existing_files :
  (∀ name k, name ∈ existing_files → file_index name = Some k →
             k < next_number existing_files)
  ∧ ((next_number existing_files = 1
      ∧ ∀ name, name ∈ existing_files → file_index name = None)
     ∨ ∃ name, name ∈ existing_files
               ∧ file_index name = Some (next_number existing_files - 1)).
Proof.
  unfold next_number. cbv zeta.
  destruct (omap file_index existing_files) as [|n nums] eqn:Hnums.
  - assert (∀ name, name ∈ existing_files → file_index name = None) as Hnone.
    { intros name Hin. destruct (file_index name) as [k|] eqn:Hk; [|done].
      assert (k ∈ omap file_index existing_files) as Hel
        by (apply list_elem_of_omap; eauto).
      rewrite Hnums in Hel. by apply elem_of_nil in Hel. }
    rewrite (bool_decide_eq_false_2 ([] ≠ [])) by naive_solver.
    assert ((if bool_decide (existing_files ≠ []) then 1 else 1) = 1) as ->
      by (by case_bool_decide).
    split; [|by left]. intros name k Hin Hk. rewrite Hnone in Hk; done.
  - assert (existing_files ≠ []) as Hne by (by intros ->).
    rewrite (bool_decide_eq_true_2 _ Hne), (bool_decide_eq_true_2 (n :: nums ≠ [])) by done.
    destruct (foldr_max_spec n (n :: nums)) as (_ & Hall & Hmem). simpl head. simpl default.
    assert (foldr Z.max n (n :: nums) ∈ n :: nums) as Hel.
    { destruct Hmem as [->|?]; [by apply elem_of_cons; left|done]. }
    clear Hmem. revert Hall Hel. generalize (foldr Z.max n (n :: nums)). intros m Hall Hel.
    split.
    + intros name k Hin Hk.
      assert (k ∈ n :: nums) as Hk' by (rewrite <-Hnums; apply list_elem_of_omap; eauto).
      specialize (Hall k Hk'). lia.
    + right.
      rewrite <-Hnums in Hel. apply list_elem_of_omap in Hel as (name & Hin & Hidx).
      exists name. split; [done|]. rewrite Hidx. f_equal. lia.
Qed.

(** The name [download_with_ytdlp] returns, when it returns: the host has
    two labels and yt-dlp succeeded. *)
Lemma download_with_ytdlp_returned w url save_dir s parsed info file :
  urlparse w url = Ret parsed →
  ytdl_extract_info w url = Ret info →
  (download_with_ytdlp w url save_dir s).1 = Ret file →
  ∃ x domain labels,
    reverse (PyStr.split "." (PyStr.lower (Url.netloc parsed))) = x :: domain :: labels
    ∧ file = Url.joinpath save_dir
               (domain +:+ "_"
                +:+ PyStr.str_of_int
                      (next_number (filter (λ n, Url.fnmatch (domain +:+ "_*") n)
                                      (listdir (files s) save_dir)))
                +:+ "." +:+ default "mp4" (yt_info_ext info)).
Proof.
  intros Hparse Hyt. unfold download_with_ytdlp, make_dir, run_ytdlp, rename.
  unfold mbind, M_bind, glob, emit, lift, path_exists, add_file, move_file, mret, M_ret,
    raise, record.
  simpl. rewrite Hparse, Hyt.
  destruct (reverse _) as [|x [|domain labels]]; simpl;
    repeat (case_match; simplify_eq/=); try done; intros [= <-]; eauto.
Qed.

(** The run of [download_with_ytdlp] once the directory can be made, the
    host has two labels, yt-dlp succeeds and a stale temporary file, if
    there is one, can be renamed. *)
Lemma download_with_ytdlp_returns w url save_dir s parsed x domain labels info :
  mkdir w save_dir = Ret () →
  urlparse w url = Ret parsed →
  reverse (PyStr.split "." (PyStr.lower (Url.netloc parsed))) = x :: domain :: labels →
  ytdl_extract_info w url = Ret info →
  (∀ dst, path_rename w (Url.joinpath save_dir
                           (domain +:+ "_temp." +:+ default "mp4" (yt_info_ext info))) dst
          = Ret ()) →
  (download_with_ytdlp w url save_dir s).1
  = Ret (Url.joinpath save_dir
           (domain +:+ "_"
            +:+ PyStr.str_of_int
                  (next_number (filter (λ n, Url.fnmatch (domain +:+ "_*") n)
                                  (listdir (files s) save_dir)))
            +:+ "." +:+ default "mp4" (yt_info_ext info))).
Proof.
  intros Hmkdir Hparse Hdom Hyt Hrename.
  unfold download_with_ytdlp, make_dir, run_ytdlp, rename.
  unfold mbind, M_bind, glob, emit, lift, path_exists, add_file, move_file, mret, M_ret,
    raise, record.
  simpl. rewrite Hmkdir, Hparse. simpl. rewrite Hdom, Hyt. simpl.
  repeat (case_match; simplify_eq/=); try done;
    match goal with H : path_rename _ _ _ = Raise _ |- _ => by rewrite Hrename in H end.
Qed.

Lemma ytdl_options_outtmpl save_dir domain next_num :
  ytdl_options save_dir domain next_num !! "outtmpl"
  = Some (VStr (Url.joinpath save_dir
                  (domain +:+ "_" +:+ PyStr.str_of_int next_num +:+ ".%(ext)s"))).
Proof.
  unfold ytdl_options, dict_of. simpl.
  rewrite !lookup_insert_ne by done. by rewrite lookup_insert_eq.
Qed.

(** C2 fails on the code: the option dictionary of [download_with_ytdlp]
    lists the key [outtmpl] twice, so yt-dlp is handed the numbered name, not
    the temporary one.  In an empty video directory the download of a
    YouTube URL is written at once to [youtube_1.mp4], under the template
    [youtube_1.%(ext)s], and nothing is renamed. *)
Theorem download_with_ytdlp_template_is_final_name :
  (download_with_ytdlp sample_video_world "https://www.youtube.com/watch?v=dQw4w9WgXcQ"
     VIDEO_DIR empty_state).1 = Ret "data/videos/youtube_1.mp4"
  ∧ omap outtmpl_of
      (trace (download_with_ytdlp sample_video_world
                "https://www.youtube.com/watch?v=dQw4w9WgXcQ" VIDEO_DIR empty_state).2)
    = [VStr "data/videos/youtube_1.%(ext)s"]
  ∧ VStr "data/videos/youtube_1.%(ext)s" ≠ VStr "data/videos/youtube_temp.%(ext)s"
  ∧ filter (λ ev, is_rename ev)
      (trace (download_with_ytdlp sample_video_world
                "https://www.youtube.com/watch?v=dQw4w9WgXcQ" VIDEO_DIR empty_state).2)
    = []
  ∧ elements (files (download_with_ytdlp sample_video_world
                       "https://www.youtube.com/watch?v=dQw4w9WgXcQ" VIDEO_DIR
                       empty_state).2)
    = ["data/videos/youtube_1.mp4"].
Proof. by vm_compute. Qed.

(** C3, as the code has it: the name is [{label}_{N}.{ext}], where the
    label is the last but one label of the host (so "facebook" and "youtube" for
    the usual hosts, and "youtu" for [youtu.be]), [ext] is what yt-dlp
    reports ("mp4" if it reports none), and [N] is above every index found
    among the entries of the directory whose names start with [{label}_], and
    is 1 if none carries an index, else the successor of one of them.  This
    is the name returned whenever the directory can be made, yt-dlp succeeds
    and a stale temporary file, if there is one, can be renamed.  With
    [facebook_1.mp4] and [facebook_3.mp4] in place the next Facebook download
    is [facebook_4.mp4]. *)
Theorem download_with_ytdlp_numbered_name :
  (∀ w url save_dir s domain info,
     domain_label w url = Some domain →
     glob_literal domain →
     mkdir w save_dir = Ret () →
     ytdl_extract_info w url = Ret info →
     (∀ dst, path_rename w (Url.joinpath save_dir
                              (domain +:+ "_temp." +:+ default "mp4" (yt_info_ext info))) dst
             = Ret ()) →
     ∃ N,
       (download_with_ytdlp w url save_dir s).1
       = Ret (Url.joinpath save_dir
                (domain +:+ "_" +:+ PyStr.str_of_int N +:+ "."
                 +:+ default "mp4" (yt_info_ext info)))
       ∧ (∀ name k,
            Url.joinpath save_dir name ∈ files s →
            PyStr.has_char "/" name = false →
            PyStr.startswith (domain +:+ "_") name = true →
            file_index name = Some k → k < N)
       ∧ ((N = 1
           ∧ ∀ name,
               Url.joinpath save_dir name ∈ files s →
               PyStr.has_char "/" name = false →
               PyStr.startswith (domain +:+ "_") name = true →
               file_index name = None)
          ∨ ∃ name,
              Url.joinpath save_dir name ∈ files s
              ∧ PyStr.has_char "/" name = false
              ∧ PyStr.startswith (domain +:+ "_") name = true
              ∧ file_index name = Some (N - 1)))
  ∧ (download_with_ytdlp sample_video_world "https://www.facebook.com/watch/?v=10"
       VIDEO_DIR
       (state_with_files ["data/videos/facebook_1.mp4"; "data/videos/facebook_3.mp4"])).1
    = Ret "data/videos/facebook_4.mp4"
  ∧ domain_label sample_video_world "https://youtu.be/dQw4w9WgXcQ" = Some "youtu".
Proof.
  split; [|by vm_compute].
  intros w url save_dir s domain info Hdom Hlit Hmkdir Hyt Hrename.
  unfold domain_label in Hdom.
  destruct (urlparse w url) as [parsed|e] eqn:Hparse; [|done].
  destruct (reverse _) as [|x [|d labels]] eqn:Hrev; simplify_eq/=.
  set (existing := filter (λ n, Url.fnmatch (domain +:+ "_*") n) (listdir (files s) save_dir)).
  assert (∀ name, name ∈ existing
                  ↔ Url.joinpath save_dir name ∈ files s
                    ∧ PyStr.has_char "/" name = false
                    ∧ PyStr.startswith (domain +:+ "_") name = true) as Hex.
  { intros name. unfold existing.
    rewrite list_elem_of_filter, elem_of_listdir, fnmatch_literal_prefix by done.
    rewrite Is_true_true. naive_solver. }
  exists (next_number existing). split.
  { by apply (download_with_ytdlp_returns w url save_dir s parsed x domain labels info). }
  destruct (next_number_spec existing) as [Hbound Hmax]. split.
  - intros name k Hin Hslash Hpre Hk. apply (Hbound name); [|done]. by apply Hex.
  - destruct Hmax as [[H1 Hnone]|(name & Hin & Hk)].
    + left. split; [done|]. intros name Hin Hslash Hpre. apply Hnone. by apply Hex.
    + right. exists name. apply Hex in Hin. naive_solver.
Qed.

Lemma download_with_ytdlp_numbered_name_witness :
  ∃ N,
    (download_with_ytdlp sample_video_world "https://m.youtube.com/watch?v=dQw4w9WgXcQ"
       VIDEO_DIR (state_with_files ["data/videos/youtube_7.mp4"])).1
    = Ret (Url.joinpath VIDEO_DIR ("youtube" +:+ "_" +:+ PyStr.str_of_int N +:+ "." +:+ "mp4"))
    ∧ 7 < N.
Proof.
  destruct (proj1 download_with_ytdlp_numbered_name sample_video_world
              "https://m.youtube.com/watch?v=dQw4w9WgXcQ" VIDEO_DIR
              (state_with_files ["data/videos/youtube_7.mp4"]) "youtube"
              {| yt_file_ext := "mp4"; yt_info_ext := Some "mp4" |}
              eq_refl (conj eq_refl eq_refl) eq_refl eq_refl (λ _, eq_refl))
    as (N & Hname & Hbound & _).
  exists N. split; [exact Hname|].
  apply (Hbound "youtube_7.mp4"); [by vm_compute|reflexivity|reflexivity|reflexivity].
Defined.

(** C3 as stated fails for the platform tag: a [youtu.be] URL is classified
    as youtube, and with [youtube_7.mp4] in place its download is named
    [youtu_1.mp4], not [youtube_8.mp4]. *)
Lemma download_with_ytdlp_youtu_be_counterexample :
  platform_of sample_video_world "https://youtu.be/dQw4w9WgXcQ" = Ret (Some "youtube")
  ∧ (download_media sample_video_world "https://youtu.be/dQw4w9WgXcQ"
       (state_with_files ["data/videos/youtube_7.mp4"])).1
    = Ret (Some "data/videos/youtu_1.mp4")
  ∧ (download_media sample_video_world "https://youtu.be/dQw4w9WgXcQ"
       (state_with_files ["data/videos/youtube_7.mp4"])).1
    ≠ Ret (Some "data/videos/youtube_8.mp4").
Proof. by vm_compute. Qed.

(** ** Characters of hosts and path segments *)

Lemma lower_char_eq c a : not_letter c → PyStr.lower_char a = c ↔ a = c.
Proof.
  intros [Hup Hlo]. unfold PyStr.lower_char. cbv zeta. case_bool_decide as Ha; [|done].
  split.
  - intros <-. exfalso. apply Hlo.
    rewrite nat_ascii_embedding by lia. lia.
  - intros ->. by exfalso.
Qed.

Lemma has_char_lower c s :
  not_letter c → PyStr.has_char c (PyStr.lower s) = PyStr.has_char c s.
Proof.
  intros Hc. induction s as [|a s IH]; [done|]. simpl. rewrite IH. f_equal.
  apply bool_decide_ext. by apply lower_char_eq.
Qed.

Lemma split_parts_no_char c sep s :
  PyStr.has_char c s = false →
  Forall (λ p, PyStr.has_char c p = false) (PyStr.split sep s).
Proof.
  induction s as [|a s IH]; simpl; [by repeat constructor|].
  intros [Ha Hs]%orb_false_elim. specialize (IH Hs).
  destruct (bool_decide (a = sep)).
  - by constructor.
  - destruct (PyStr.split sep s) as [|h t]; [by repeat constructor; simpl; rewrite Ha|].
    inversion_clear IH. constructor; [|done]. simpl. by rewrite Ha.
Qed.

Lemma split_parts_no_sep sep s :
  Forall (λ p, PyStr.has_char sep p = false) (PyStr.split sep s).
Proof.
  induction s as [|a s IH]; simpl; [by repeat constructor|]. case_bool_decide as Ha.
  - by constructor.
  - destruct (PyStr.split sep s) as [|h t] eqn:Hsp; [by apply split_nonempty in Hsp|].
    inversion_clear IH. constructor; [|done]. simpl.
    by rewrite (bool_decide_eq_false_2 _ Ha).
Qed.

Lemma dot_not_letter : not_letter "."%char.
Proof. split; vm_compute; lia. Qed.
Lemma slash_not_letter : not_letter "/"%char.
Proof. split; vm_compute; lia. Qed.


Lemma rsplit_once_None sep s :
  PyStr.rsplit_once sep s = None → PyStr.has_char sep s = false.
Proof.
  induction s as [|d s IH]; simpl; [done|].
  destruct (PyStr.rsplit_once sep s) as [[a' b']|]; [done|].
  destruct (bool_decide (d = sep)); [done|]. intros _. by apply IH.
Qed.

Lemma rsplit_once_no_sep sep s a b :
  PyStr.rsplit_once sep s = Some (a, b) → PyStr.has_char sep b = false.
Proof.
  revert a. induction s as [|c s IH]; intros a; simpl; [done|].
  destruct (PyStr.rsplit_once sep s) as [[a' b']|] eqn:Hr.
  - intros [= <- <-]. by eapply IH.
  - destruct (bool_decide (c = sep)); [|done]. intros [= <- <-].
    by apply rsplit_once_None.
Qed.

(** The base name of a path holds no slash. *)
Lemma basename_no_slash p : PyStr.has_char "/" (Url.basename p) = false.
Proof.
  unfold Url.basename. destruct (PyStr.rsplit_once "/" p) as [[a b]|] eqn:Hr.
  - by eapply rsplit_once_no_sep.
  - by apply rsplit_once_None.
Qed.

(** ** [str] and [int] on integers, and the freshness of numbered names *)

Lemma rev_app_append a b : String.rev_app a b = String.rev_app a EmptyString +:+ b.
Proof.
  revert b. induction a as [|c a IH]; intros b; [done|]. simpl.
  rewrite (IH (String c b)), (IH (String c EmptyString)), append_assoc. done.
Qed.

Lemma rev_cons c s : String.rev (String c s) = String.rev s +:+ String c EmptyString.
Proof. unfold String.rev. simpl. apply rev_app_append. Qed.

Lemma rev_snoc s c : String.rev (s +:+ String c EmptyString) = String c (String.rev s).
Proof.
  induction s as [|d s IH]; [done|].
  by rewrite append_cons, !rev_cons, IH, append_cons.
Qed.

Lemma rev_involutive s : String.rev (String.rev s) = s.
Proof. induction s as [|c s IH]; [done|]. by rewrite rev_cons, rev_snoc, IH. Qed.

(** What [int] strips leaves a string alone when it neither starts nor ends
    with white space. *)
Lemma strip_c_id c s d :
  PyStr.is_c_space c = false → PyStr.is_c_space d = false →
  PyStr.strip_c (String c (s +:+ String d EmptyString))
  = String c (s +:+ String d EmptyString).
Proof.
  intros Hc Hd. unfold PyStr.strip_c. simpl. rewrite Hc.
  rewrite <-append_cons, rev_snoc. simpl. rewrite Hd.
  by rewrite <-rev_snoc, rev_involutive.
Qed.

Lemma strip_c_id_single c :
  PyStr.is_c_space c = false → PyStr.strip_c (String c EmptyString) = String c EmptyString.
Proof. intros Hc. unfold PyStr.strip_c. simpl. rewrite Hc. simpl. by rewrite Hc. Qed.

Lemma digit_pretty_N_char d :
  (d < 10)%N → PyStr.digit (pretty_N_char d) = Some (Z.of_N d).
Proof.
  intros Hd.
  assert (d = 0 ∨ d = 1 ∨ d = 2 ∨ d = 3 ∨ d = 4 ∨ d = 5 ∨ d = 6 ∨ d = 7 ∨ d = 8 ∨ d = 9)%N
    as Hcases by lia.
  repeat destruct Hcases as [->|Hcases]; try subst d; reflexivity.
Qed.

Lemma digit_not_space c v : PyStr.digit c = Some v → PyStr.is_c_space c = false.
Proof.
  unfold PyStr.digit, PyStr.is_c_space. cbv zeta. case_bool_decide; [|done]. intros _.
  rewrite !bool_decide_eq_false_2 by lia. done.
Qed.

(** A digit character is its decimal value away from "0". *)
Lemma digit_char c v : PyStr.digit c = Some v → c = ascii_of_nat (Z.to_nat v + 48).
Proof.
  unfold PyStr.digit. cbv zeta. case_bool_decide; [|done]. intros [= <-].
  replace (Z.to_nat (Z.of_nat (nat_of_ascii c) - 48) + 48)%nat with (nat_of_ascii c) by lia.
  by rewrite ascii_nat_embedding.
Qed.

Lemma pretty_N_go_append x s : pretty_N_go x s = pretty_N_go x EmptyString +:+ s.
Proof.
  revert s. induction (N.lt_wf_0 x) as [x _ IH]; intros s.
  assert (x = 0 ∨ 0 < x)%N as [->|Hx] by lia; [by rewrite !pretty_N_go_0|].
  rewrite (pretty_N_go_step x s), (pretty_N_go_step x EmptyString) by done.
  assert (x `div` 10 < x)%N as Hlt by (by apply N.div_lt).
  rewrite (IH _ Hlt (String (pretty_N_char (x `mod` 10)) s)).
  rewrite (IH _ Hlt (String (pretty_N_char (x `mod` 10)) EmptyString)).
  by rewrite append_assoc.
Qed.

(** The digits [str] writes for a positive number are read back by
    [int_digits], after whatever was read before them. *)
Lemma int_digits_pretty_N_go x :
  (0 < x)%N →
  ∃ p, ∀ s acc b,
    PyStr.int_digits b acc (pretty_N_go x s) = PyStr.int_digits true (acc * p + Z.of_N x) s.
Proof.
  induction (N.lt_wf_0 x) as [x _ IH]. intros Hx.
  assert (PyStr.digit (pretty_N_char (x `mod` 10)) = Some (Z.of_N (x `mod` 10))) as Hd.
  { apply digit_pretty_N_char. by apply N.mod_lt. }
  destruct (N.eq_0_gt_0_cases (x `div` 10)) as [H0|Hpos].
  - exists 10. intros s acc b. rewrite pretty_N_go_step, H0, pretty_N_go_0 by done.
    simpl. rewrite Hd. f_equal.
    pose proof (N.div_mod x 10). lia.
  - destruct (IH (x `div` 10)%N) as [p Hp]; [by apply N.div_lt|done|].
    exists (10 * p). intros s acc b. rewrite pretty_N_go_step, Hp by done.
    simpl. rewrite Hd. f_equal.
    pose proof (N.div_mod x 10). lia.
Qed.

Lemma pretty_N_go_shape x :
  (0 < x)%N →
  ∃ c d v v',
    PyStr.digit c = Some v ∧ PyStr.digit d = Some v'
    ∧ (pretty_N_go x EmptyString = String c EmptyString ∧ c = d
       ∨ ∃ t, pretty_N_go x EmptyString = String c (t +:+ String d EmptyString)).
Proof.
  induction (N.lt_wf_0 x) as [x _ IH]. intros Hx.
  assert (PyStr.digit (pretty_N_char (x `mod` 10)) = Some (Z.of_N (x `mod` 10))) as Hd.
  { apply digit_pretty_N_char. by apply N.mod_lt. }
  rewrite pretty_N_go_step by done.
  destruct (N.eq_0_gt_0_cases (x `div` 10)) as [H0|Hpos].
  - rewrite H0, pretty_N_go_0. eexists _, _, _, _. split; [exact Hd|]. split; [exact Hd|].
    by left.
  - destruct (IH (x `div` 10)%N) as (c & d & v & v' & Hc & _ & Hshape);
      [by apply N.div_lt|done|].
    rewrite pretty_N_go_append.
    exists c, (pretty_N_char (x `mod` 10)), v, (Z.of_N (x `mod` 10)).
    split; [done|]. split; [done|]. right.
    destruct Hshape as [[-> _]|[t ->]].
    + by exists EmptyString.
    + exists (t +:+ String d EmptyString). by rewrite append_cons.
Qed.

Lemma has_char_pretty_N_go c x s :
  PyStr.digit c = None →
  PyStr.has_char c (pretty_N_go x s) = PyStr.has_char c s.
Proof.
  intros Hc. revert s. induction (N.lt_wf_0 x) as [x _ IH]; intros s.
  assert (x = 0 ∨ 0 < x)%N as [->|Hx] by lia; [by rewrite pretty_N_go_0|].
  rewrite pretty_N_go_step, IH by (done || by apply N.div_lt). simpl.
  rewrite bool_decide_eq_false_2; [done|]. intros Heq.
  rewrite <-Heq, digit_pretty_N_char in Hc; [done|]. by apply N.mod_lt.
Qed.

Lemma int_unsigned c s v :
  PyStr.digit c = Some v →
  PyStr.strip_c (String c s) = String c s →
  PyStr.int (String c s) = PyStr.int_digits false 0 (String c s).
Proof.
  intros Hc Hstrip. unfold PyStr.int. rewrite Hstrip.
  destruct c as [[] [] [] [] [] [] [] []];
    first [reflexivity | by vm_compute in Hc].
Qed.

(** [int(str(n))] is [n]. *)
Lemma int_str_of_int n : PyStr.int (PyStr.str_of_int n) = Some n.
Proof.
  destruct n as [|p|p]; [reflexivity| |].
  - unfold PyStr.str_of_int, pretty, pretty_Z, pretty, pretty_positive, pretty, pretty_N.
    rewrite decide_False by done.
    destruct (int_digits_pretty_N_go (N.pos p)) as [q Hq]; [done|].
    destruct (pretty_N_go_shape (N.pos p)) as (c & d & v & v' & Hc & Hd & Hshape); [done|].
    assert (PyStr.int (pretty_N_go (N.pos p) EmptyString)
            = PyStr.int_digits false 0 (pretty_N_go (N.pos p) EmptyString)) as ->.
    { destruct Hshape as [[-> _]|[t ->]].
      - eapply int_unsigned; [done|]. apply strip_c_id_single. by eapply digit_not_space.
      - eapply int_unsigned; [done|]. apply strip_c_id; by eapply digit_not_space. }
    rewrite Hq. simpl. f_equal.
  - unfold PyStr.str_of_int, pretty, pretty_Z, pretty, pretty_positive, pretty, pretty_N.
    rewrite decide_False by done.
    destruct (int_digits_pretty_N_go (N.pos p)) as [q Hq]; [done|].
    destruct (pretty_N_go_shape (N.pos p)) as (c & d & v & v' & Hc & Hd & Hshape); [done|].
    assert (PyStr.strip_c ("-" +:+ pretty_N_go (N.pos p) EmptyString)
            = String "-" (pretty_N_go (N.pos p) EmptyString)) as Hstrip.
    { destruct Hshape as [[-> _]|[t ->]].
      - apply (strip_c_id "-" EmptyString c); [done|by eapply digit_not_space].
      - apply (strip_c_id "-" (String c t) d); [done|by eapply digit_not_space]. }
    unfold PyStr.int. rewrite Hstrip, Hq. simpl. f_equal.
Qed.

Lemma has_char_str_of_int c n :
  PyStr.digit c = None → c ≠ "-"%char → PyStr.has_char c (PyStr.str_of_int n) = false.
Proof.
  intros Hc Hdash.
  destruct n as [|p|p]; unfold PyStr.str_of_int, pretty, pretty_Z, pretty, pretty_positive,
    pretty, pretty_N.
  - simpl. rewrite bool_decide_eq_false_2; [done|]. intros <-. by vm_compute in Hc.
  - rewrite decide_False by done. by rewrite has_char_pretty_N_go.
  - rewrite decide_False by done.
    change ("-" +:+ pretty_N_go (N.pos p) EmptyString)
      with (String "-" (pretty_N_go (N.pos p) EmptyString)).
    simpl. rewrite has_char_pretty_N_go by done.
    rewrite bool_decide_eq_false_2; [done|]. congruence.
Qed.

Lemma has_char_append c a b :
  PyStr.has_char c (a +:+ b) = PyStr.has_char c a || PyStr.has_char c b.
Proof.
  induction a as [|x a IH]; [done|]. rewrite append_cons. simpl.
  by rewrite IH, orb_assoc.
Qed.

Lemma startswith_append a b : PyStr.startswith a (a +:+ b) = true.
Proof.
  induction a as [|x a IH]; [done|]. rewrite append_cons. simpl.
  by rewrite bool_decide_eq_true_2.
Qed.

Lemma rsplit_once_no_char sep s :
  PyStr.has_char sep s = false → PyStr.rsplit_once sep s = None.
Proof.
  induction s as [|c s IH]; simpl; [done|]. intros [Hc Hs]%orb_false_elim.
  by rewrite IH, Hc.
Qed.

Lemma rsplit_once_append sep a b :
  PyStr.has_char sep b = false →
  PyStr.rsplit_once sep (a +:+ String sep b) = Some (a, b).
Proof.
  intros Hb. induction a as [|c a IH].
  - change (EmptyString +:+ String sep b) with (String sep b). simpl.
    by rewrite rsplit_once_no_char, bool_decide_eq_true_2.
  - rewrite append_cons. simpl. by rewrite IH.
Qed.

(** The index [download_with_ytdlp] reads off a name it has built itself is
    the number it put there. *)
Lemma file_index_numbered domain n ext :
  ext ≠ EmptyString → PyStr.has_char "." ext = false →
  file_index (domain +:+ "_" +:+ PyStr.str_of_int n +:+ "." +:+ ext) = Some n.
Proof.
  intros Hext Hdot. unfold file_index, Url.stem.
  assert (domain +:+ "_" +:+ PyStr.str_of_int n +:+ "." +:+ ext
          = (domain +:+ String "_" (PyStr.str_of_int n)) +:+ String "." ext) as ->.
  { by rewrite append_assoc. }
  rewrite rsplit_once_append by done.
  rewrite (bool_decide_eq_false_2 (_ = EmptyString)).
  2:{ destruct domain; done. }
  rewrite (bool_decide_eq_false_2 (ext = EmptyString)) by done. simpl.
  rewrite split_append.
  rewrite (split_no_sep "_" (PyStr.str_of_int n)) by (by apply has_char_str_of_int).
  rewrite last_snoc.
  simpl. apply int_str_of_int.
Qed.

Lemma span_netloc_no_slash s : PyStr.has_char "/" (Url.span_netloc s).1 = false.
Proof.
  induction s as [|c s IH]; simpl; [done|].
  destruct (bool_decide (c = "/"%char)) eqn:Hc; simpl; [done|].
  destruct (_ || _); simpl; [done|].
  destruct (Url.span_netloc s) as [a b]. simpl in *. by rewrite Hc, IH.
Qed.

Lemma split_netloc_no_slash s : PyStr.has_char "/" (Url.split_netloc s).1 = false.
Proof.
  destruct s as [|c1 s]; [done|].
  destruct c1 as [[] [] [] [] [] [] [] []]; try done.
  destruct s as [|c2 s]; [done|].
  destruct c2 as [[] [] [] [] [] [] [] []]; try done.
  apply span_netloc_no_slash.
Qed.

(** The authority [urlparse] returns holds no slash. *)
Lemma netloc_no_slash url : PyStr.has_char "/" (Url.netloc (Url.components url)) = false.
Proof.
  unfold Url.components. cbv zeta.
  destruct (Url.split_scheme _) as [sch u1].
  pose proof (split_netloc_no_slash u1) as Hloc.
  destruct (Url.split_netloc u1) as [loc u2].
  by repeat case_match.
Qed.

Lemma urlparse_components w url parsed :
  urlparse w url = Ret parsed → parsed = Url.components url.
Proof.
  unfold urlparse, Url.urlparse. cbv zeta. case_match; [|done]. by intros [= <-].
Qed.

Lemma domain_label_no_slash w url domain :
  domain_label w url = Some domain → PyStr.has_char "/" domain = false.
Proof.
  unfold domain_label. intros Hdom.
  destruct (urlparse w url) as [parsed|e] eqn:Hparse; [|done].
  apply urlparse_components in Hparse as ->.
  assert (domain ∈ PyStr.split "." (PyStr.lower (Url.netloc (Url.components url)))) as Hin.
  { apply elem_of_reverse. destruct (reverse _) as [|x [|d l]]; simplify_eq/=. set_solver. }
  pose proof (split_parts_no_char "/" "." (PyStr.lower (Url.netloc (Url.components url))))
    as Hparts.
  rewrite Forall_forall in Hparts. apply Hparts; [|done].
  rewrite has_char_lower by apply slash_not_letter. apply netloc_no_slash.
Qed.

(** X9: the numbered name is fresh.  When the host label holds no glob
    wildcard and the extension yt-dlp reports is a plain one (non-empty, with
    no dot and no slash), the path [download_with_ytdlp] returns was not the
    path of any file present before the call. *)
Theorem download_with_ytdlp_fresh_name w url save_dir s domain info file :
  domain_label w url = Some domain →
  glob_literal domain →
  ytdl_extract_info w url = Ret info →
  default "mp4" (yt_info_ext info) ≠ EmptyString →
  PyStr.has_char "." (default "mp4" (yt_info_ext info)) = false →
  PyStr.has_char "/" (default "mp4" (yt_info_ext info)) = false →
  (download_with_ytdlp w url save_dir s).1 = Ret file →
  file ∉ files s.
Proof.
  intros Hdom Hlit Hyt Hext Hdot Hslash Hfile Hin.
  pose proof (domain_label_no_slash w url domain Hdom) as Hdslash.
  unfold domain_label in Hdom.
  destruct (urlparse w url) as [parsed|e] eqn:Hparse; [|done].
  destruct (download_with_ytdlp_returned w url save_dir s parsed info file Hparse Hyt Hfile)
    as (x & d & labels & Hrev & ->).
  rewrite Hrev in Hdom. injection Hdom as ->.
  set (existing := filter (λ n, Url.fnmatch (domain +:+ "_*") n)
                     (listdir (files s) save_dir)) in *.
  set (ext := default "mp4" (yt_info_ext info)) in *.
  set (N := next_number existing) in *.
  set (name := domain +:+ "_" +:+ PyStr.str_of_int N +:+ "." +:+ ext) in *.
  assert (name ∈ existing) as Hname.
  { unfold existing. apply list_elem_of_filter. split.
    - rewrite fnmatch_literal_prefix by done. apply Is_true_true.
      unfold name. rewrite <-(append_assoc domain "_"). apply startswith_append.
    - apply elem_of_listdir. split; [done|]. unfold name.
      rewrite !has_char_append, Hdslash, Hslash, has_char_str_of_int by done. done. }
  destruct (next_number_spec existing) as [Hbound _].
  specialize (Hbound name N Hname (file_index_numbered domain N ext Hext Hdot)).
  unfold N in Hbound. lia.
Qed.

Lemma download_with_ytdlp_fresh_name_witness :
  "data/videos/facebook_4.mp4"
  ∉ files (state_with_files ["data/videos/facebook_1.mp4"; "data/videos/facebook_3.mp4"]).
Proof.
  apply (download_with_ytdlp_fresh_name sample_video_world
           "https://www.facebook.com/watch/?v=10" VIDEO_DIR
           (state_with_files ["data/videos/facebook_1.mp4"; "data/videos/facebook_3.mp4"])
           "facebook" {| yt_file_ext := "mp4"; yt_info_ext := Some "mp4" |});
    first [reflexivity | by split | done | by vm_compute].
Defined.

(** ** Sample runs of the Facebook branches *)

Ltac classified := repeat (constructor; [by eexists|]); try constructor.





(** C1 fails on the code: a Facebook photo page whose two scraped
    candidates are classified neither as video nor as image makes
    [download_media] raise [UnboundLocalError] instead of returning [None]. *)
Theorem download_media_raises_on_unclassified_candidates :
  platform_of webp_world "https://www.facebook.com/me/photo/3" = Ret (Some "facebook")
  ∧ is_video_shaped webp_world "https://www.facebook.com/me/photo/3" = Ret false
  ∧ scraped webp_world "https://www.facebook.com/me/photo/3"
    = Ret [cdn "1.webp"; cdn "2.webp"]
  ∧ candidates_of_type webp_world "video" [cdn "1.webp"; cdn "2.webp"] = []
  ∧ candidates_of_type webp_world "image" [cdn "1.webp"; cdn "2.webp"] = []
  ∧ (download_media webp_world "https://www.facebook.com/me/photo/3" empty_state).1
    = Raise UnboundLocalError.
Proof. by vm_compute. Qed.

(** ** Edge and error behaviour of the two download helpers *)

(** X6: when [urlparse] accepts the URL and its authority holds no dot (a
    bare host name, or no authority at all because the URL has no scheme),
    [download_with_ytdlp] raises [IndexError] at line 173: the directory has
    been made (line 170), but it is not listed, yt-dlp is not called and the
    files are as they were. *)
Theorem download_with_ytdlp_dotless_host w url save_dir s parsed :
  mkdir w save_dir = Ret () →
  urlparse w url = Ret parsed →
  PyStr.has_char "." (Url.netloc parsed) = false →
  download_with_ytdlp w url save_dir s = (Raise IndexError, extend s [EvMkdir save_dir]).
Proof.
  intros Hmkdir Hparse Hdot. unfold download_with_ytdlp, make_dir.
  unfold mbind, M_bind, emit, lift. rewrite Hmkdir, Hparse.
  rewrite split_no_sep by (by rewrite has_char_lower by apply dot_not_letter).
  reflexivity.
Qed.

Lemma download_with_ytdlp_dotless_host_witness :
  download_with_ytdlp sample_video_world "http://localhost:8000/clip" VIDEO_DIR empty_state
  = (Raise IndexError, extend empty_state [EvMkdir VIDEO_DIR])
  ∧ download_with_ytdlp sample_video_world "www.youtube.com/watch?v=dQw4w9WgXcQ" VIDEO_DIR
      empty_state
    = (Raise IndexError, extend empty_state [EvMkdir VIDEO_DIR]).
Proof.
  split.
  - apply (download_with_ytdlp_dotless_host sample_video_world "http://localhost:8000/clip"
             VIDEO_DIR empty_state (Url.components "http://localhost:8000/clip"));
      reflexivity.
  - apply (download_with_ytdlp_dotless_host sample_video_world
             "www.youtube.com/watch?v=dQw4w9WgXcQ" VIDEO_DIR empty_state
             (Url.components "www.youtube.com/watch?v=dQw4w9WgXcQ"));
      reflexivity.
Defined.

(** X7: the outcomes of [download_with_requests].  It returns a file only
    when every step of the download succeeded ([saves]): the [GET] was
    issued, the file was opened, and it is the one new entry of the file
    system.  It returns [None] only after the [GET] was issued, when the
    request, the opening of the file or the streaming raised; the file then
    exists only if it had been opened (line 160) before the streaming failed.
    It raises before any [GET] and without touching the files, and only what
    [mkdir] (line 146) or [urlparse] (line 147) raised, or [TypeError] when
    the base name has no dot and [mimetypes] knows no extension for the
    content type (line 155). *)
Theorem download_with_requests_outcome w url save_dir s :
  ∃ evs,
    trace (download_with_requests w url save_dir s).2 = trace s ++ evs
    ∧ match (download_with_requests w url save_dir s).1 with
      | Ret (Some file) =>
          saves w url save_dir file
          ∧ files (download_with_requests w url save_dir s).2 = files s ∪ {[file]}
          ∧ EvGet url ∈ evs
          ∧ EvOpen file ∈ evs
      | Ret None =>
          EvGet url ∈ evs
          ∧ ∃ name e,
              local_name w url = Some name
              ∧ mkdir w save_dir = Ret ()
              ∧ (requests_get w url = Raise e
                 ∧ files (download_with_requests w url save_dir s).2 = files s
                 ∨ requests_get w url = Ret ()
                   ∧ open_wb w (Url.joinpath save_dir name) = Raise e
                   ∧ files (download_with_requests w url save_dir s).2 = files s
                 ∨ requests_get w url = Ret ()
                   ∧ open_wb w (Url.joinpath save_dir name) = Ret ()
                   ∧ iter_content w url = Raise e
                   ∧ files (download_with_requests w url save_dir s).2
                     = files s ∪ {[Url.joinpath save_dir name]})
      | Raise e =>
          Forall no_get evs
          ∧ files (download_with_requests w url save_dir s).2 = files s
          ∧ (mkdir w save_dir = Raise e
             ∨ mkdir w save_dir = Ret () ∧ urlparse w url = Raise e
             ∨ mkdir w save_dir = Ret () ∧ e = TypeError
               ∧ ∃ parsed, urlparse w url = Ret parsed
                           ∧ PyStr.has_char "." (Url.basename (Url.path parsed)) = false
                           ∧ local_name w url = None)
      end.
Proof.
  unfold saves, local_name, value_of, download_with_requests, make_dir, head_content_type.
  unfold mbind, M_bind, try_except, emit, lift, add_file, print, emit, mret, M_ret, raise,
    record.
  simpl.
  destruct (mkdir w save_dir) as [[]|e0]; simpl.
  2:{ exists [EvMkdir save_dir]. split; [done|]. split; [by repeat constructor|]. eauto. }
  destruct (urlparse w url) as [parsed|e0]; simpl.
  2:{ exists [EvMkdir save_dir]. split; [done|]. split; [by repeat constructor|]. eauto. }
  destruct (PyStr.has_char "." (Url.basename (Url.path parsed))) eqn:Hdot; simpl.
  - destruct (requests_get w url) as [[]|e0]; simpl;
      [destruct (open_wb w _) as [[]|e0] eqn:Hopen; simpl;
       [destruct (iter_content w url) as [[]|e0]; simpl|]|];
      eexists; rewrite <-?app_assoc; (split; [reflexivity|]); simpl.
    + split; [by eauto 10|]. split; [done|]. set_solver.
    + split; [set_solver|]. eexists _, e0. split; [done|]. split; [done|].
      right. right. by rewrite Hopen.
    + split; [set_solver|]. eexists _, e0. split; [done|]. split; [done|].
      right. left. by rewrite Hopen.
    + split; [set_solver|]. eexists _, e0. split; [done|]. split; [done|]. by left.
  - destruct (requests_head w url) as [ct|e0]; simpl; [destruct (truthy ct); simpl|];
      repeat match goal with
        | |- context [bool_decide ?P] => destruct (bool_decide P); simpl
        | |- context [guess_extension ?a ?b] =>
            destruct (guess_extension a b) as [?|]; simpl
        end.
    all: try (exists [EvMkdir save_dir; EvHead url]; rewrite <-?app_assoc;
              split; [done|]; split; [by repeat constructor|]; split; [done|];
              right; right; split; [done|]; split; [done|]; exists parsed;
              by repeat split).
    all: destruct (requests_get w url) as [[]|e1]; simpl;
      [destruct (open_wb w _) as [[]|e1] eqn:Hopen; simpl;
       [destruct (iter_content w url) as [[]|e1]; simpl|]|];
      eexists; rewrite <-?app_assoc; (split; [reflexivity|]); simpl.
    all: try (split; [by eauto 10|]; split; [done|]; set_solver).
    all: split; [set_solver|]; eexists _, e1; (split; [done|]); (split; [done|]).
    all: first [ by left
               | right; left; by rewrite Hopen
               | right; right; by rewrite Hopen ].
Qed.

(** ** Browser sessions *)

Lemma session_free_counts evs :
  Forall session_free evs →
  filter (λ ev, is_launch ev) evs = [] ∧ filter (λ ev, is_close ev) evs = [].
Proof.
  induction 1 as [|ev evs [Hl Hc] _ [IH1 IH2]]; [done|].
  rewrite !filter_cons, IH1, IH2, Hl, Hc. done.
Qed.

Lemma balanced_emits {A} (m : M A) : emits session_free m → balanced m.
Proof.
  intros Hm s. destruct (Hm s) as (evs & Hs & Hevs). exists evs. split; [done|].
  by destruct (session_free_counts evs Hevs) as [-> ->].
Qed.

Lemma balanced_bind {A B} (m : M A) (k : A → M B) :
  balanced m → (∀ a, balanced (k a)) → balanced (m ≫= k).
Proof.
  intros Hm Hk s. destruct (Hm s) as (evs & Hs & HP).
  unfold mbind, M_bind. destruct (m s) as [[a|e] s']; simpl in *.
  - destruct (Hk a s') as (evs' & Hs' & HP'). exists (evs ++ evs').
    rewrite Hs', Hs, app_assoc, !filter_app, !length_app. split; [done|lia].
  - by exists evs.
Qed.

Lemma balanced_try_except {A} (body : M A) (handler : exn → M A) :
  balanced body → (∀ e, balanced (handler e)) → balanced (try_except body handler).
Proof.
  intros Hm Hk s. destruct (Hm s) as (evs & Hs & HP).
  unfold try_except. destruct (body s) as [[a|e] s']; simpl in *.
  - by exists evs.
  - destruct (Hk e s') as (evs' & Hs' & HP'). exists (evs ++ evs').
    rewrite Hs', Hs, app_assoc, !filter_app, !length_app. split; [done|lia].
Qed.

Section Sessions.
Context (w : World).
Hypothesis Hpage : browser_new_page w = Ret ().
Hypothesis Hheaders : set_extra_http_headers w = Ret ().

(** A session whose body neither launches nor closes a browser, and which
    nothing interrupts between the launch and the [try]: the [finally]
    closes it, whatever the body did. *)
Lemma balanced_session {A} (body : M A) :
  emits session_free body →
  balanced (lift (browser_launch w);; emit EvLaunch;; try_finally body (close_browser w)).
Proof.
  intros Hbody s. unfold mbind, M_bind, lift, emit, try_finally, close_browser.
  destruct (browser_launch w) as [[]|e]; simpl.
  2:{ exists []. by rewrite app_nil_r. }
  destruct (Hbody (record EvLaunch s)) as (evs & Ht & Hfree).
  destruct (session_free_counts evs Hfree) as [Hl Hc].
  destruct (body (record EvLaunch s)) as [r s1]; simpl in *.
  exists ([EvLaunch] ++ evs ++ [EvClose]). split.
  - destruct (browser_close w) as [[]|e]; simpl; by rewrite Ht, <-!app_assoc.
  - by rewrite !filter_app, Hl, Hc.
Qed.

Lemma balanced_session_then {A B} (body : M A) (k : A → M B) :
  emits session_free body →
  (∀ a, emits session_free (k a)) →
  balanced (lift (browser_launch w);; emit EvLaunch;;
            a ← try_finally body (close_browser w); k a).
Proof.
  intros Hbody Hk s. unfold mbind, M_bind, lift, emit, try_finally, close_browser.
  destruct (browser_launch w) as [[]|e]; simpl.
  2:{ exists []. by rewrite app_nil_r. }
  destruct (Hbody (record EvLaunch s)) as (evs & Ht & Hfree).
  destruct (session_free_counts evs Hfree) as [Hl Hc].
  destruct (body (record EvLaunch s)) as [r s1]; simpl in *.
  destruct (browser_close w) as [[]|e]; simpl.
  - destruct r as [a|e]; simpl.
    + destruct (Hk a (record EvClose s1)) as (evs' & Ht' & Hfree').
      destruct (session_free_counts evs' Hfree') as [Hl' Hc'].
      exists ([EvLaunch] ++ evs ++ [EvClose] ++ evs'). split.
      * by rewrite Ht'; simpl; rewrite Ht, <-!app_assoc.
      * by rewrite !filter_app, Hl, Hc, Hl', Hc'.
    + exists ([EvLaunch] ++ evs ++ [EvClose]). split.
      * by rewrite Ht, <-!app_assoc.
      * by rewrite !filter_app, Hl, Hc.
  - exists ([EvLaunch] ++ evs ++ [EvClose]). split.
    + by rewrite Ht, <-!app_assoc.
    + by rewrite !filter_app, Hl, Hc.
Qed.

(** The sniff of [detect_platform] closes the session it opens, on every
    path: a match, no match, or an exception. *)
Lemma balanced_detect_platform url : balanced (detect_platform w url).
Proof.
  unfold detect_platform. rewrite Hpage.
  apply balanced_bind; [apply balanced_emits; emits_step|intros parsed]. cbv zeta.
  destruct (PyStr.contains "facebook.com" _); [apply balanced_emits; repeat emits_step|].
  destruct (_ || _); [apply balanced_emits; repeat emits_step|].
  apply (balanced_session (A := option string)). repeat emits_step.
Qed.

(** [scrape_media_urls] closes the session it opens, whatever happens on
    the page. *)
Lemma balanced_scrape_media_urls url : balanced (scrape_media_urls w url).
Proof.
  unfold scrape_media_urls. rewrite Hpage, Hheaders.
  apply (balanced_session_then (A := list string) (B := list string)).
  - apply emits_bind; [|intros [media_links fault]; repeat emits_step].
    apply quiet_emits, quiet_scrape_try_body. by intros [].
  - intros media_links. cbv zeta. repeat emits_step.
Qed.

Lemma balanced_download_generic url : balanced (download_generic w url).
Proof.
  unfold download_generic. cbv zeta.
  apply balanced_bind; [apply balanced_scrape_media_urls|intros media_links].
  apply balanced_emits.
  assert (∀ t m, emits session_free (is_type w t m)) as Htype
    by (intros; by apply emits_is_type).
  assert (∀ m dir, emits session_free (download_with_requests w m dir)) as Hdl
    by (intros; by apply emits_download_with_requests).
  assert (∀ m, emits session_free (get_media_type_from_url w m)) as Hty
    by (intros; by apply emits_get_media_type_from_url).
  destruct (bool_decide _); [repeat emits_step|].
  repeat first [ apply Hdl | apply Hty | apply emits_allM, Htype
               | apply emits_bind; [|intros ?] | emits_step ].
Qed.

Lemma balanced_download_media url : balanced (download_media w url).
Proof.
  assert (∀ t m, emits session_free (is_type w t m)) as Htype
    by (intros; by apply emits_is_type).
  assert (∀ m dir, emits session_free (download_with_requests w m dir)) as Hdl
    by (intros; by apply emits_download_with_requests).
  assert (∀ dir, emits session_free (download_with_ytdlp w url dir)) as Hyt
    by (intros; by apply emits_download_with_ytdlp).
  unfold download_media, download_media_with. cbv zeta.
  apply balanced_bind; [apply balanced_detect_platform|intros platform].
  destruct (negb _); [apply balanced_emits; repeat emits_step|].
  destruct (bool_decide (platform = Some "youtube")).
  { apply balanced_emits.
    repeat first [ apply Hyt | apply emits_bind; [|intros ?] | emits_step ]. }
  destruct (bool_decide (platform = Some "facebook")); [|apply balanced_download_generic].
  apply balanced_bind; [apply balanced_emits; emits_step|intros [|]].
  - apply balanced_try_except.
    { apply balanced_emits.
      repeat first [ apply Hyt | apply emits_bind; [|intros ?] | emits_step ]. }
    intros e. do 2 (apply balanced_bind; [apply balanced_emits; emits_step|intros ?]).
    apply balanced_bind; [apply balanced_scrape_media_urls|intros media_links].
    apply balanced_emits.
    destruct (bool_decide (media_links ≠ [])); [|repeat emits_step].
    do 2 (apply emits_bind; [by apply emits_filterM|intros ?]).
    repeat first [ apply Hdl | apply emits_bind; [|intros ?] | emits_step ].
  - apply balanced_bind; [apply balanced_scrape_media_urls|intros media_links].
    apply balanced_emits.
    destruct (bool_decide (media_links ≠ [])); [|repeat emits_step].
    do 2 (apply emits_bind; [by apply emits_filterM|intros ?]).
    repeat first [ apply Hdl | apply emits_bind; [|intros ?] | emits_step ].
Qed.

End Sessions.

(** X1: when [browser.new_page()] and [page.set_extra_http_headers()]
    return, [download_media] closes every browser session it opens, whatever
    the URL and the outcome (a file, [None] or an exception): the events it
    appends hold as many launches as calls of [browser.close()].  An exception
    of one of these two calls, which sit between the launch and the [try],
    skips the [finally]: where the browser opens no page, the call raises
    after a launch and without a call of [browser.close()]. *)
Theorem download_media_closes_sessions :
  (∀ w url s,
     browser_new_page w = Ret () →
     set_extra_http_headers w = Ret () →
     ∃ evs,
       trace (download_media w url s).2 = trace s ++ evs
       ∧ length (filter (λ ev, is_launch ev) evs)
         = length (filter (λ ev, is_close ev) evs))
  ∧ download_media pageless_world "https://example.org/clip" empty_state
    = (Raise (CollaboratorError "Target closed"), extend empty_state [EvLaunch]).
Proof.
  split; [|by vm_compute].
  intros w url s Hpage Hheaders. by apply balanced_download_media.
Qed.

Lemma download_media_closes_sessions_witness :
  ∃ evs,
    trace (download_media mixed_world "https://www.facebook.com/me/photo/2" empty_state).2
    = trace empty_state ++ evs
    ∧ length (filter (λ ev, is_launch ev) evs) = length (filter (λ ev, is_close ev) evs).
Proof.
  apply (proj1 download_media_closes_sessions mixed_world
           "https://www.facebook.com/me/photo/2" empty_state); reflexivity.
Defined.

(** ** The YouTube branch and the exhaustion of the Facebook branches *)




(** X3: on a URL classified as facebook, when the scraper finds no link
    (after the failed yt-dlp attempt of a video-shaped URL, or at once on a
    photo or feed URL), [download_media] prints the error of lines 260/279
    last and returns [None]: it does not raise and issues no [GET].  On a
    photo or feed URL the files are as they were (a failed yt-dlp attempt may
    leave files behind). *)
Theorem download_media_facebook_nothing_scraped w url s :
  platform_of w url = Ret (Some "facebook") →
  (is_video_shaped w url = Ret true → ∃ e, ytdlp_outcome w url (files s) = Raise e) →
  scraped w url = Ret [] →
  ∃ evs,
    (download_media w url s).1 = Ret None
    ∧ trace (download_media w url s).2 = trace s ++ evs ++ [EvPrint ErrorNoUsableMedia]
    ∧ Forall no_get evs
    ∧ (is_video_shaped w url = Ret false → files (download_media w url s).2 = files s).
Proof.
  intros Hplat Hyt Hscr.
  destruct (platform_of_accepted w url _ Hplat) as [parsed Hparse].
  destruct (is_video_shaped_accepted w url parsed Hparse) as [[|] Hshape].
  - destruct (Hyt Hshape) as [e He].
    destruct (download_media_facebook_fallback_nothing w url s e)
      as (s' & evs & Ht & Hevs & ->); try done.
    exists evs. simpl. by rewrite Hshape.
  - destruct (download_media_facebook_photo_nothing w url s)
      as (evs & Hevs & ->); try done.
    exists evs. simpl. split; [done|]. split; [by rewrite app_assoc|]. split; [|done].
    eapply Forall_impl; [apply Hevs|]. apply no_download_no_get.
Qed.

Lemma download_media_facebook_nothing_scraped_witness :
  (download_media sample_video_world "https://www.facebook.com/me/photo/3" empty_state).1
  = Ret None
  ∧ (download_media offline_world "https://www.facebook.com/watch/?v=10" empty_state).1
    = Ret None.
Proof.
  split.
  - destruct (download_media_facebook_nothing_scraped sample_video_world
                "https://www.facebook.com/me/photo/3" empty_state eq_refl
                ltac:(vm_compute; discriminate) eq_refl)
      as (evs & Hnone & _).
    exact Hnone.
  - destruct (download_media_facebook_nothing_scraped offline_world
                "https://www.facebook.com/watch/?v=10" empty_state eq_refl
                ltac:(intros _; eexists; reflexivity) eq_refl)
      as (evs & Hnone & _).
    exact Hnone.
Defined.

(** X4: in the fallback of a video-shaped Facebook URL (yt-dlp failed),
    when no scraped candidate is a video, the call ends in the download of
    the first image candidate into the image directory, whatever photo index
    the URL carries: the only [GET] is for that candidate, and when its
    download succeeds the call returns the file it wrote.  When no candidate
    is an image either, the call prints the error and returns [None] (where
    the photo branch raises), with no [GET]. *)
Theorem download_media_facebook_fallback_images w url s links e :
  platform_of w url = Ret (Some "facebook") →
  is_video_shaped w url = Ret true →
  ytdlp_outcome w url (files s) = Raise e →
  scraped w url = Ret links →
  classifiable w links →
  candidates_of_type w "video" links = [] →
  (∀ i imgs,
     candidates_of_type w "image" links = i :: imgs →
     ∃ evs, fetches w (download_media w url) s i IMAGE_DIR evs)
  ∧ (candidates_of_type w "image" links = [] →
     ∃ evs,
       (download_media w url s).1 = Ret None
       ∧ trace (download_media w url s).2 = trace s ++ evs ++ [EvPrint ErrorNoUsableMedia]
       ∧ Forall no_get evs).
Proof.
  intros Hplat Hshape Hyt Hscr Hcls Hvids. split.
  - intros i imgs Himgs.
    assert (links ≠ []) as Hne.
    { apply (candidates_nonempty w "image"). by rewrite Himgs. }
    destruct (download_media_facebook_fallback w url s links e)
      as (s' & evs & Ht & Hevs & Hrun); try done.
    rewrite Hvids, Himgs in Hrun.
    rewrite (bool_decide_eq_false_2 ([] ≠ [])) in Hrun by naive_solver.
    rewrite (bool_decide_eq_true_2 (i :: imgs ≠ [])) in Hrun by done.
    rewrite (getitem_head i imgs (λ x, download_with_requests w x IMAGE_DIR)) in Hrun.
    destruct (fetches_after w _ _ _ _ _ _ Hrun Ht Hevs) as (evs' & Hf & _). eauto.
  - intros Himgs. destruct (decide (links = [])) as [->|Hne].
    + destruct (download_media_facebook_fallback_nothing w url s e)
        as (s' & evs & Ht & Hevs & ->); try done.
      by exists evs.
    + destruct (download_media_facebook_fallback w url s links e)
        as (s' & evs & Ht & Hevs & ->); try done.
      exists evs. rewrite Hvids, Himgs.
      rewrite (bool_decide_eq_false_2 ([] ≠ [])) by naive_solver.
      unfold mbind, M_bind, print, emit, mret, M_ret, record. simpl.
      by rewrite Ht, <-app_assoc.
Qed.

Lemma download_media_facebook_fallback_images_witness :
  (download_media five_photos_world "https://www.facebook.com/me/videos/photo/3"
     empty_state).1 = Ret (Some "data/images/1.jpg")
  ∧ (download_media webp_world "https://www.facebook.com/me/videos/photo/3"
       empty_state).1 = Ret None.
Proof.
  split.
  - destruct (proj1 (download_media_facebook_fallback_images five_photos_world
                "https://www.facebook.com/me/videos/photo/3" empty_state
                [cdn "1.jpg"; cdn "2.jpg"; cdn "3.jpg"; cdn "4.jpg"; cdn "5.jpg"]
                (CollaboratorError "Unsupported URL")
                eq_refl eq_refl eq_refl eq_refl ltac:(classified) eq_refl)
              (cdn "1.jpg") [cdn "2.jpg"; cdn "3.jpg"; cdn "4.jpg"; cdn "5.jpg"] eq_refl)
      as (evs & _ & _ & Hsaved).
    apply (Hsaved "data/images/1.jpg"). exists "1.jpg". by repeat split.
  - destruct (proj2 (download_media_facebook_fallback_images webp_world
                "https://www.facebook.com/me/videos/photo/3" empty_state
                [cdn "1.webp"; cdn "2.webp"] (CollaboratorError "Unsupported URL")
                eq_refl eq_refl eq_refl eq_refl ltac:(classified) eq_refl) eq_refl)
      as (evs & Hnone & _).
    exact Hnone.
Defined.

(** X5: on a Facebook photo or feed URL whose candidates hold no video and
    at least one image, and whose photo index is [k], the call ends in the
    download of the image at position [k - 1] when [k] lies between 1 and the
    number of images; for any other index (zero, negative, too large) the
    warning of line 276 is printed and the call ends in the download of the
    first image.  In both cases the only [GET] is for the image chosen, and
    when its download succeeds the call returns the file it wrote into the
    image directory. *)
Theorem download_media_photo_index_general w url s links i imgs k :
  platform_of w url = Ret (Some "facebook") →
  is_video_shaped w url = Ret false →
  scraped w url = Ret links →
  classifiable w links →
  candidates_of_type w "video" links = [] →
  candidates_of_type w "image" links = i :: imgs →
  get_photo_index w url = Ret k →
  (1 ≤ k ≤ Z.of_nat (length (i :: imgs)) →
   ∃ c evs,
     (i :: imgs) !! Z.to_nat (k - 1) = Some c
     ∧ fetches w (download_media w url) s c IMAGE_DIR evs)
  ∧ (¬ (1 ≤ k ≤ Z.of_nat (length (i :: imgs))) →
     ∃ evs,
       fetches w (download_media w url) s i IMAGE_DIR evs
       ∧ EvPrint WarnPhotoIndexOutOfRange ∈ evs).
Proof.
  intros Hplat Hshape Hscr Hcls Hvids Himgs Hidx.
  destruct (download_media_photo_choice w url s links i imgs k)
    as (evs & Hevs & Hrun); try done.
  assert (Forall no_get evs) as Hevs'.
  { eapply Forall_impl; [apply Hevs|]. apply no_download_no_get. }
  split; intros Hk.
  - rewrite (bool_decide_eq_true_2 _ Hk) in Hrun. destruct Hrun as (c & Hc & Hrun).
    destruct (fetches_after w _ _ _ evs _ _ Hrun eq_refl Hevs') as (evs' & Hf & _).
    by exists c, evs'.
  - rewrite (bool_decide_eq_false_2 _ Hk) in Hrun.
    destruct (fetches_after w _ _ _ (evs ++ [EvPrint WarnPhotoIndexOutOfRange]) _ _
                Hrun eq_refl) as (evs' & Hf & evs1 & ->).
    { apply Forall_app. split; [done|by repeat constructor]. }
    eexists. split; [exact Hf|]. set_solver.
Qed.

Lemma download_media_photo_index_general_witness :
  (download_media five_photos_world "https://www.facebook.com/me/photo/5" empty_state).1
  = Ret (Some "data/images/5.jpg")
  ∧ (download_media five_photos_world "https://www.facebook.com/me/photo/0" empty_state).1
    = Ret (Some "data/images/1.jpg").
Proof.
  split.
  - destruct (proj1 (download_media_photo_index_general five_photos_world
                "https://www.facebook.com/me/photo/5" empty_state
                [cdn "1.jpg"; cdn "2.jpg"; cdn "3.jpg"; cdn "4.jpg"; cdn "5.jpg"]
                (cdn "1.jpg") [cdn "2.jpg"; cdn "3.jpg"; cdn "4.jpg"; cdn "5.jpg"] 5
                eq_refl eq_refl eq_refl ltac:(classified) eq_refl eq_refl eq_refl))
      as (c & evs & Hc & _ & _ & Hsaved); [simpl; lia|].
    vm_compute in Hc. injection Hc as <-.
    apply (Hsaved "data/images/5.jpg"). exists "5.jpg". by repeat split.
  - destruct (proj2 (download_media_photo_index_general five_photos_world
                "https://www.facebook.com/me/photo/0" empty_state
                [cdn "1.jpg"; cdn "2.jpg"; cdn "3.jpg"; cdn "4.jpg"; cdn "5.jpg"]
                (cdn "1.jpg") [cdn "2.jpg"; cdn "3.jpg"; cdn "4.jpg"; cdn "5.jpg"] 0
                eq_refl eq_refl eq_refl ltac:(classified) eq_refl eq_refl eq_refl))
      as (evs & (_ & _ & Hsaved) & _); [simpl; lia|].
    apply (Hsaved "data/images/1.jpg"). exists "1.jpg". by repeat split.
Defined.

(** ** What the scraper returns *)

Lemma keep_src_cdn_link src : keep_src src = true → cdn_link (default EmptyString src).
Proof.
  unfold keep_src, truthy, cdn_link. destruct src as [l|]; simpl; [|done].
  intros [Hne Hc]%andb_true_iff. by apply bool_decide_eq_true in Hne.
Qed.

Lemma collect_srcs_cdn_links els media_links :
  Forall cdn_link media_links → Forall cdn_link (collect_srcs els media_links).1.
Proof.
  revert media_links. induction els as [|el els IH]; intros media_links Hacc; simpl; [done|].
  destruct (get_attribute el "src") as [src|e]; simpl; [|done].
  apply IH. destruct (keep_src src) eqn:Hk; [|done].
  apply Forall_app. split; [done|]. apply Forall_singleton. by apply keep_src_cdn_link.
Qed.

Lemma collect_query_cdn_links q media_links :
  Forall cdn_link media_links → Forall cdn_link (collect_query q media_links).1.
Proof. destruct q; simpl; [apply collect_srcs_cdn_links|done]. Qed.

Lemma scrape_try_body_cdn_links w url s :
  ∃ media_links fault s',
    scrape_try_body w url s = (Ret (media_links, fault), s')
    ∧ files s' = files s
    ∧ Forall cdn_link media_links
    ∧ (∀ e, page_goto w url = Raise e → media_links = []).
Proof.
  unfold scrape_try_body.
  unfold mbind at 1. unfold M_bind at 1. unfold emit at 1.
  destruct (page_goto w url) as [page|e] eqn:Hgoto.
  2:{ eexists [], _, _. split; [reflexivity|]. split; [done|]. split; [constructor|done]. }
  pose proof (collect_query_cdn_links (query_selector_all page sel_video) []
                (Forall_nil_2 _)) as H1.
  destruct (collect_query (query_selector_all page sel_video) []) as [l1 f1] eqn:Hq1.
  pose proof (collect_query_cdn_links (query_selector_all page sel_media_vc_image) l1 H1)
    as H2.
  destruct (collect_query (query_selector_all page sel_media_vc_image) l1)
    as [l2 f2] eqn:Hq2.
  pose proof (collect_query_cdn_links (query_selector_all page sel_scontent) l2 H2) as H3.
  destruct (collect_query (query_selector_all page sel_scontent) l2) as [l3 f3] eqn:Hq3.
  unfold mbind, M_bind, emit, print, emit, record. simpl.
  destruct (wait_for_selector page sel_media_wait); simpl; rewrite ?Hq1; simpl;
    (destruct (bool_decide (is_Some f1)); simpl;
     [eexists _, _, _; split; [reflexivity|]; by repeat split|]);
    rewrite ?Hq2; simpl;
    (destruct (bool_decide (is_Some f2)); simpl;
     [eexists _, _, _; split; [reflexivity|]; by repeat split|]);
    rewrite ?Hq3; eexists _, _, _; (split; [reflexivity|]); by repeat split.
Qed.

(** X8: [scrape_media_urls] never touches the files.  It returns when
    the browser session can be set up and closed; the links it returns are
    pairwise distinct, each is non-empty and holds "fbcdn.net", and there is
    none when [page.goto] fails.  It raises only what the launch of the
    browser, [new_page] or [set_extra_http_headers] (lines 88-95, before the
    [try]) or [browser.close()] (in the [finally]) raised. *)
Theorem scrape_media_urls_result w url s :
  files (scrape_media_urls w url s).2 = files s
  ∧ (scrape_session w → ∃ links, (scrape_media_urls w url s).1 = Ret links)
  ∧ (∀ links,
       (scrape_media_urls w url s).1 = Ret links →
       NoDup links ∧ Forall cdn_link links
       ∧ (∀ e, page_goto w url = Raise e → links = []))
  ∧ (∀ e,
       (scrape_media_urls w url s).1 = Raise e →
       browser_launch w = Raise e ∨ browser_new_page w = Raise e
       ∨ set_extra_http_headers w = Raise e ∨ browser_close w = Raise e).
Proof.
  unfold scrape_session, scrape_media_urls.
  unfold mbind at 1 2 3 4. unfold M_bind at 1 2 3 4. unfold lift at 1 2 3. unfold emit at 1.
  destruct (browser_launch w) as [[]|e0]; [|simpl; naive_solver].
  destruct (browser_new_page w) as [[]|e0]; [|simpl; naive_solver].
  destruct (set_extra_http_headers w) as [[]|e0]; [|simpl; naive_solver].
  destruct (scrape_try_body_cdn_links w url (record EvLaunch s))
    as (media_links & fault & s' & Hrun & Hfiles & Hcdn & Hgoto).
  unfold record in Hrun.
  unfold mbind, M_bind, try_finally, close_browser, lift, emit, print, emit, mret, M_ret,
    record.
  rewrite Hrun.
  destruct (browser_close w) as [[]|e0]; destruct fault as [e1|]; simpl;
    (split; [done|]); try naive_solver.
  all: split; [intros _; by eexists|]; split; [|naive_solver].
  all: intros links [= <-]; rewrite dedup_is_keep_first.
  all: split; [apply NoDup_dedup_keep_first|]; split;
    [|intros e He; by rewrite (Hgoto e He)].
  all: apply Forall_forall; intros l Hl;
    apply (proj1 (elem_of_dedup_keep_first _ _)) in Hl;
    rewrite Forall_forall in Hcdn; by apply Hcdn.
Qed.

Lemma scrape_media_urls_result_witness :
  ∃ links,
    (scrape_media_urls mixed_world "https://www.facebook.com/me/photo/2" empty_state).1
    = Ret links.
Proof.
  apply (proj1 (proj2 (scrape_media_urls_result mixed_world
                         "https://www.facebook.com/me/photo/2" empty_state))).
  by repeat split.
Defined.

(** ** The plagiarism scanner *)

Section ScannerFacts.
Context {float : Type} (env : ScanEnv float).

Lemma verify_items_verdict q items answer :
  Plagiarism.verify_items env q items = Some answer → verdict answer.
Proof.
  induction items as [|item items IH]; simpl; [done|].
  destruct item as [link|e]; [|done].
  destruct (truthy link) eqn:Hlink; simpl; [|done].
  destruct (fetch_text env _) as [page|e]; [|done].
  assert (∃ l, l ≠ EmptyString ∧ link = Some l) as (l & Hl & ->).
  { destruct link as [l|]; [|done]. exists l. split; [|done].
    by apply bool_decide_eq_true in Hlink. }
  repeat case_match; try done; intros [= <-]; unfold verdict; eauto 6.
Qed.

Lemma verify_queries_verdict n queries :
  verdict (Plagiarism.verify_queries env n queries).
Proof.
  induction queries as [|q queries IH]; simpl; [by left|].
  destruct (brave_search env q) as [[results|]|e]; try done.
  destruct (Plagiarism.verify_items env q (take n results)) eqn:Hitems; [|done].
  by eapply verify_items_verdict.
Qed.

(** X10: whatever the web answers, [web_verify] returns one of three
    pairs: [("ORIGINAL", None)], or ["PLAGIARISM (exact)"] or
    ["PLAGIARISM (paraphrase)"] with a non-empty link.  No search or page
    failure surfaces as an exception or as another label. *)
Theorem web_verify_verdict paragraph :
  verdict (Plagiarism.web_verify env paragraph).
Proof. apply verify_queries_verdict. Qed.

Lemma scan_loop_spec paragraphs results p e ph :
  p = e + ph → 0 ≤ e → 0 ≤ ph →
  let '(results', (p', e', ph')) := Plagiarism.scan_loop env paragraphs results p e ph in
  p' = e' + ph' ∧ 0 ≤ e' ∧ 0 ≤ ph'
  ∧ p' - p ≤ Z.of_nat (length paragraphs)
  ∧ p ≤ p'
  ∧ sr_paragraph <$> results' = (sr_paragraph <$> results) ++ paragraphs
  ∧ (Forall (λ r, verdict (sr_label r, sr_web_source r)) results →
     Forall (λ r, verdict (sr_label r, sr_web_source r)) results').
Proof.
  revert results p e ph. induction paragraphs as [|para rest IH]; intros results p e ph Hp He Hph.
  - simpl. rewrite app_nil_r. repeat split; (done || lia).
  - simpl. pose proof (verify_queries_verdict 10 (Plagiarism.make_queries env para)) as Hv.
    change (Plagiarism.verify_queries env 10 (Plagiarism.make_queries env para))
      with (Plagiarism.web_verify env para) in Hv.
    destruct (Plagiarism.web_verify env para) as [label source].
    set (r := {| sr_paragraph := para; sr_label := label; sr_web_source := source |}).
    assert (∀ p1 e1 ph1, p1 = e1 + ph1 → 0 ≤ e1 → 0 ≤ ph1 → p ≤ p1 ≤ p + 1 →
            let '(results', (p', e', ph')) :=
              Plagiarism.scan_loop env rest (results ++ [r]) p1 e1 ph1 in
            p' = e' + ph' ∧ 0 ≤ e' ∧ 0 ≤ ph'
            ∧ p' - p ≤ Z.of_nat (S (length rest)) ∧ p ≤ p'
            ∧ sr_paragraph <$> results' = (sr_paragraph <$> results) ++ para :: rest
            ∧ (Forall (λ r, verdict (sr_label r, sr_web_source r)) results →
               Forall (λ r, verdict (sr_label r, sr_web_source r)) results')) as Hstep.
    { intros p1 e1 ph1 Hp1 He1 Hph1 Hrange.
      specialize (IH (results ++ [r]) p1 e1 ph1 Hp1 He1 Hph1).
      destruct (Plagiarism.scan_loop env rest (results ++ [r]) p1 e1 ph1)
        as [results' [[p' e'] ph']].
      destruct IH as (H1 & H2 & H3 & H4 & H5 & H6 & H7).
      repeat split; try (done || lia).
      - rewrite H6, fmap_app, <-app_assoc. done.
      - intros Hall. apply H7, Forall_app. split; [done|]. by apply Forall_singleton. }
    destruct Hv as [Hv|[(l & _ & Hv)|(l & _ & Hv)]]; injection Hv as -> ->; simpl;
      apply Hstep; lia.
Qed.

(** X11: the counts of a scan.  [_scan_paragraphs] returns one result per
    paragraph, in order; every result carries one of the three answers of
    [web_verify]; and in the summary [total] is the number of paragraphs,
    [plagiarized] is [exact + paraphrase], [original] is
    [total - plagiarized], and none of the counts is negative. *)
Theorem scan_paragraphs_counts paragraphs :
  let '(results, summary) := Plagiarism._scan_paragraphs env paragraphs in
  sr_paragraph <$> results = paragraphs
  ∧ Forall (λ r, verdict (sr_label r, sr_web_source r)) results
  ∧ sum_total summary = Z.of_nat (length paragraphs)
  ∧ sum_plagiarized summary = sum_exact summary + sum_paraphrase summary
  ∧ sum_original summary = sum_total summary - sum_plagiarized summary
  ∧ 0 ≤ sum_exact summary ∧ 0 ≤ sum_paraphrase summary ∧ 0 ≤ sum_original summary.
Proof.
  unfold Plagiarism._scan_paragraphs.
  pose proof (scan_loop_spec paragraphs [] 0 0 0 eq_refl ltac:(done) ltac:(done)) as Hspec.
  destruct (Plagiarism.scan_loop env paragraphs [] 0 0 0) as [results [[p e] ph]].
  destruct Hspec as (H1 & H2 & H3 & H4 & H5 & H6 & H7). simpl in *.
  assert (length results = length paragraphs) as Hlen.
  { by rewrite <-H6, length_fmap. }
  rewrite Hlen. repeat split; try (done || lia). by apply H7.
Qed.

End ScannerFacts.

(** *** Words *)

Lemma split_ws_cons c r :
  PyText.split_ws (String c r) =
  if PyStr.is_space c then PyText.split_ws r
  else match r with
       | EmptyString => [String c EmptyString]
       | String d _ =>
           if PyStr.is_space d then String c EmptyString :: PyText.split_ws r
           else match PyText.split_ws r with
                | h :: t => String c h :: t
                | [] => [String c EmptyString]
                end
       end.
Proof. by destruct r. Qed.

Lemma split_ws_nonspace d r :
  PyStr.is_space d = false → PyText.split_ws (String d r) ≠ [].
Proof.
  intros Hd. rewrite split_ws_cons, Hd. destruct r as [|e r]; [done|].
  destruct (PyStr.is_space e); [done|]. by destruct (PyText.split_ws _).
Qed.

Lemma split_ws_tokens s : Forall is_token (PyText.split_ws s).
Proof.
  induction s as [|c r IH]; [constructor|]. rewrite split_ws_cons.
  destruct (PyStr.is_space c) eqn:Hc; [done|].
  assert (is_token (String c EmptyString)) as Hone.
  { split; [done|]. simpl. by rewrite Hc. }
  destruct r as [|d r']; [by apply Forall_singleton|].
  destruct (PyStr.is_space d) eqn:Hd; [by constructor|].
  destruct (PyText.split_ws (String d r')) as [|h t]; [by apply Forall_singleton|].
  inversion_clear IH as [|?? [Hh1 Hh2] Ht]. constructor; [|done].
  split; [done|]. simpl. by rewrite Hc.
Qed.

Lemma split_ws_token w : is_token w → PyText.split_ws w = [w].
Proof.
  intros [Hne Hall]. induction w as [|c w IH]; [done|].
  simpl in Hall. apply andb_true_iff in Hall as [Hc%negb_true_iff Hall].
  rewrite split_ws_cons, Hc. destruct w as [|d w']; [done|].
  rewrite IH by done. simpl in Hall.
  apply andb_true_iff in Hall as [Hd%negb_true_iff _]. by rewrite Hd.
Qed.

Lemma split_ws_token_space w rest :
  is_token w →
  PyText.split_ws (w +:+ String " " rest) = w :: PyText.split_ws rest.
Proof.
  intros [Hne Hall]. induction w as [|c w IH]; [done|].
  simpl in Hall. apply andb_true_iff in Hall as [Hc%negb_true_iff Hall].
  rewrite append_cons, split_ws_cons, Hc. destruct w as [|d w'].
  - change (EmptyString +:+ String " " rest) with (String " " rest).
    change (PyStr.is_space " ") with true. cbv iota.
    by rewrite (split_ws_cons " " rest).
  - rewrite append_cons, <-append_cons, IH by done. simpl in Hall.
    apply andb_true_iff in Hall as [Hd%negb_true_iff _]. by rewrite Hd.
Qed.

Lemma split_ws_join ws :
  Forall is_token ws → PyText.split_ws (PyText.join " " ws) = ws.
Proof.
  induction 1 as [|w ws Hw Hws IH]; [done|].
  destruct ws as [|v ws]; [by apply split_ws_token|].
  change (PyText.join " " (w :: v :: ws)) with (w +:+ String " " (PyText.join " " (v :: ws))).
  by rewrite split_ws_token_space, IH.
Qed.

Lemma split_ws_take_str n s :
  (length (PyText.split_ws (PyText.take_str n s)) ≤ length (PyText.split_ws s))%nat.
Proof.
  revert n. induction s as [|c r IH]; intros [|k]; simpl PyText.take_str; try (simpl; lia).
  rewrite (split_ws_cons c r), (split_ws_cons c (PyText.take_str k r)).
  destruct (PyStr.is_space c) eqn:Hc; [apply IH|].
  specialize (IH k). destruct r as [|d r'].
  - by destruct k.
  - destruct k as [|k]; simpl PyText.take_str in *.
    + destruct (PyStr.is_space d); [simpl; lia|].
      destruct (PyText.split_ws (String d r')); simpl; lia.
    + destruct (PyStr.is_space d) eqn:Hd; rewrite ?Hd; [cbn [length]; lia|].
      pose proof (split_ws_nonspace d r' Hd) as Hr.
      pose proof (split_ws_nonspace d (PyText.take_str k r') Hd) as Ht.
      destruct (PyText.split_ws (String d r')),
        (PyText.split_ws (String d (PyText.take_str k r'))); done.
Qed.

Lemma size_list_to_set_le (l : list string) :
  (size (list_to_set (C := gset string) l) ≤ length l)%nat.
Proof.
  induction l as [|x l IH]; [by rewrite list_to_set_nil, size_empty|].
  rewrite list_to_set_cons, size_union_alt, size_singleton.
  assert (size (list_to_set (C := gset string) l ∖ {[x]}) ≤ size (list_to_set (C := gset string) l))%nat
    by (apply subseteq_size; set_solver).
  simpl. lia.
Qed.

Section ShortParagraphs.
Context {float : Type} (env : ScanEnv float).

Lemma make_queries_set_words paragraph q :
  q ∈ Plagiarism.make_queries_set paragraph →
  (length (PyText.split_ws q) ≤ length (PyText.split_ws paragraph))%nat.
Proof.
  unfold Plagiarism.make_queries_set. cbv zeta.
  pose proof (split_ws_tokens paragraph) as Htok.
  rewrite (split_ws_join _ Htok).
  set (words := PyText.split_ws paragraph) in *.
  assert (∀ l, l `sublist_of` words →
    (length (PyText.split_ws (PyText.join " " l)) ≤ length words)%nat) as Hsub.
  { intros l Hl. rewrite split_ws_join; [by apply sublist_length|].
    eapply Forall_forall. intros w Hw. eapply (proj1 (Forall_forall _ _) Htok).
    by eapply elem_of_submseteq; [|apply sublist_submseteq]. }
  intros Hq. apply elem_of_list_to_set, list_elem_of_filter in Hq as [_ Hq].
  assert (q ∈ [PyText.join " " words; PyText.take_str 200 (PyText.join " " words);
               PyText.join " " (take 20 words);
               PyText.join " " (PyText.last_n 20 words);
               PyText.join " " (take 20 (drop (length words / 2) words))]) as Hq'.
  { case_bool_decide; set_solver. }
  clear Hq. rewrite !elem_of_cons in Hq'.
  destruct Hq' as [->|[->|[->|[->|[->|Hq]]]]].
  - by apply Hsub.
  - etrans; [apply split_ws_take_str|]. by apply Hsub.
  - apply Hsub, sublist_take.
  - apply Hsub, sublist_drop.
  - apply Hsub. etrans; [apply sublist_take|apply sublist_drop].
  - by apply elem_of_nil in Hq.
Qed.

Lemma verify_items_few_words q items answer :
  (length (PyText.split_ws q) < 15)%nat →
  Plagiarism.verify_items env q items = Some answer → answer = ("ORIGINAL", None).
Proof.
  intros Hq. induction items as [|item items IH]; simpl; [done|].
  destruct item as [link|e]; [|done].
  destruct (truthy link); simpl; [|done].
  destruct (fetch_text env _); [|done].
  rewrite bool_decide_eq_true_2; [congruence|].
  pose proof (size_list_to_set_le (PyText.split_ws q)). lia.
Qed.

Lemma verify_queries_few_words n queries :
  Forall (λ q, (length (PyText.split_ws q) < 15)%nat) queries →
  Plagiarism.verify_queries env n queries = ("ORIGINAL", None).
Proof.
  induction 1 as [|q queries Hq Hqs IH]; simpl; [done|].
  destruct (brave_search env q) as [[results|]|e]; try done.
  destruct (Plagiarism.verify_items env q (take n results)) eqn:Hitems; [|done].
  by eapply verify_items_few_words.
Qed.

(** X12: a paragraph of fewer than fifteen words is never reported.  Every
    query [make_queries] forms has at most as many words as the paragraph,
    so the test of line 90 answers ["ORIGINAL"] at the first page that can be
    read, and so does line 103 when none can: whatever the search returns,
    [web_verify] gives [("ORIGINAL", None)]. *)
Theorem web_verify_short_paragraph paragraph :
  enumerates env →
  (length (PyText.split_ws paragraph) < 15)%nat →
  Plagiarism.web_verify env paragraph = ("ORIGINAL", None).
Proof.
  intros Henum Hshort. apply verify_queries_few_words, Forall_forall.
  intros q Hq%Henum%make_queries_set_words. lia.
Qed.

End ShortParagraphs.

Lemma web_verify_short_paragraph_witness :
  Plagiarism.web_verify echo_env "the quick brown fox jumps over the lazy dog"
  = ("ORIGINAL", None).
Proof.
  apply web_verify_short_paragraph.
  - intros X q Hq. by apply elem_of_elements.
  - vm_compute. lia.
Defined.

(** *** Paragraphs *)

Lemma lstrip_head s :
  PyStr.lstrip s = EmptyString
  ∨ ∃ c r, PyStr.lstrip s = String c r ∧ PyStr.is_space c = false.
Proof.
  induction s as [|c r IH]; simpl; [by left|].
  destruct (PyStr.is_space c) eqn:Hc; [done|]. right. by exists c, r.
Qed.

Lemma lstrip_snoc x c :
  PyStr.is_space c = false →
  ∃ y, PyStr.lstrip (x +:+ String c EmptyString) = y +:+ String c EmptyString.
Proof.
  intros Hc. induction x as [|a x IH].
  - exists EmptyString. simpl. by rewrite Hc.
  - rewrite append_cons. simpl. destruct (PyStr.is_space a); [done|].
    by exists (String a x).
Qed.

Lemma rstrip_head c r :
  PyStr.is_space c = false → ∃ r', PyStr.rstrip (String c r) = String c r'.
Proof.
  intros Hc. unfold PyStr.rstrip. rewrite rev_cons.
  destruct (lstrip_snoc (String.rev r) c Hc) as [y ->].
  exists (String.rev y). by rewrite rev_snoc.
Qed.

Lemma lstrip_idemp s : PyStr.lstrip (PyStr.lstrip s) = PyStr.lstrip s.
Proof.
  induction s as [|c r IH]; simpl; [done|].
  destruct (PyStr.is_space c) eqn:Hc; [done|]. simpl. by rewrite Hc.
Qed.

Lemma rstrip_idemp s : PyStr.rstrip (PyStr.rstrip s) = PyStr.rstrip s.
Proof. unfold PyStr.rstrip. by rewrite rev_involutive, lstrip_idemp. Qed.

Lemma strip_idemp s : PyStr.strip (PyStr.strip s) = PyStr.strip s.
Proof.
  unfold PyStr.strip. destruct (lstrip_head s) as [->|(c & r & -> & Hc)]; [done|].
  destruct (rstrip_head c r Hc) as [r' Hr].
  rewrite Hr at 1. simpl. rewrite Hc, <-Hr. apply rstrip_idemp.
Qed.

Lemma has_char_lstrip c s :
  PyStr.has_char c s = false → PyStr.has_char c (PyStr.lstrip s) = false.
Proof.
  induction s as [|a s IH]; simpl; [done|]. intros [Ha Hs]%orb_false_elim.
  destruct (PyStr.is_space a); [by apply IH|]. simpl. by rewrite Ha, Hs.
Qed.

Lemma has_char_rev c s : PyStr.has_char c (String.rev s) = PyStr.has_char c s.
Proof.
  induction s as [|a s IH]; [done|]. rewrite rev_cons, has_char_append, IH.
  simpl. by rewrite orb_false_r, orb_comm.
Qed.

Lemma has_char_strip c s :
  PyStr.has_char c s = false → PyStr.has_char c (PyStr.strip s) = false.
Proof.
  intros Hs. unfold PyStr.strip, PyStr.rstrip.
  rewrite has_char_rev. apply has_char_lstrip. rewrite has_char_rev.
  by apply has_char_lstrip.
Qed.

(** X13: the paragraphs [split_paragraphs] returns are never blank, carry
    no white space at either end (stripping them again changes nothing) and
    hold no line break. *)
Theorem split_paragraphs_clean text :
  Forall (λ p, p ≠ EmptyString ∧ PyStr.strip p = p ∧ PyStr.has_char "010" p = false)
         (Plagiarism.split_paragraphs text).
Proof.
  apply Forall_forall. intros p Hp. unfold Plagiarism.split_paragraphs in Hp.
  cbv zeta in Hp. apply list_elem_of_omap in Hp as (raw & Hraw & Hkeep).
  case_bool_decide as Hne; [|done]. injection Hkeep as <-.
  split; [done|]. split; [apply strip_idemp|].
  apply has_char_strip.
  by apply (proj1 (Forall_forall _ _) (split_parts_no_sep "010" text)).
Qed.

Lemma split_join sep l :
  l ≠ [] → Forall (λ p, PyStr.has_char sep p = false) l →
  PyStr.split sep (PyText.join (String sep EmptyString) l) = l.
Proof.
  intros Hne Hall. induction Hall as [|x l Hx Hl IH]; [done|].
  destruct l as [|y l]; [by apply split_no_sep|].
  change (PyText.join (String sep EmptyString) (x :: y :: l))
    with (x +:+ String sep (PyText.join (String sep EmptyString) (y :: l))).
  by rewrite split_append, (split_no_sep sep x), IH.
Qed.

Lemma omap_keep_all {A B} (keep : A → bool) (f : A → B) (l : list A) :
  Forall (λ x, keep x = true) l →
  omap (λ x, if keep x then Some (f x) else None) l = f <$> l.
Proof.
  induction 1 as [|x l Hx Hl IH]; [done|].
  change (omap (λ x, if keep x then Some (f x) else None) (x :: l))
    with (match (if keep x then Some (f x) else None) with
          | Some y => y :: omap (λ x, if keep x then Some (f x) else None) l
          | None => omap (λ x, if keep x then Some (f x) else None) l
          end).
  by rewrite Hx, IH.
Qed.

Lemma split_paragraphs_extract_docx texts :
  Forall (λ t, PyStr.has_char "010" t = false) texts →
  Plagiarism.split_paragraphs (Plagiarism.extract_docx_text texts)
  = PyStr.strip <$> filter (λ t, PyStr.strip t ≠ EmptyString) texts.
Proof.
  intros Hall. unfold Plagiarism.split_paragraphs, Plagiarism.extract_docx_text.
  cbv zeta. set (kept := filter _ texts).
  assert (Forall (λ t, PyStr.strip t ≠ EmptyString) kept) as Hkept.
  { apply Forall_forall. intros t Ht. by apply list_elem_of_filter in Ht as [? _]. }
  assert (Forall (λ t, PyStr.has_char "010" t = false) kept) as Hfree.
  { apply Forall_forall. intros t Ht. apply list_elem_of_filter in Ht as [_ Ht].
    by apply (proj1 (Forall_forall _ _) Hall). }
  destruct (decide (kept = [])) as [->|Hne]; [done|].
  unfold newline. rewrite split_join by done.
  apply (omap_keep_all (λ p, bool_decide (PyStr.strip p ≠ EmptyString)) PyStr.strip).
  eapply Forall_impl; [exact Hkept|]. intros t Ht. by apply bool_decide_eq_true_2.
Qed.

(** X14: what [scan_file] scans.  For a path that exists and a document
    whose paragraph texts hold no line break, the paragraphs scanned are the
    texts that are not blank, each stripped, in the order of the document:
    joining them with line breaks in [extract_docx] and splitting them again
    in [split_paragraphs] loses nothing.  The file system is left as it
    was. *)
Theorem scan_file_scans_document {float} (env : ScanEnv float) path texts s :
  path ∈ files s →
  docx_paragraphs env path = Ret texts →
  Forall (λ t, PyStr.has_char "010" t = false) texts →
  Plagiarism.scan_file env path s
  = (Ret (Plagiarism._scan_paragraphs env
            (PyStr.strip <$> filter (λ t, PyStr.strip t ≠ EmptyString) texts)), s).
Proof.
  intros Hpath Hdoc Hall. unfold Plagiarism.scan_file.
  unfold mbind, M_bind, path_exists, lift, mret, M_ret.
  rewrite bool_decide_eq_true_2 by done. simpl. rewrite Hdoc.
  by rewrite split_paragraphs_extract_docx.
Qed.

Lemma scan_file_scans_document_witness :
  Plagiarism.scan_file echo_env "essay.docx" (state_with_files ["essay.docx"])
  = (Ret (Plagiarism._scan_paragraphs echo_env
            (PyStr.strip <$> filter (λ t, PyStr.strip t ≠ EmptyString)
               ["  First paragraph. "; "   "; "Second paragraph."])),
     state_with_files ["essay.docx"]).
Proof.
  apply scan_file_scans_document.
  - vm_compute. set_solver.
  - reflexivity.
  - repeat constructor.
Defined.

(** ** Routing and analysis *)

Section AnalysisFacts.
Context {frame score float : Type}.
Context (an : Analysis frame score) (env : ScanEnv float).

Lemma predict_video_state video_path num_samples s :
  (predict_video an video_path num_samples s).2 = s.
Proof.
  unfold predict_video, mbind, M_bind, path_exists, raise, lift, mret, M_ret.
  destruct (bool_decide (video_path ∈ files s)); simpl; [|done].
  destruct (video_capture an video_path) as [cap|e]; [|done].
  case_bool_decide; [done|].
  destruct (sample_frames an _ _ _ _ _) as [[realism_scores deepfake_scores]|e]; [|done].
  by destruct (ge_video_threshold an _).
Qed.

Lemma predict_video_shape video_path num_samples s label real fake :
  (predict_video an video_path num_samples s).1 = Ret (Some (label, real, fake)) →
  (label = "FAKE" ∧ real = None ∧ is_Some fake)
  ∨ (label = "REAL" ∧ is_Some real ∧ fake = None).
Proof.
  unfold predict_video, mbind, M_bind, path_exists, raise, lift, mret, M_ret.
  destruct (bool_decide (video_path ∈ files s)); simpl; [|done].
  destruct (video_capture an video_path) as [cap|e]; [|done].
  case_bool_decide; [done|].
  destruct (sample_frames an _ _ _ _ _) as [[realism_scores deepfake_scores]|e]; [|done].
  destruct (ge_video_threshold an _); simpl; intros [= <- <- <-]; [left|right]; eauto.
Qed.

(** X15: the shape of what [predict_video] returns.  When it returns a
    triple, exactly one of the two confidences is [None]: a ["FAKE"] verdict
    carries the deepfake score only, a ["REAL"] verdict the realism score
    only; and the call leaves the file system and the trace as they were. *)
Theorem predict_video_one_confidence video_path num_samples s label real fake s' :
  predict_video an video_path num_samples s = (Ret (Some (label, real, fake)), s') →
  s' = s
  ∧ ((label = "FAKE" ∧ real = None ∧ is_Some fake)
     ∨ (label = "REAL" ∧ is_Some real ∧ fake = None)).
Proof.
  intros Hrun. split.
  - by rewrite <-(predict_video_state video_path num_samples s), Hrun.
  - apply (predict_video_shape video_path num_samples s). by rewrite Hrun.
Qed.

(** X16: a video that cannot be decoded is reported real.  When the
    capture reports a frame count other than zero but yields no frame, no
    score is collected, both medians default to 0.0, and, 0.0 being below
    the threshold, [predict_video] returns [("REAL", 0.0, None)]. *)
Theorem predict_video_no_frames video_path num_samples s cap :
  video_path ∈ files s →
  video_capture an video_path = Ret cap →
  total_frames cap ≠ 0 →
  frames cap = [] →
  ge_video_threshold an (score_zero an) = false →
  predict_video an video_path num_samples s
  = (Ret (Some ("REAL", Some (score_zero an), None)), s).
Proof.
  intros Hpath Hcap Htotal Hframes Hzero.
  unfold predict_video, mbind, M_bind, path_exists, raise, lift, mret, M_ret.
  rewrite bool_decide_eq_true_2 by done. simpl. rewrite Hcap.
  rewrite bool_decide_eq_false_2 by done. rewrite Hframes. simpl.
  by rewrite Hzero.
Qed.

Lemma run_inference_video file_path s :
  get_media_type an file_path = "video" →
  ∃ e, run_inference an env file_path s = (Raise e, s)
       ∧ (∀ r, (predict_video an file_path 25 s).1 = Ret r → e = TypeError).
Proof.
  intros Hvideo. unfold run_inference. cbv zeta. rewrite Hvideo.
  rewrite bool_decide_eq_false_2, bool_decide_eq_true_2 by done.
  pose proof (predict_video_state file_path 25 s) as Hstate.
  pose proof (predict_video_shape file_path 25 s) as Hshape.
  destruct (predict_video an file_path 25 s) as [[prediction|e] s0] eqn:Hrun;
    simpl in Hstate; subst s0.
  - exists TypeError. split; [|done]. rewrite (bind_run _ _ _ _ _ Hrun).
    destruct prediction as [[[label real] fake]|]; [|done].
    destruct (Hshape label real fake eq_refl) as [(_ & -> & _)|(_ & [x ->] & ->)]; done.
  - exists e. split; [by rewrite (bind_run_raise _ _ _ _ _ Hrun)|]. done.
Qed.

(** X17: [run_inference] never returns for a video.  When
    [get_media_type] says ["video"], the call raises and leaves the state as
    it was: either [predict_video] raises, or it returns, and then unpacking
    its [None] or formatting the confidence that is [None] with [.4f] raises
    [TypeError]. *)
Theorem run_inference_video_raises file_path s :
  get_media_type an file_path = "video" →
  ∃ e, run_inference an env file_path s = (Raise e, s)
       ∧ (∀ r, (predict_video an file_path 25 s).1 = Ret r → e = TypeError).
Proof. apply run_inference_video. Qed.

Lemma basename_joinpath dir name :
  PyStr.has_char "/" name = false → Url.basename (Url.joinpath dir name) = name.
Proof.
  intros Hname. unfold Url.basename, Url.joinpath.
  change (dir +:+ "/" +:+ name) with (dir +:+ String "/" name).
  by rewrite rsplit_once_append.
Qed.

Lemma basename_idemp p : Url.basename (Url.basename p) = Url.basename p.
Proof.
  unfold Url.basename at 1.
  by rewrite rsplit_once_no_char by apply basename_no_slash.
Qed.

Lemma save_to_correct_folder_returns file_path s dest_path s' :
  (∀ p, guess_type an p = guess_type an (Url.basename p)) →
  save_to_correct_folder an file_path s = (Ret dest_path, s') →
  files s' = files s ∖ {[file_path]} ∪ {[dest_path]}
  ∧ Url.basename dest_path = Url.basename file_path
  ∧ get_media_type an dest_path = get_media_type an file_path
  ∧ dest_path = Url.joinpath (if bool_decide (get_media_type an file_path = "image")
                              then IMAGE_DIR else VIDEO_DIR) (Url.basename file_path).
Proof.
  intros Hname Hrun.
  set (dest_dir := if bool_decide (get_media_type an file_path = "image")
                   then IMAGE_DIR else VIDEO_DIR).
  assert (dest_path = Url.joinpath dest_dir (Url.basename file_path)
          ∧ files s' = files s ∖ {[file_path]} ∪ {[dest_path]}) as [Hdest Hfiles].
  { revert Hrun. unfold save_to_correct_folder, mbind, M_bind, os_replace, mret, M_ret.
    cbv zeta. fold dest_dir.
    destruct (bool_decide (file_path ∈ files s)); [|done].
    by intros [= <- <-]. }
  assert (Url.basename dest_path = Url.basename file_path) as Hbase.
  { rewrite Hdest. apply basename_joinpath, basename_no_slash. }
  repeat split; try done.
  unfold get_media_type. by rewrite (Hname dest_path), Hbase, <-(Hname file_path).
Qed.

(** X18: routing settles.  If the type guessed for a path depends on its
    file name only, then routing the path [save_to_correct_folder] returned
    once more returns the same path and changes no file: a file that is in
    the folder of its type stays there. *)
Theorem save_to_correct_folder_settles file_path s dest_path s' :
  (∀ p, guess_type an p = guess_type an (Url.basename p)) →
  save_to_correct_folder an file_path s = (Ret dest_path, s') →
  save_to_correct_folder an dest_path s' = (Ret dest_path, extend s' [EvRename dest_path dest_path]).
Proof.
  intros Hname Hrun.
  destruct (save_to_correct_folder_returns _ _ _ _ Hname Hrun)
    as (Hfiles & Hbase & Htype & Hdest).
  unfold save_to_correct_folder, mbind, M_bind, os_replace, mret, M_ret. cbv zeta.
  rewrite Htype, Hbase, <-Hdest.
  assert (dest_path ∈ files s') as Hin by (rewrite Hfiles; set_solver).
  rewrite (bool_decide_eq_true_2 (dest_path ∈ files s') Hin).
  unfold extend. do 2 f_equal. clear -Hin. apply set_eq. intros x.
  destruct (decide (x = dest_path)) as [->|]; set_solver.
Qed.

(** X19: [utils_downloader.get_media_type] is [get_media_type] of
    [app.py] without the documents: the two agree on every path except those
    [app.py] calls ["document"], which [utils_downloader] calls
    ["unknown"]. *)
Theorem get_media_type_agreement file_path :
  UtilsDownloader.get_media_type an file_path
  = if bool_decide (get_media_type an file_path = "document") then "unknown"
    else get_media_type an file_path.
Proof.
  unfold UtilsDownloader.get_media_type, get_media_type.
  destruct (guess_type an file_path) as [mime|]; [|done].
  case_bool_decide; [|done].
  destruct (PyStr.startswith "image" mime); [done|].
  destruct (PyStr.startswith "video" mime); [done|].
  by destruct (bool_decide (mime ∈ _)).
Qed.

End AnalysisFacts.

Section MainFacts.
Context {frame score float : Type}.
Context (w : World) (an : Analysis frame score) (env : ScanEnv float).

(** X20: the command line never completes the analysis of a downloaded
    video.  In the URL flow of [main], when [download_media] returns a path
    whose type is ["video"] (types being guessed from the file name), [main]
    ends in an exception nothing catches: [save_to_correct_folder] raises
    when the file is missing, and [run_inference] raises otherwise. *)
Theorem main_downloaded_video_raises prog arg1 args s media_path s1 :
  (∀ p, guess_type an p = guess_type an (Url.basename p)) →
  PyStr.strip arg1 ≠ "--text" →
  PyStr.strip arg1 ∉ files s →
  download_media w (PyStr.strip arg1) s = (Ret (Some media_path), s1) →
  get_media_type an media_path = "video" →
  ∃ e, (main w an env (prog :: arg1 :: args) s).1 = Raise e.
Proof.
  intros Hname Htext Hfile Hdl Hvideo. unfold main. cbv zeta.
  rewrite bool_decide_eq_false_2 by done.
  unfold mbind at 1, M_bind at 1, path_exists.
  rewrite bool_decide_eq_false_2 by done.
  rewrite (bind_run _ _ _ _ _ Hdl).
  destruct (save_to_correct_folder an media_path s1) as [[final_path|e] s2] eqn:Hsave.
  - rewrite (bind_run _ _ _ _ _ Hsave).
    destruct (save_to_correct_folder_returns an _ _ _ _ Hname Hsave)
      as (_ & _ & Htype & _).
    destruct (run_inference_video an env final_path s2) as (e & Hrun & _);
      [congruence|].
    exists e. by rewrite (bind_run_raise _ _ _ _ _ Hrun).
  - exists e. by rewrite (bind_run_raise _ _ _ _ _ Hsave).
Qed.

(** X21: the two platform detectors agree where both decide by the host.
    Whenever [utils_downloader.detect_platform] answers ["facebook"] or
    ["youtube"], [detect_platform] of [app.py] returns the same platform (and
    opens no browser for it). *)
Theorem detect_platform_agreement url platform s :
  UtilsDownloader.detect_platform w url = Ret platform →
  platform = "facebook" ∨ platform = "youtube" →
  detect_platform w url s
  = (Ret (Some platform),
     extend s
       [EvPrint (if bool_decide (platform = "facebook")
                 then DebugDomainFacebook else DebugDomainYouTube)]).
Proof.
  unfold UtilsDownloader.detect_platform, detect_platform.
  unfold mbind at 1 2. unfold outcome_bind, M_bind. unfold lift at 1.
  destruct (urlparse w url) as [parsed|e]; [|done]. cbv zeta.
  destruct (PyStr.contains "facebook.com" _); [by intros [= <-] _|].
  destruct (PyStr.contains "twitter.com" _ || PyStr.contains "x.com" _);
    [by intros [= <-] [|]|].
  destruct (PyStr.contains "youtube.com" _ || PyStr.contains "youtu.be" _);
    [by intros [= <-] _|by intros [= <-] [|]].
Qed.

End MainFacts.

Lemma predict_video_one_confidence_witness :
  let an := sample_analysis (Ret {| total_frames := 3; frames := [0; 1; 2]%nat |}) in
  let s := state_with_files ["data/videos/clip.mp4"] in
  s = s
  ∧ (("REAL" = "FAKE" ∧ Some 8999 = None ∧ is_Some (@None Z))
     ∨ ("REAL" = "REAL" ∧ is_Some (Some 8999) ∧ @None Z = None)).
Proof.
  intros an s.
  apply (predict_video_one_confidence an "data/videos/clip.mp4" 25 s).
  by vm_compute.
Defined.

Lemma predict_video_no_frames_witness :
  let an := sample_analysis (Ret {| total_frames := 120; frames := [] |}) in
  let s := state_with_files ["data/videos/clip.mp4"] in
  predict_video an "data/videos/clip.mp4" 25 s = (Ret (Some ("REAL", Some 0, None)), s).
Proof.
  intros an s.
  apply (predict_video_no_frames an "data/videos/clip.mp4" 25 s
           {| total_frames := 120; frames := [] |}).
  - vm_compute. set_solver.
  - reflexivity.
  - done.
  - reflexivity.
  - reflexivity.
Defined.

Lemma run_inference_video_raises_witness :
  let an := sample_analysis (Ret {| total_frames := 3; frames := [0; 1; 2]%nat |}) in
  let s := state_with_files ["data/videos/clip.mp4"] in
  ∃ e, run_inference an echo_env "data/videos/clip.mp4" s = (Raise e, s)
       ∧ (∀ r, (predict_video an "data/videos/clip.mp4" 25 s).1 = Ret r → e = TypeError).
Proof.
  intros an s. apply run_inference_video_raises. reflexivity.
Defined.

Lemma save_to_correct_folder_settles_witness :
  let an := sample_analysis (Raise ValueError) in
  let s' := {| files := files (state_with_files ["data/videos/photo.jpg"])
                        ∖ {["data/videos/photo.jpg"]} ∪ {["data/images/photo.jpg"]};
               trace := [EvRename "data/videos/photo.jpg" "data/images/photo.jpg"] |} in
  save_to_correct_folder an "data/images/photo.jpg" s'
  = (Ret "data/images/photo.jpg",
     extend s' [EvRename "data/images/photo.jpg" "data/images/photo.jpg"]).
Proof.
  intros an s'.
  apply (save_to_correct_folder_settles an "data/videos/photo.jpg"
           (state_with_files ["data/videos/photo.jpg"]) "data/images/photo.jpg" s').
  - intros p. simpl. unfold by_extension. by rewrite basename_idemp.
  - by vm_compute.
Defined.

Lemma main_downloaded_video_raises_witness :
  let an := sample_analysis (Ret {| total_frames := 3; frames := [0; 1; 2]%nat |}) in
  ∃ e, (main sample_video_world an echo_env
          ["app.py"; "https://www.youtube.com/watch?v=abc"] empty_state).1 = Raise e.
Proof.
  intros an.
  refine (main_downloaded_video_raises sample_video_world an echo_env
            "app.py" "https://www.youtube.com/watch?v=abc" [] empty_state
            "data/videos/youtube_1.mp4" _ _ _ _ _ _).
  - intros p. simpl. unfold by_extension. by rewrite basename_idemp.
  - by vm_compute.
  - vm_compute. set_solver.
  - vm_compute. reflexivity.
  - reflexivity.
Defined.

Lemma detect_platform_agreement_witness :
  detect_platform sample_video_world "https://youtu.be/abc" empty_state
  = (Ret (Some "youtube"),
     extend empty_state
       [EvPrint (if bool_decide ("youtube" = "facebook")
                 then DebugDomainFacebook else DebugDomainYouTube)]).
Proof.
  apply (detect_platform_agreement sample_video_world "https://youtu.be/abc" "youtube"
           empty_state).
  - reflexivity.
  - by right.
Defined.
